(** * asciipixels: the parameter resolver, the geometry planner and the
    frame renderer of [src/asciipixels], embedded in Rocq.

    The development follows the Python sources:
    - [core.py]: [PossiblyDynamic], [CoreAsciifier] and its methods;
    - [image/image.py], [video/video.py]: the entry points and the
      per-frame workers;
    - [utils.py]: [multiprocessing_guard] and [safe_path].

    Conventions of the embedding.
    - Python values are the constructors of [pyval]; Python's [int] is [Z].
    - Python's [float] is IEEE 754 binary64, as the Standard Library
      specifies it in [SpecFloat] (precision 53, [emax] 1024): products,
      quotients and differences are rounded to nearest, ties to even; NaN
      and the infinities are values; a conversion of an int that is too
      large, [int] and [math.ceil] of an infinity raise [OverflowError],
      of a NaN [ValueError].  A float literal is the double nearest to it.
      The floats of a run are the doubles in [SpecFloat]'s canonical
      representation ([valid_binary]), which its operations return.
      [bool] (a subclass of [int]) is left out of the value universe.
    - Python compares by identity before it compares by value where it
      searches a list ([list.index]); identity is not part of the value
      universe, and a NaN is taken to be the same object as a NaN at the
      place where it is searched for.
    - A raised exception is the [Raise] constructor of [result]; a method
      that mutates [self] is a computation of the monad [M], which keeps
      the mutations made before an exception is raised.
    - ImageMagick, FFmpeg and PIL are external collaborators: they are the
      fields of the class [External].  Of pathlib, the parts of a path
      ([parent], [stem], [suffix]) are the collaborators [PathOps], with
      [str.isdigit] and [int] on a string.  The file system is a map from
      path strings to what they hold. *)

From Stdlib Require Import ZArith String Ascii List Lia Bool SpecFloat.
From stdpp Require Import base gmap strings list pretty.

Local Open Scope string_scope.
Local Open Scope Z_scope.

(** ** Python values and exceptions *)

Inductive exn : Type :=
| AsciifierException (msg : string)
| MagickException (msg : string)
| FFmpegException (msg : string)
| FileNotFoundError
| FileExistsError
| NotADirectoryError
| TypeError
| AttributeError
| IndexError
| ValueError
| ZeroDivisionError
| OverflowError
| SystemExit.

Inductive result (A : Type) : Type :=
| Ok (a : A)
| Raise (e : exn).
Arguments Ok {A} a.
Arguments Raise {A} e.

Definition rbind {A B : Type} (r : result A) (k : A -> result B) : result B :=
  match r with
  | Ok a => k a
  | Raise e => Raise e
  end.

Declare Scope py_scope.
Delimit Scope py_scope with py.
Notation "x <- r ;; k" := (rbind r (fun x => k))
  (at level 100, r at next level, right associativity) : py_scope.

(** A Python [float]: a binary64 value. *)
Definition float : Type := spec_float.

#[warnings="-register-all"]
Inductive pyval : Type :=
| VNone
| VInt (n : Z)
| VFloat (x : float)
| VStr (s : string)
| VTuple (t : list pyval)
| VList (l : list pyval).

(** A parameter handed to [PossiblyDynamic]: [callable(func_or_value)] is
    the tag.  A callable is a function of the frame number. *)
Inductive func_or_value : Type :=
| Callable (g : Z -> pyval)
| Value (v : pyval).

(** [range(a, b)]. *)
Definition py_range (a b : Z) : list Z := seqZ a (b - a).

(** [l[i]] on a sequence of length [length l]: a negative index counts from
    the end, an index out of range raises [IndexError]. *)
Definition seq_index {A : Type} (l : list A) (i : Z) : result A :=
  let n := Z.of_nat (length l) in
  let j := if i <? 0 then i + n else i in
  if (j <? 0) || (n <=? j) then Raise IndexError
  else match l !! Z.to_nat j with
       | Some x => Ok x
       | None => Raise IndexError
       end.

Definition string_to_list (s : string) : list ascii := list_ascii_of_string s.
Definition string_of_list (l : list ascii) : string := string_of_list_ascii l.

(** [v[i]] for an integer [i]. *)
Definition py_subscript (v : pyval) (i : Z) : result pyval :=
  match v with
  | VList l | VTuple l => seq_index l i
  | VStr s =>
      (c <- seq_index (string_to_list s) i ;; Ok (VStr (String c EmptyString)))%py
  | VNone | VInt _ | VFloat _ => Raise TypeError
  end.

(** [v[::-1]]. *)
Definition py_reversed (v : pyval) : result pyval :=
  match v with
  | VStr s => Ok (VStr (string_of_list (rev (string_to_list s))))
  | VTuple t => Ok (VTuple (rev t))
  | VList l => Ok (VList (rev l))
  | VNone | VInt _ | VFloat _ => Raise TypeError
  end.

(** [len(v)]. *)
Definition py_len (v : pyval) : result Z :=
  match v with
  | VStr s => Ok (Z.of_nat (String.length s))
  | VTuple l | VList l => Ok (Z.of_nat (length l))
  | VNone | VInt _ | VFloat _ => Raise TypeError
  end.

(** ** [class PossiblyDynamic] (core.py) *)

Record PossiblyDynamic : Type := mkPossiblyDynamic {
  is_dynamic : bool;
  value : pyval;
  color_type : bool;
  reverse : bool
}.

Definition no_frame_count_msg : string :=
  "No frame count was given in order to pre-calculate dynamic parameters.".
Definition no_frame_msg : string :=
  "Frame was not specified for dynamic parameter.".

(** [PossiblyDynamic.__init__]. *)
Definition PossiblyDynamic_init (fv : func_or_value) (frame_count : option Z)
    (color_type reverse : bool) : result PossiblyDynamic :=
  match fv with
  | Callable g =>
      match frame_count with
      | None => Raise (AsciifierException no_frame_count_msg)
      | Some n =>
          Ok {| is_dynamic := true;
                value := VList (map g (py_range 1 (n + 1)));
                color_type := color_type;
                reverse := reverse |}
      end
  | Value v =>
      Ok {| is_dynamic := false; value := v;
            color_type := color_type; reverse := reverse |}
  end.

(** The [try: ... except TypeError:] block of [__getitem__]. *)
Definition dynamic_lookup (v : pyval) (frame : option Z) : result pyval :=
  match frame with
  | None => Raise (AsciifierException no_frame_msg)
  | Some f =>
      match py_subscript v (f - 1) with
      | Raise TypeError => Raise (AsciifierException no_frame_msg)
      | r => r
      end
  end.

(** The two returns that follow the lookup in [__getitem__]. *)
Definition output_transform (color_type reverse : bool) (resp : pyval)
    : result pyval :=
  match color_type, resp with
  | true, VInt n => Ok (VTuple [VInt n; VInt n; VInt n])
  | _, _ => if reverse then py_reversed resp else Ok resp
  end.

(** [PossiblyDynamic.__getitem__]. *)
Definition PossiblyDynamic_getitem (self : PossiblyDynamic) (frame : option Z)
    : result pyval :=
  (resp <- (if is_dynamic self then dynamic_lookup (value self) frame
            else Ok (value self)) ;;
   output_transform (color_type self) (reverse self) resp)%py.

(** ** Floating-point arithmetic

    The operations of binary64 are the ones of [SpecFloat] at precision 53
    and [emax] 1024. *)

Definition fmul : float -> float -> float := SFmul 53 1024.
Definition fdiv : float -> float -> float := SFdiv 53 1024.
Definition fsub : float -> float -> float := SFsub 53 1024.

(** [x == 0.0]: both zeros. *)
Definition float_is_zero (x : float) : bool :=
  match x with
  | S754_zero _ => true
  | _ => false
  end.

(** The conversion of an int to a float ([PyLong_AsDouble]): the nearest
    double, ties to even; an int that rounds beyond the largest double
    raises [OverflowError]. *)
Definition float_of_int (n : Z) : result float :=
  match binary_normalize 53 1024 n 0 false with
  | S754_infinity _ => Raise OverflowError
  | x => Ok x
  end.

(** The float literals of the sources: the doubles nearest to 1.7, 1.5 and
    0.5 (the last two are exact). *)
Definition float_1_7 : float := S754_finite false 7656119366529843 (-52).
Definition float_1_5 : float := S754_finite false 6755399441055744 (-52).
Definition float_0_5 : float := S754_finite false 4503599627370496 (-53).

(** The integer part of the magnitude [m * 2^e]. *)
Definition magnitude_floor (m : positive) (e : Z) : Z := Z.shiftl (Z.pos m) e.

(** The least integer at or above the magnitude [m * 2^e]. *)
Definition magnitude_ceil (m : positive) (e : Z) : Z := - Z.shiftl (Z.neg m) e.

(** [int(x)] for a float [x]: truncation toward zero. *)
Definition py_int (x : float) : result Z :=
  match x with
  | S754_nan => Raise ValueError
  | S754_infinity _ => Raise OverflowError
  | S754_zero _ => Ok 0
  | S754_finite s m e =>
      Ok (if s then - magnitude_floor m e else magnitude_floor m e)
  end.

(** [math.ceil(x)]. *)
Definition py_ceil (x : float) : result Z :=
  match x with
  | S754_nan => Raise ValueError
  | S754_infinity _ => Raise OverflowError
  | S754_zero _ => Ok 0
  | S754_finite s m e =>
      Ok (if s then - magnitude_floor m e else magnitude_ceil m e)
  end.

(** [n * x] and [x * n] for an int [n] and a float [x]: the int is
    converted first. *)
Definition int_mul_float (n : Z) (x : float) : result float :=
  (f <- float_of_int n ;; Ok (fmul f x))%py.

(** [x / v] for a float [x]. *)
Definition float_truediv (x : float) (v : pyval) : result float :=
  match v with
  | VInt n =>
      (f <- float_of_int n ;;
       if n =? 0 then Raise ZeroDivisionError else Ok (fdiv x f))%py
  | VFloat y => if float_is_zero y then Raise ZeroDivisionError else Ok (fdiv x y)
  | VNone | VStr _ | VTuple _ | VList _ => Raise TypeError
  end.

(** [a / b] for two ints: the double nearest to the quotient, whatever the
    size of the ints; [OverflowError] when it is beyond the largest
    double. *)
Definition int_truediv (a b : Z) : result float :=
  if b =? 0 then Raise ZeroDivisionError
  else if a =? 0 then Ok (S754_zero (b <? 0))
  else
    match fdiv (S754_finite (a <? 0) (Z.to_pos (Z.abs a)) 0)
               (S754_finite (b <? 0) (Z.to_pos (Z.abs b)) 0) with
    | S754_infinity _ => Raise OverflowError
    | x => Ok x
    end.

(** [v * x] for a float [x] (and [x * v]: both orders raise [TypeError] on
    anything that is not a number). *)
Definition mul_float (v : pyval) (x : float) : result float :=
  match v with
  | VInt n => int_mul_float n x
  | VFloat y => Ok (fmul y x)
  | VNone | VStr _ | VTuple _ | VList _ => Raise TypeError
  end.

Definition float_mul (x : float) (v : pyval) : result float :=
  match v with
  | VInt n => (f <- float_of_int n ;; Ok (fmul x f))%py
  | VFloat y => Ok (fmul x y)
  | VNone | VStr _ | VTuple _ | VList _ => Raise TypeError
  end.

(** The comparison of a float with an int, which Python makes on the exact
    values; [None] for a NaN. *)
Definition float_compare_int (x : float) (n : Z) : option comparison :=
  match x with
  | S754_nan => None
  | S754_infinity s => Some (if s then Lt else Gt)
  | S754_zero _ => Some (0 ?= n)
  | S754_finite s m e =>
      let v := if s then Z.neg m else Z.pos m in
      Some (if 0 <=? e then v * 2 ^ e ?= n else v ?= n * 2 ^ (- e))
  end.

(** Two floats of one representation: two NaN, or the same double with the
    same sign. *)
Definition float_same (x y : float) : bool :=
  match x, y with
  | S754_nan, S754_nan => true
  | S754_zero s, S754_zero t | S754_infinity s, S754_infinity t => Bool.eqb s t
  | S754_finite s m e, S754_finite t n f =>
      Bool.eqb s t && (m =? n)%positive && (e =? f)
  | _, _ => false
  end.

(** [k % d] for two ints (the sign follows the divisor, as [Z.modulo]). *)
Definition int_mod (k d : Z) : result Z :=
  if d =? 0 then Raise ZeroDivisionError else Ok (k mod d).

(** ** The world outside the interpreter *)

(** What a path of the file system holds.  An image file is known by its
    pixel dimensions only. *)
Inductive node : Type :=
| Directory
| Png (width height : Z)
| File.

Global Instance node_eq_dec : EqDecision node.
Proof. solve_decision. Defined.

Record World : Type := mkWorld {
  fs : gmap string node;
  (** [os.environ['ASCIIPIXELS_PROCESS']], as the truth value of its int. *)
  ASCIIPIXELS_PROCESS : bool
}.

Definition set_fs (f : gmap string node -> gmap string node) (w : World) : World :=
  {| fs := f (fs w); ASCIIPIXELS_PROCESS := ASCIIPIXELS_PROCESS w |}.

Definition set_ASCIIPIXELS_PROCESS (b : bool) (w : World) : World :=
  {| fs := fs w; ASCIIPIXELS_PROCESS := b |}.

(** [Path / name]. *)
Definition path_join (dir name : string) : string := dir +:+ "/" +:+ name.

(** [f'frame{frame}.png']. *)
Definition format_frame (frame : option Z) : string :=
  match frame with
  | Some f => "frame" +:+ pretty f +:+ ".png"
  | None => "frameNone.png"
  end.

(** [Path.exists()]. *)
Definition path_exists (m : gmap string node) (p : string) : bool :=
  bool_decide (is_Some (m !! p)).

Definition is_dir (m : gmap string node) (p : string) : bool :=
  bool_decide (m !! p = Some Directory).

(** A path strictly below the directory [dir]. *)
Definition below (dir p : string) : bool := String.prefix (dir +:+ "/") p.

(** [Path.mkdir(exist_ok=True)]; the parent is taken to exist. *)
Definition mkdir (p : string) (m : gmap string node)
    : result unit * gmap string node :=
  match m !! p with
  | Some Directory => (Ok tt, m)
  | Some _ => (Raise FileExistsError, m)
  | None => (Ok tt, <[p := Directory]> m)
  end.

(** [shutil.rmtree(p)]: the directory goes with everything below it. *)
Definition rmtree (p : string) (m : gmap string node)
    : result unit * gmap string node :=
  match m !! p with
  | Some Directory =>
      (Ok tt, filter (fun kv => kv.1 <> p /\ below p kv.1 = false) m)
  | Some _ => (Raise NotADirectoryError, m)
  | None => (Raise FileNotFoundError, m)
  end.

(** ** [utils.safe_path] (utils.py) *)

(** What [utils.safe_path] takes from pathlib and from the builtins:
    the parts of a path, [str.isdigit] on a character and [int] on a
    string (a value, or [ValueError]). *)
Class PathOps : Type := {
  Path_parent : string -> string;
  Path_stem : string -> string;
  Path_suffix : string -> string;
  str_isdigit : ascii -> bool;
  int_of_str : string -> result Z
}.

(** The bound of a slice [s[i:]] or [s[:i]] on a string of length [len]. *)
Definition slice_bound (len i : Z) : nat :=
  Z.to_nat (Z.max 0 (Z.min len (if i <? 0 then i + len else i))).

(** [s[i:]]. *)
Definition str_slice_from (s : string) (i : Z) : string :=
  string_of_list
    (drop (slice_bound (Z.of_nat (String.length s)) i) (string_to_list s)).

(** [s[:i]]. *)
Definition str_slice_to (s : string) (i : Z) : string :=
  string_of_list
    (take (slice_bound (Z.of_nat (String.length s)) i) (string_to_list s)).

(** [parent / f'{stem}{k}.{ext}']. *)
Definition numbered_path (parent stem ext : string) (k : Z) : string :=
  path_join parent (stem +:+ pretty k +:+ "." +:+ ext).

(** [while stem[index].isdigit(): index -= 1], at most [fuel] tests. *)
Fixpoint trailing_digits_loop `{PathOps} (fuel : nat) (stem : string)
    (index : Z) : option (result Z) :=
  match fuel with
  | O => None
  | S fuel' =>
      match seq_index (string_to_list stem) index with
      | Raise e => Some (Raise e)
      | Ok c =>
          if str_isdigit c then trailing_digits_loop fuel' stem (index - 1)
          else Some (Ok index)
      end
  end.

(** [while (parent / f'{stem}{k}.{ext}').exists(): k += 1], at most [fuel]
    tests. *)
Fixpoint free_counter_loop (fuel : nat) (m : gmap string node)
    (parent stem ext : string) (k : Z) : option Z :=
  match fuel with
  | O => None
  | S fuel' =>
      if path_exists m (numbered_path parent stem ext k)
      then free_counter_loop fuel' m parent stem ext (k + 1)
      else Some k
  end.

(** The [try: ... except ValueError:] block of [safe_path]: the first
    counter and the stem it is appended to. *)
Definition first_counter `{PathOps} (stem : string) (index : Z)
    : result (Z * string) :=
  match int_of_str (str_slice_from stem (index + 1)) with
  | Ok v => Ok (v + 1, str_slice_to stem (index + 1))
  | Raise ValueError => Ok (2, stem)
  | Raise e => Raise e
  end.

(** [utils.safe_path(path, ext)] on the file system [m], as a string.  The
    second loop has no bound in the source: [fuel] bounds its tests here,
    and [None] stands for a loop that has not ended within them.  The
    first loop ends within the length of the stem plus one. *)
Definition utils_safe_path `{PathOps} (fuel : nat) (m : gmap string node)
    (path : string) (ext : option string) : option (result string) :=
  if negb (path_exists m path) then Some (Ok path)
  else
    let ext := match ext with
               | Some e => e
               | None => str_slice_from (Path_suffix path) 1
               end in
    let parent := Path_parent path in
    let stem := Path_stem path in
    match trailing_digits_loop (S (String.length stem)) stem (-1) with
    | None => None
    | Some (Raise e) => Some (Raise e)
    | Some (Ok index) =>
        match first_counter stem index with
        | Raise e => Some (Raise e)
        | Ok (k, stem) =>
            match free_counter_loop fuel m parent stem ext k with
            | None => None
            | Some k => Some (Ok (numbered_path parent stem ext k))
            end
        end
    end.

(** [utils.safe_path] as the methods of [CoreAsciifier] call it.  The
    second loop meets a free name within as many tests as the file system
    has entries, and one more: with that many tests allowed the outcome is
    the one of the source (never the last case below). *)
Definition safe_path `{PathOps} (m : gmap string node) (path : string)
    (ext : option string) : result string :=
  match utils_safe_path (S (size m)) m path ext with
  | Some r => r
  | None => Ok path
  end.

(** ** External collaborators

    Every command line of [Magick] and [FFmpeg] goes through [utils.run],
    which returns a status code and the captured output.  A field [run_*]
    gives, for the arguments of one wrapper, the status code and (where the
    wrapper parses the output) the outcome of that parsing. *)
Class External : Type := {
  (** pathlib and the string builtins *)
  path_ops :: PathOps;
  (** [Path(path).suffix[1:].lower() in ['mp4', 'mov', 'm4v', 'webm', 'avi']] *)
  suffix_is_video : string -> bool;
  (** [identify -format %wx%h path] *)
  run_identify : string -> Z * result (Z * Z);
  (** [convert -size WxH xc:rgba(r,g,b,1) path] *)
  run_blank_png : string -> Z -> Z -> pyval -> pyval -> pyval -> Z;
  (** [convert path ... -annotate +0+0 text out_path] *)
  run_text_overlay :
    string -> string -> string -> option Z -> pyval -> pyval -> pyval -> string -> Z;
  (** [convert -size WxH xc:white ... -annotate +0+0 text -trim info:],
      for the test block of [cols] columns and [lines] lines *)
  run_text_dimensions : Z -> Z -> Z -> Z -> Z -> Z * result (Z * Z);
  (** [Image.open(path).resize((w, h)).convert('L').getdata()] *)
  image_getdata : string -> Z -> Z -> result (list Z);
  (** the three [ffprobe] queries *)
  run_ffprobe_dimensions : string -> Z * result (Z * Z);
  run_ffprobe_rotate_is_90 : string -> bool;
  run_ffprobe_fps : string -> Z * result Z;
  run_ffprobe_frame_count : string -> Z * result Z;
  (** [ffmpeg -i path out_path_pattern]: status and the files written *)
  run_video_to_frames : string -> string -> Z * list (string * node);
  (** [ffmpeg ... -i path_pattern ... out_path] *)
  run_frames_to_video : string -> string -> option Z -> bool -> Z;
  (** [ffmpeg -i path -vn -acodec copy out_path] *)
  run_extract_audio : string -> string -> Z;
  (** [ffmpeg -i path [-i audio_path] -vf scale=w:h ... out_path] *)
  run_join_streams : string -> string -> Z -> Z -> option string -> Z
}.

(** [OptionalSize = Union[int, tuple[int, int], None]]. *)
Inductive OptionalSize : Type :=
| SizeNone
| SizeWidth (w : Z)
| SizeTuple (w h : Z).

(** ** [class CoreAsciifier] (core.py) *)

Record CoreAsciifier : Type := mkCoreAsciifier {
  str_path : string;
  is_video : bool;
  frame_count : option Z;
  fps : option Z;
  dimensions : Z * Z;
  ratio : float;
  strict_out_dimensions : bool;
  out_dimensions : Z * Z;
  bg : PossiblyDynamic;
  txt : PossiblyDynamic;
  definition : PossiblyDynamic;
  correction : PossiblyDynamic;
  chars : PossiblyDynamic;
  ascii_art : string;
  definition_height : option Z;
  text_size : option Z;
  process_dir : string
}.

Definition set_out_dimensions (d : Z * Z) (c : CoreAsciifier) : CoreAsciifier :=
  mkCoreAsciifier (str_path c) (is_video c) (frame_count c) (fps c)
    (dimensions c) (ratio c) (strict_out_dimensions c) d (bg c) (txt c)
    (definition c) (correction c) (chars c) (ascii_art c)
    (definition_height c) (text_size c) (process_dir c).

Definition set_ascii_art (s : string) (c : CoreAsciifier) : CoreAsciifier :=
  mkCoreAsciifier (str_path c) (is_video c) (frame_count c) (fps c)
    (dimensions c) (ratio c) (strict_out_dimensions c) (out_dimensions c)
    (bg c) (txt c) (definition c) (correction c) (chars c) s
    (definition_height c) (text_size c) (process_dir c).

Definition set_definition_height (h : option Z) (c : CoreAsciifier) : CoreAsciifier :=
  mkCoreAsciifier (str_path c) (is_video c) (frame_count c) (fps c)
    (dimensions c) (ratio c) (strict_out_dimensions c) (out_dimensions c)
    (bg c) (txt c) (definition c) (correction c) (chars c) (ascii_art c)
    h (text_size c) (process_dir c).

Definition set_text_size (t : option Z) (c : CoreAsciifier) : CoreAsciifier :=
  mkCoreAsciifier (str_path c) (is_video c) (frame_count c) (fps c)
    (dimensions c) (ratio c) (strict_out_dimensions c) (out_dimensions c)
    (bg c) (txt c) (definition c) (correction c) (chars c) (ascii_art c)
    (definition_height c) t (process_dir c).

(** ** The monad of the methods: [self] and the world are threaded, and an
    exception keeps what was mutated before it was raised. *)

Definition M (A : Type) : Type :=
  CoreAsciifier -> World -> result A * CoreAsciifier * World.

Definition ret {A : Type} (a : A) : M A := fun c w => (Ok a, c, w).

Definition raise {A : Type} (e : exn) : M A := fun c w => (Raise e, c, w).

Definition bind {A B : Type} (m : M A) (k : A -> M B) : M B :=
  fun c w =>
    match m c w with
    | (Ok a, c', w') => k a c' w'
    | (Raise e, c', w') => (Raise e, c', w')
    end.

(** A pure computation that may raise. *)
Definition lift {A : Type} (r : result A) : M A := fun c w => (r, c, w).

Definition get_self : M CoreAsciifier := fun c w => (Ok c, c, w).

Definition modify_self (f : CoreAsciifier -> CoreAsciifier) : M unit :=
  fun c w => (Ok tt, f c, w).

Definition get_world : M World := fun c w => (Ok w, c, w).

Definition modify_world (f : World -> World) : M unit :=
  fun c w => (Ok tt, c, f w).

(** A file-system operation that may raise. *)
Definition lift_fs (op : gmap string node -> result unit * gmap string node)
    : M unit :=
  fun c w => let '(r, m) := op (fs w) in (r, c, set_fs (fun _ => m) w).

Declare Scope M_scope.
Delimit Scope M_scope with M.
Bind Scope M_scope with M.
Notation "x <- m ;; k" := (bind m (fun x => k))
  (at level 100, m at next level, right associativity) : M_scope.
Notation "m ;;; k" := (bind m (fun _ => k))
  (at level 100, right associativity) : M_scope.

(** ** Iteration, comparison, [max] and [.index] *)

Definition newline : string := String (ascii_of_nat 10) EmptyString.

Definition char_str (c : ascii) : pyval := VStr (String c EmptyString).

(** [a is b or a == b], the test that [list.index] and the comparison of
    two sequences make on items.  Numbers are compared on their exact
    values; a NaN equals nothing, and is the same object as itself only. *)
Fixpoint py_eq (a b : pyval) {struct a} : bool :=
  match a, b with
  | VNone, VNone => true
  | VInt x, VInt y => x =? y
  | VInt x, VFloat q => bool_decide (float_compare_int q x = Some Eq)
  | VFloat q, VInt x => bool_decide (float_compare_int q x = Some Eq)
  | VFloat p, VFloat q => float_same p q || SFeqb p q
  | VStr s, VStr t => String.eqb s t
  | VTuple l, VTuple m | VList l, VList m =>
      (fix go (l m : list pyval) {struct l} : bool :=
         match l, m with
         | [], [] => true
         | x :: l', y :: m' => py_eq x y && go l' m'
         | _, _ => false
         end) l m
  | _, _ => false
  end.

(** [a > b]; ordering is defined between numbers, between strings and
    between sequences of one kind (lexicographically). *)
Fixpoint py_gt (a b : pyval) {struct a} : result bool :=
  match a, b with
  | VInt x, VInt y => Ok (y <? x)
  | VInt x, VFloat q => Ok (bool_decide (float_compare_int q x = Some Lt))
  | VFloat q, VInt x => Ok (bool_decide (float_compare_int q x = Some Gt))
  | VFloat p, VFloat q => Ok (SFltb q p)
  | VStr s, VStr t => Ok (String.ltb t s)
  | VTuple l, VTuple m | VList l, VList m =>
      (fix go (l m : list pyval) {struct l} : result bool :=
         match l, m with
         | [], _ => Ok false
         | _ :: _, [] => Ok true
         | x :: l', y :: m' => if py_eq x y then go l' m' else py_gt x y
         end) l m
  | _, _ => Raise TypeError
  end.

(** The items an iterable yields. *)
Definition py_iter (v : pyval) : result (list pyval) :=
  match v with
  | VList l | VTuple l => Ok l
  | VStr s => Ok (map char_str (string_to_list s))
  | VNone | VInt _ | VFloat _ => Raise TypeError
  end.

Fixpoint max_loop (items : list pyval) (maxitem : pyval) : result pyval :=
  match items with
  | [] => Ok maxitem
  | item :: rest =>
      (g <- py_gt item maxitem ;;
       max_loop rest (if g then item else maxitem))%py
  end.

(** [max(v)]: the first of the largest items. *)
Definition py_max (v : pyval) : result pyval :=
  (items <- py_iter v ;;
   match items with
   | [] => Raise ValueError
   | first :: rest => max_loop rest first
   end)%py.

Fixpoint index_loop (l : list pyval) (x : pyval) (i : Z) : result Z :=
  match l with
  | [] => Raise ValueError
  | y :: rest => if py_eq y x then Ok i else index_loop rest x (i + 1)
  end.

(** The attribute [v.index]: a bound method of lists, tuples and strings;
    the other values have no such attribute. *)
Definition py_getattr_index (v : pyval) : result (pyval -> result Z) :=
  match v with
  | VList l | VTuple l => Ok (fun x => index_loop l x 0)
  | VStr s =>
      Ok (fun x =>
            match x with
            | VStr sub =>
                match String.index 0 sub s with
                | Some n => Ok (Z.of_nat n)
                | None => Raise ValueError
                end
            | _ => Raise TypeError
            end)
  | VNone | VInt _ | VFloat _ => Raise AttributeError
  end.

(** [[f(x) for x in l]] where [f] may raise. *)
Fixpoint result_map {A B : Type} (f : A -> result B) (l : list A)
    : result (list B) :=
  match l with
  | [] => Ok []
  | x :: rest => (y <- f x ;; ys <- result_map f rest ;; Ok (y :: ys))%py
  end.

(** [zip] of the columns (starred), each row as a tuple. *)
Definition py_zip (columns : list (list pyval)) : list pyval :=
  match columns with
  | [] => []
  | first :: rest =>
      let n := foldr (fun c m => Nat.min (length c) m) (length first) rest in
      map (fun i => VTuple (map (fun c => nth i c VNone) columns)) (seq 0 n)
  end.

Section Model.
Context `{External}.

(** ** [class Magick] (core.py) *)

Definition magick_msg : string := "File does not exist or format not supported.".

(** [Magick.dimensions]. *)
Definition Magick_dimensions (path : string) : result (Z * Z) :=
  let '(code, stdout) := run_identify path in
  if code =? 0 then stdout else Raise (MagickException magick_msg).

(** [Magick.text_dimensions]: the test block [text] is built first, which
    needs [cols] and [lines] to be ints; then [convert] measures it. *)
Definition Magick_text_dimensions (cols lines : pyval) (size w h : Z)
    : result (Z * Z) :=
  match cols, lines with
  | VInt c, VInt l =>
      let '(code, stdout) := run_text_dimensions c l size w h in
      if code =? 0 then stdout else Raise (MagickException magick_msg)
  | _, _ => Raise TypeError
  end.

(** [*color]: the three arguments a color unpacks to. *)
Definition unpack_color (v : pyval) : result (pyval * pyval * pyval) :=
  match v with
  | VTuple [r; g; b] | VList [r; g; b] => Ok (r, g, b)
  | VStr s =>
      match string_to_list s with
      | [r; g; b] =>
          Ok (VStr (String r EmptyString), VStr (String g EmptyString),
              VStr (String b EmptyString))
      | _ => Raise TypeError
      end
  | _ => Raise TypeError
  end.

(** [Magick.blank_png]: on status 0 the file [path] is a [width] x [height]
    image. *)
Definition Magick_blank_png (path : string) (width height : Z) (r g b : pyval)
    : M unit :=
  (if run_blank_png path width height r g b =? 0
   then modify_world (set_fs (fun m => <[path := Png width height]> m))
   else raise (MagickException "File format not supported."))%M.

(** [Magick.text_overlay]: the text is drawn on the image read from [path]
    and the result, of the same dimensions, is saved at [out_path].  An
    unreadable [path] is a failure of [convert]. *)
Definition Magick_text_overlay (path out_path text : string) (size : option Z)
    (r g b : pyval) (gravity : string) : M unit :=
  (w <- get_world ;;
   match fs w !! path with
   | Some (Png width height) =>
       if run_text_overlay path out_path text size r g b gravity =? 0
       then modify_world (set_fs (fun m => <[out_path := Png width height]> m))
       else raise (MagickException magick_msg)
   | _ => raise (MagickException magick_msg)
   end)%M.

(** ** Methods of [CoreAsciifier] *)

(** [int(n * x)] for an int [n] and a float literal [x]. *)
Definition int_of_scaled (n : Z) (x : float) : result Z :=
  (a <- int_mul_float n x ;; py_int a)%py.

(** [CoreAsciifier.figure_out_sizes]. *)
Definition figure_out_sizes (frame : option Z) (fine_tune even_sizes : bool)
    : M unit :=
  (self <- get_self ;;
   definition_ <- lift (PossiblyDynamic_getitem (definition self) frame) ;;
   correction_ <- lift (PossiblyDynamic_getitem (correction self) frame) ;;
   let out_w := (out_dimensions self).1 in
   size <- lift (a <- int_mul_float out_w float_1_7 ;;
                 x <- float_truediv a definition_ ;;
                 py_ceil x)%py ;;
   modify_self (set_text_size (Some size)) ;;;
   correction_ <-
     match correction_ with
     | VNone =>
         w <- lift (int_of_scaled out_w float_1_5) ;;
         t <- lift (Magick_text_dimensions definition_ definition_ size
                      w (out_w * 2)) ;;
         q <- lift (int_truediv t.1 t.2) ;;
         ret (VFloat q)
     | v => ret v
     end ;;
   height <- lift (a <- mul_float definition_ (ratio self) ;;
                   y <- float_mul a correction_ ;;
                   py_int y)%py ;;
   modify_self (set_definition_height (Some height)) ;;;
   if strict_out_dimensions self || negb fine_tune then ret tt
   else
     w <- lift (int_of_scaled out_w float_1_5) ;;
     t <- lift (Magick_text_dimensions definition_ (VInt height) size
                  w ((out_dimensions self).2 * 2)) ;;
     if even_sizes
     then
       a <- lift (int_of_scaled t.1 float_0_5) ;;
       b <- lift (int_of_scaled t.2 float_0_5) ;;
       modify_self (set_out_dimensions (a * 2, b * 2))
     else modify_self (set_out_dimensions (t.1, t.2)))%M.

(** [CoreAsciifier.generate_canvas]. *)
Definition generate_canvas (frame : option Z) : M string :=
  (self <- get_self ;;
   let canvas_path := path_join (process_dir self) "canvas.png" in
   color <- lift (PossiblyDynamic_getitem (bg self) frame) ;;
   rgb <- lift (unpack_color color) ;;
   Magick_blank_png canvas_path (out_dimensions self).1 (out_dimensions self).2
     rgb.1.1 rgb.1.2 rgb.2 ;;;
   ret canvas_path)%M.

(** [resp += char]. *)
Definition str_concat (resp : string) (char : pyval) : result string :=
  match char with
  | VStr s => Ok (resp +:+ s)
  | _ => Raise TypeError
  end.

(** The [for k, pixel in enumerate(img.getdata(), 1)] loop of
    [generate_ascii_art]; [k] is the number of the first pixel left. *)
Fixpoint ascii_loop (chars_ : pyval) (definition_ : Z) (k : Z)
    (pixels : list Z) (resp : string) : result string :=
  match pixels with
  | [] => Ok resp
  | pixel :: rest =>
      (n <- py_len chars_ ;;
       char <- py_subscript chars_ ((pixel * (n - 1)) / 255) ;;
       resp <- str_concat resp char ;;
       m <- int_mod k definition_ ;;
       ascii_loop chars_ definition_ (k + 1) rest
         (if m =? 0 then resp +:+ newline else resp))%py
  end.

Definition no_frame_art_msg : string :=
  "Frame was not specified for ascii art generation.".

(** [CoreAsciifier.generate_ascii_art].  [Image.resize] takes two ints. *)
Definition generate_ascii_art (frame : option Z) : M string :=
  (self <- get_self ;;
   if is_video self && bool_decide (frame = None)
   then raise (AsciifierException no_frame_art_msg)
   else
     let path :=
       if is_video self
       then path_join (path_join (process_dir self) "Frames") (format_frame frame)
       else str_path self in
     definition_ <- lift (PossiblyDynamic_getitem (definition self) frame) ;;
     chars_ <- lift (PossiblyDynamic_getitem (chars self) frame) ;;
     match definition_, definition_height self with
     | VInt d, Some h =>
         pixels <- lift (image_getdata path d h) ;;
         resp <- lift (ascii_loop chars_ d 1 pixels "") ;;
         modify_self (set_ascii_art resp) ;;;
         ret resp
     | _, _ => raise TypeError
     end)%M.

Definition no_frame_image_msg : string :=
  "Frame was not specified for image generation.".

(** The truth value of [frame] in [if frame]. *)
Definition frame_truthy (frame : option Z) : bool :=
  match frame with
  | Some f => negb (f =? 0)
  | None => false
  end.

(** [CoreAsciifier.draw_ascii_art]. *)
Definition draw_ascii_art (frame : option Z) (gravity : string) : M string :=
  (self <- get_self ;;
   if is_video self && bool_decide (frame = None)
   then raise (AsciifierException no_frame_image_msg)
   else
     let canvas_path := path_join (process_dir self) "canvas.png" in
     w <- get_world ;;
     out_path <-
       lift (if frame_truthy frame
             then Ok (path_join (path_join (process_dir self) "NewFrames")
                        (format_frame frame))
             else safe_path (fs w) (str_path self) None) ;;
     color <- lift (PossiblyDynamic_getitem (txt self) frame) ;;
     rgb <- lift (unpack_color color) ;;
     Magick_text_overlay canvas_path out_path (ascii_art self) (text_size self)
       rgb.1.1 rgb.1.2 rgb.2 gravity ;;;
     ret out_path)%M.

(** [CoreAsciifier.test_dynamic_params]: the header row, then one row per
    frame with the frame number and the dynamic parameters only. *)
Definition test_dynamic_params : M pyval :=
  (self <- get_self ;;
   match frame_count self with
   | None => raise TypeError
   | Some n =>
       let frames := py_range 1 (n + 1) in
       let models :=
         filter (fun mh => is_dynamic mh.1 = true)
           [(bg self, "BG Color"); (txt self, "Text Color");
            (definition self, "Definition"); (correction self, "Correction");
            (chars self, "Chars")] in
       columns <- lift (result_map
                    (fun mh => result_map
                       (fun i => PossiblyDynamic_getitem mh.1 (Some i)) frames)
                    models) ;;
       let headers := VStr "Frame" :: map (fun mh => VStr mh.2) models in
       ret (VList (VTuple headers :: py_zip (map VInt frames :: columns)))
   end)%M.

(** [CoreAsciifier.remove_process_dir]. *)
Definition remove_process_dir : M unit :=
  (self <- get_self ;; lift_fs (rmtree (process_dir self)))%M.


(** ** [class FFmpeg] (core.py) *)

Definition ffmpeg_msg : string := "File does not exist or format not supported.".
Definition ffmpeg_msgs : string := "File does not exist or format(s) not supported.".

(** [FFmpeg.dimensions]: swapped when the rotation tag reads 90. *)
Definition FFmpeg_dimensions (path : string) : result (Z * Z) :=
  let '(code, stdout) := run_ffprobe_dimensions path in
  if code =? 0
  then (d <- stdout ;;
        if run_ffprobe_rotate_is_90 path then Ok (d.2, d.1) else Ok d)%py
  else Raise (FFmpegException ffmpeg_msg).

(** [FFmpeg.fps]. *)
Definition FFmpeg_fps (path : string) : result Z :=
  let '(code, stdout) := run_ffprobe_fps path in
  if code =? 0 then stdout else Raise (FFmpegException ffmpeg_msg).

(** [FFmpeg.frame_count]. *)
Definition FFmpeg_frame_count (path : string) : result Z :=
  let '(code, stdout) := run_ffprobe_frame_count path in
  if code =? 0 then stdout else Raise (FFmpegException ffmpeg_msg).

Definition write_files (files : list (string * node)) (m : gmap string node)
    : gmap string node :=
  foldr (fun kv acc => <[kv.1 := kv.2]> acc) m files.

(** [FFmpeg.video_to_frames]. *)
Definition FFmpeg_video_to_frames (path out_path_pattern : string) : M unit :=
  (let '(code, files) := run_video_to_frames path out_path_pattern in
   modify_world (set_fs (write_files files)) ;;;
   if code =? 0 then ret tt else raise (FFmpegException ffmpeg_msgs))%M.

(** [FFmpeg.frames_to_video]. *)
Definition FFmpeg_frames_to_video (path_pattern out_path : string)
    (fps_ : option Z) (gif : bool) : M unit :=
  (if run_frames_to_video path_pattern out_path fps_ gif =? 0
   then modify_world (set_fs (fun m => <[out_path := File]> m))
   else raise (FFmpegException ffmpeg_msgs))%M.

(** [FFmpeg.extract_audio]. *)
Definition FFmpeg_extract_audio (path out_path : string) : M unit :=
  (if run_extract_audio path out_path =? 0
   then modify_world (set_fs (fun m => <[out_path := File]> m))
   else raise (FFmpegException "File does not have an audio stream."))%M.

(** [FFmpeg.join_streams]. *)
Definition FFmpeg_join_streams (path out_path : string) (w h : Z)
    (audio_path : option string) : M unit :=
  (if run_join_streams path out_path w h audio_path =? 0
   then modify_world (set_fs (fun m => <[out_path := File]> m))
   else raise (FFmpegException ffmpeg_msgs))%M.

(** [try: m except FFmpegException: handler]. *)
Definition except_FFmpegException {A : Type} (m handler : M A) : M A :=
  fun c w =>
    match m c w with
    | (Raise (FFmpegException _), c', w') => handler c' w'
    | r => r
    end.

(** [CoreAsciifier.video_to_frames]. *)
Definition video_to_frames : M unit :=
  (self <- get_self ;;
   FFmpeg_video_to_frames (str_path self)
     (path_join (path_join (process_dir self) "Frames") "frame%01d.png"))%M.

(** [CoreAsciifier.frames_to_video]. *)
Definition frames_to_video (out_path : option string) (ext : string) : M string :=
  (self <- get_self ;;
   w <- get_world ;;
   out_path <-
     lift (match out_path with
           | Some p => Ok p
           | None => safe_path (fs w) (str_path self) (Some ext)
           end) ;;
   FFmpeg_frames_to_video
     (path_join (path_join (process_dir self) "NewFrames") "frame%01d.png")
     out_path (fps self) (String.eqb ext "gif") ;;;
   ret out_path)%M.

(** [CoreAsciifier.finalize_video]. *)
Definition finalize_video (ext : string) : M string :=
  (self <- get_self ;;
   w <- get_world ;;
   let video_path := path_join (process_dir self) ("video." +:+ ext) in
   let audio_path := path_join (process_dir self) "audio.aac" in
   out_path <- lift (safe_path (fs w) (str_path self) None) ;;
   frames_to_video (Some video_path) "mp4" ;;;
   has_audio <- except_FFmpegException
                  (FFmpeg_extract_audio (str_path self) audio_path ;;; ret true)
                  (ret false) ;;
   self <- get_self ;;
   FFmpeg_join_streams video_path out_path
     (out_dimensions self).1 (out_dimensions self).2
     (if has_audio : bool then Some audio_path else None) ;;;
   ret out_path)%M.


(** ** Construction and the [with] block *)

(** The arguments of [CoreAsciifier.__init__]. *)
Record Args : Type := mkArgs {
  arg_path : string;
  arg_bg : func_or_value;
  arg_txt : func_or_value;
  arg_definition : func_or_value;
  arg_out_width : OptionalSize;
  arg_strict_out_dimensions : bool;
  arg_correction : func_or_value;
  arg_chars : func_or_value;
  arg_reverse_chars : bool;
  arg_frame_count : option Z;
  arg_fps : option Z
}.

(** The probing at the head of [__init__]: frame count, fps, dimensions. *)
Definition probe (a : Args) (video : bool) : result (option Z * option Z * (Z * Z)) :=
  (if video
   then (n <- FFmpeg_frame_count (arg_path a) ;;
         f <- FFmpeg_fps (arg_path a) ;;
         d <- FFmpeg_dimensions (arg_path a) ;;
         Ok (Some n, Some f, d))
   else (d <- Magick_dimensions (arg_path a) ;;
         Ok (arg_frame_count a, arg_fps a, d)))%py.

(** [out_width = out_width or self.dimensions[0]] and what follows. *)
Definition initial_out_dimensions (out_width : OptionalSize) (dims : Z * Z)
    (ratio_ : float) : result (Z * Z) :=
  match out_width with
  | SizeTuple w h => Ok (w, h)
  | SizeWidth w =>
      let w := if w =? 0 then dims.1 else w in
      (h <- int_of_scaled w ratio_ ;; Ok (w, h))%py
  | SizeNone => (h <- int_of_scaled dims.1 ratio_ ;; Ok (dims.1, h))%py
  end.

(** The fields of the new object, before the directories are made. *)
Definition new_core (a : Args) : result CoreAsciifier :=
  (let video := suffix_is_video (arg_path a) in
   p <- probe a video ;;
   let dims := p.2 in
   let count := p.1.1 in
   ratio_ <- int_truediv dims.2 dims.1 ;;
   out_ <- initial_out_dimensions (arg_out_width a) dims ratio_ ;;
   bg_ <- PossiblyDynamic_init (arg_bg a) count true false ;;
   txt_ <- PossiblyDynamic_init (arg_txt a) count true false ;;
   definition_ <- PossiblyDynamic_init (arg_definition a) count false false ;;
   correction_ <- PossiblyDynamic_init (arg_correction a) count false false ;;
   chars_ <- PossiblyDynamic_init (arg_chars a) count false (arg_reverse_chars a) ;;
   Ok {| str_path := arg_path a;
         is_video := video;
         frame_count := count;
         fps := p.1.2;
         dimensions := dims;
         ratio := ratio_;
         strict_out_dimensions := arg_strict_out_dimensions a;
         out_dimensions := out_;
         bg := bg_; txt := txt_; definition := definition_;
         correction := correction_; chars := chars_;
         ascii_art := "";
         definition_height := None;
         text_size := None;
         process_dir := path_join (Path_parent (arg_path a)) "asciipixels" |})%py.

(** The three [mkdir(exist_ok=True)] that end [__init__]. *)
Definition make_process_dirs (dir : string) (m : gmap string node)
    : result unit * gmap string node :=
  match mkdir dir m with
  | (Ok _, m1) =>
      match mkdir (path_join dir "Frames") m1 with
      | (Ok _, m2) => mkdir (path_join dir "NewFrames") m2
      | r => r
      end
  | r => r
  end.

(** [CoreAsciifier.__init__]. *)
Definition CoreAsciifier_init (a : Args) (w : World)
    : result CoreAsciifier * World :=
  if negb (path_exists (fs w) (arg_path a)) then (Raise FileNotFoundError, w)
  else
    match new_core a with
    | Raise e => (Raise e, w)
    | Ok core =>
        let '(r, m) := make_process_dirs (process_dir core) (fs w) in
        (match r with Ok _ => Ok core | Raise e => Raise e end,
         set_fs (fun _ => m) w)
    end.

(** [CoreAsciifier.__exit__]. *)
Definition CoreAsciifier_exit : M unit :=
  (remove_process_dir ;;;
   modify_world (set_ASCIIPIXELS_PROCESS false))%M.

(** [with core: body].  [__enter__] returns [self]; [__exit__] runs
    whether the body returned or raised, and returns [None], so that an
    exception of the body goes on once [__exit__] is done; an exception of
    [__exit__] itself takes its place. *)
Definition with_core {A : Type} (body : M A) : M A :=
  fun c w =>
    let '(r, c1, w1) := body c w in
    match CoreAsciifier_exit c1 w1 with
    | (Ok _, c2, w2) => (r, c2, w2)
    | (Raise e, c2, w2) => (Raise e, c2, w2)
    end.

(** [utils.multiprocessing_guard]: [sys.exit()] raises [SystemExit]. *)
Definition multiprocessing_guard (w : World) : result unit * World :=
  if ASCIIPIXELS_PROCESS w then (Raise SystemExit, w)
  else (Ok tt, set_ASCIIPIXELS_PROCESS true w).

(** ** Workers and the process pool *)

(** [image.dynamic_single_frame] and [video.dynamic_single_frame]. *)
Definition dynamic_single_frame (frame : Z) : M unit :=
  (figure_out_sizes (Some frame) false true ;;;
   generate_ascii_art (Some frame) ;;;
   draw_ascii_art (Some frame) "Center" ;;;
   ret tt)%M.

(** [video.asciify_single_frame]. *)
Definition asciify_single_frame (frame : Z) : M unit :=
  (generate_ascii_art (Some frame) ;;;
   draw_ascii_art (Some frame) "Northwest" ;;;
   ret tt)%M.

(** The tasks submitted to [ProcessPoolExecutor], one per frame.  Each task
    works on its own pickled copy of [core]; the file system is shared.
    Every submitted task runs ([ProcessPoolExecutor.__exit__] waits for all
    of them), and [future.result()] re-raises a task's exception.  The
    tasks are run here in frame order. *)
Fixpoint run_tasks (task : Z -> M unit) (frames : list Z)
    (core : CoreAsciifier) (w : World) : result unit * World :=
  match frames with
  | [] => (Ok tt, w)
  | f :: rest =>
      let '(r, _, w1) := task f core w in
      let '(rs, w2) := run_tasks task rest core w1 in
      (match r with Ok _ => rs | Raise e => Raise e end, w2)
  end.

Definition process_pool (task : Z -> M unit) (frames : list Z) : M unit :=
  fun c w => let '(r, w') := run_tasks task frames c w in (r, c, w').


(** ** Entry points (image/image.py, video/video.py) *)

Definition with_frame_count (count fps_ : option Z) (a : Args) : Args :=
  mkArgs (arg_path a) (arg_bg a) (arg_txt a) (arg_definition a)
    (arg_out_width a) (arg_strict_out_dimensions a) (arg_correction a)
    (arg_chars a) (arg_reverse_chars a) count fps_.

(** [core = CoreAsciifier(...)] followed by [with core: body]. *)
Definition construct_and_run {A : Type} (a : Args) (body : M A) (w : World)
    : result A * World :=
  match CoreAsciifier_init a w with
  | (Ok core, w1) => let '(r, _, w2) := with_core body core w1 in (r, w2)
  | (Raise e, w1) => (Raise e, w1)
  end.

(** The same after [utils.multiprocessing_guard()]. *)
Definition guarded_run {A : Type} (a : Args) (body : M A) (w : World)
    : result A * World :=
  match multiprocessing_guard w with
  | (Ok _, w1) => construct_and_run a body w1
  | (Raise e, w1) => (Raise e, w1)
  end.

(** The body of the [with] block of [image.asciify]. *)
Definition image_asciify_body (path : string) (save_txt : bool) : M string :=
  (figure_out_sizes None true false ;;;
   generate_canvas None ;;;
   resp <- generate_ascii_art None ;;
   draw_ascii_art None "Northwest" ;;;
   (if save_txt
    then w <- get_world ;;
         txt_path <- lift (safe_path (fs w) path (Some "txt")) ;;
         modify_world (set_fs (fun m => <[txt_path := File]> m))
    else ret tt) ;;;
   ret resp)%M.

(** [image.asciify]; the constructor gets no [frame_count] and no [fps]. *)
Definition image_asciify (a : Args) (save_txt : bool) (w : World)
    : result string * World :=
  construct_and_run (with_frame_count None None a)
    (image_asciify_body (arg_path a) save_txt) w.

(** [core.definition.value.index(max(core.definition.value))]: the
    attribute [index] is looked up first, then the argument is evaluated,
    then the method is called. *)
Definition max_def_frame (core : CoreAsciifier) : result Z :=
  (index <- py_getattr_index (value (definition core)) ;;
   largest <- py_max (value (definition core)) ;;
   index largest)%py.

(** The body of the [with] block of [image.dynamic_asciify]. *)
Definition image_dynamic_asciify_body (frame_count_ : Z) (gif : bool)
    (test : bool) : M pyval :=
  (if test then test_dynamic_params
   else
     core <- get_self ;;
     frame <- lift (max_def_frame core) ;;
     figure_out_sizes (Some frame) true true ;;;
     generate_canvas (Some frame) ;;;
     process_pool dynamic_single_frame (py_range 1 (frame_count_ + 1)) ;;;
     frames_to_video None (if gif then "gif" else "mp4") ;;;
     ret VNone)%M.

(** [image.dynamic_asciify]. *)
Definition image_dynamic_asciify (a : Args) (frame_count_ fps_ : Z)
    (gif test : bool) (w : World) : result pyval * World :=
  guarded_run (with_frame_count (Some frame_count_) (Some fps_) a)
    (image_dynamic_asciify_body frame_count_ gif test) w.

(** [range(1, frame_count + 1)] on [core.frame_count]. *)
Definition core_frames : M (list Z) :=
  (core <- get_self ;;
   match frame_count core with
   | Some n => ret (py_range 1 (n + 1))
   | None => raise TypeError
   end)%M.

(** The body of the [with] block of [video.asciify]. *)
Definition video_asciify_body : M unit :=
  (video_to_frames ;;;
   figure_out_sizes None true true ;;;
   generate_canvas None ;;;
   frames <- core_frames ;;
   process_pool asciify_single_frame frames ;;;
   finalize_video "mp4" ;;;
   ret tt)%M.

(** [video.asciify]. *)
Definition video_asciify (a : Args) (w : World) : result unit * World :=
  guarded_run (with_frame_count None None a) video_asciify_body w.

(** The body of the [with] block of [video.dynamic_asciify]. *)
Definition video_dynamic_asciify_body (test : bool) : M pyval :=
  (if test then test_dynamic_params
   else
     video_to_frames ;;;
     core <- get_self ;;
     let dimensions_ := out_dimensions core in
     figure_out_sizes (Some 1) true true ;;;
     generate_canvas (Some 1) ;;;
     modify_self (set_out_dimensions dimensions_) ;;;
     frames <- core_frames ;;
     process_pool dynamic_single_frame frames ;;;
     finalize_video "mp4" ;;;
     ret VNone)%M.

(** [video.dynamic_asciify]. *)
Definition video_dynamic_asciify (a : Args) (test : bool) (w : World)
    : result pyval * World :=
  guarded_run (with_frame_count None None a) (video_dynamic_asciify_body test) w.

End Model.

(** ** A concrete set of collaborators, for running the model

    A monospace font whose glyphs are three fifths as wide as they are
    high, a 530 x 530 source image with a fixed luminance pattern, a video
    of three frames, and tools that succeed. *)

(** Collaborators for running [utils_safe_path]: paths of the form
    [dir/stem.ext] in the directory [dir], ASCII digits, and [int] on
    strings of ASCII digits. *)
Definition demo_is_digit (c : ascii) : bool :=
  (48 <=? nat_of_ascii c)%nat && (nat_of_ascii c <=? 57)%nat.

Fixpoint demo_digits_value (l : list ascii) (acc : Z) : result Z :=
  match l with
  | [] => Ok acc
  | c :: rest =>
      if demo_is_digit c
      then demo_digits_value rest (10 * acc + Z.of_nat (nat_of_ascii c) - 48)
      else Raise ValueError
  end.

Definition demo_path_ops : PathOps := {|
  Path_parent := fun _ => "dir";
  Path_stem := fun p =>
    match String.index 4 "." p with
    | Some n => String.substring 4 (n - 4) p
    | None => String.substring 4 (String.length p - 4) p
    end;
  Path_suffix := fun p =>
    match String.index 4 "." p with
    | Some n => String.substring n (String.length p - n) p
    | None => ""
    end;
  str_isdigit := demo_is_digit;
  int_of_str := fun s =>
    match string_to_list s with
    | [] => Raise ValueError
    | l => demo_digits_value l 0
    end
|}.

(** The same for a file name with no directory part, as [photo.png]: its
    parent is the current directory. *)
Definition bare_path_ops : PathOps := {|
  Path_parent := fun _ => ".";
  Path_stem := fun p =>
    match String.index 0 "." p with
    | Some n => String.substring 0 n p
    | None => p
    end;
  Path_suffix := fun p =>
    match String.index 0 "." p with
    | Some n => String.substring n (String.length p - n) p
    | None => ""
    end;
  str_isdigit := demo_is_digit;
  int_of_str := fun s =>
    match string_to_list s with
    | [] => Raise ValueError
    | l => demo_digits_value l 0
    end
|}.

Definition demo_pixels (w h : Z) : list Z :=
  map (fun i => (i * 37) mod 256) (seqZ 0 (w * h)).

#[warnings="-non-primitive-record"]
Definition demo_tools : External := {|
  path_ops := bare_path_ops;
  suffix_is_video := fun p => String.eqb p "clip.mp4";
  run_identify := fun _ => (0, Ok (530, 530));
  run_blank_png := fun _ _ _ _ _ _ => 0;
  run_text_overlay := fun _ _ _ _ _ _ _ _ => 0;
  run_text_dimensions := fun c l size _ _ => (0, Ok (c * size * 3 / 5, l * size));
  image_getdata := fun _ w h =>
    if (w <=? 0) || (h <=? 0) then Raise ValueError else Ok (demo_pixels w h);
  run_ffprobe_dimensions := fun _ => (0, Ok (530, 530));
  run_ffprobe_rotate_is_90 := fun _ => false;
  run_ffprobe_fps := fun _ => (0, Ok 5);
  run_ffprobe_frame_count := fun _ => (0, Ok 3);
  run_video_to_frames := fun _ _ => (0, []);
  run_frames_to_video := fun _ _ _ _ => 0;
  run_extract_audio := fun _ _ => 1;
  run_join_streams := fun _ _ _ _ _ => 0
|}.

Definition demo_world : World :=
  {| fs := {[ "photo.png" := Png 530 530 ]}; ASCIIPIXELS_PROCESS := false |}.

(** The documented defaults of the entry points, on [photo.png]. *)
Definition default_args : Args :=
  {| arg_path := "photo.png";
     arg_bg := Value (VInt 30);
     arg_txt := Value (VInt 255);
     arg_definition := Value (VInt 100);
     arg_out_width := SizeNone;
     arg_strict_out_dimensions := false;
     arg_correction := Value VNone;
     arg_chars := Value (VStr " .:-=+*$@#");
     arg_reverse_chars := false;
     arg_frame_count := None;
     arg_fps := None |}.

Definition with_definition (d : func_or_value) (a : Args) : Args :=
  mkArgs (arg_path a) (arg_bg a) (arg_txt a) d
    (arg_out_width a) (arg_strict_out_dimensions a) (arg_correction a)
    (arg_chars a) (arg_reverse_chars a) (arg_frame_count a) (arg_fps a).

Definition with_correction (c : func_or_value) (a : Args) : Args :=
  mkArgs (arg_path a) (arg_bg a) (arg_txt a) (arg_definition a)
    (arg_out_width a) (arg_strict_out_dimensions a) c
    (arg_chars a) (arg_reverse_chars a) (arg_frame_count a) (arg_fps a).

Definition with_strict_out_dimensions (b : bool) (a : Args) : Args :=
  mkArgs (arg_path a) (arg_bg a) (arg_txt a) (arg_definition a)
    (arg_out_width a) b (arg_correction a)
    (arg_chars a) (arg_reverse_chars a) (arg_frame_count a) (arg_fps a).

(** ** The specification's formulas, for comparison with the code *)

(** Point size: the ceiling of [output_width * 1.7 / definition], in
    double precision. *)
Definition spec_point_size (output_width d : Z) : result Z :=
  (w <- float_of_int output_width ;;
   x <- float_truediv (fmul w float_1_7) (VInt d) ;;
   py_ceil x)%py.

(** The product [definition * source_aspect_ratio * correction], in double
    precision, from left to right. *)
Definition sampling_product (d : Z) (aspect c : float) : result float :=
  (f <- float_of_int d ;; Ok (fmul (fmul f aspect) c))%py.

(** The floor of a float. *)
Definition float_floor (x : float) : result Z :=
  match x with
  | S754_nan => Raise ValueError
  | S754_infinity _ => Raise OverflowError
  | S754_zero _ => Ok 0
  | S754_finite s m e =>
      Ok (if s then - magnitude_ceil m e else magnitude_floor m e)
  end.

(** Vertical sampling count: the floor of
    [definition * source_aspect_ratio * correction]. *)
Definition spec_definition_height (d : Z) (aspect c : float) : result Z :=
  (y <- sampling_product d aspect c ;; float_floor y)%py.

(** The same floor on the exact numbers, for an aspect ratio
    [height / width] and a correction [num / den] with [0 < width] and
    [0 < den]. *)
Definition exact_definition_height (d height width num den : Z) : Z :=
  (d * height * num) / (width * den).

(** The sign bit of a float; a NaN has none. *)
Definition float_sign (x : float) : option bool :=
  match x with
  | S754_zero s | S754_infinity s | S754_finite s _ _ => Some s
  | S754_nan => None
  end.

(** A float that is a number, and not an infinity. *)
Definition float_is_finite (x : float) : bool :=
  match x with
  | S754_zero _ | S754_finite _ _ _ => true
  | _ => false
  end.

(** A float that is not negative: a zero, or a finite double or an
    infinity with the sign bit clear. *)
Definition float_nonneg (x : float) : bool :=
  match x with
  | S754_zero _ | S754_finite false _ _ | S754_infinity false => true
  | _ => false
  end.

(** A float that is not positive. *)
Definition float_nonpos (x : float) : bool :=
  match x with
  | S754_zero _ | S754_finite true _ _ | S754_infinity true => true
  | _ => false
  end.

(** The nearest even number at or below [n]. *)
Definition round_down_even (n : Z) : Z := 2 * (n / 2).

(** Ramp index of a luminance sample, floor-divided. *)
Definition ramp_index (ramp : string) (luminance : Z) : Z :=
  luminance * (Z.of_nat (String.length ramp) - 1) / 255.

Definition ramp_char (ramp : string) (luminance : Z) : ascii :=
  nth (Z.to_nat (ramp_index ramp luminance)) (string_to_list ramp) Ascii.zero.

(** The samples as [h] rows of [d], in row-major order. *)
Fixpoint grid_rows {A : Type} (h d : nat) (samples : list A) : list (list A) :=
  match h with
  | O => []
  | S h' => take d samples :: grid_rows h' d (drop d samples)
  end.

Definition text_line (ramp : string) (row : list Z) : string :=
  string_of_list (map (ramp_char ramp) row).

(** The lines of a text block, a line break after each. *)
Definition join_lines (lines : list string) : string :=
  foldr (fun line rest => line +:+ newline +:+ rest) "" lines.

(** The effective correction of a geometry computation: the number the
    user supplied, or the measured width over the measured height of the
    square test block. *)
Definition effective_correction `{External} (core : CoreAsciifier)
    (frame : option Z) (d size : Z) (c : float) : Prop :=
  match PossiblyDynamic_getitem (correction core) frame with
  | Ok (VFloat q) => c = q
  | Ok (VInt n) => float_of_int n = Ok c
  | Ok VNone =>
      exists w txt_w txt_h,
        int_of_scaled (out_dimensions core).1 float_1_5 = Ok w
        /\ Magick_text_dimensions (VInt d) (VInt d) size
             w ((out_dimensions core).1 * 2) = Ok (txt_w, txt_h)
        /\ int_truediv txt_w txt_h = Ok c
  | _ => False
  end.

(** A resolver of a static value. *)
Definition static (v : pyval) (color reversed : bool) : PossiblyDynamic :=
  mkPossiblyDynamic false v color reversed.

(** The object [CoreAsciifier_init] builds from [default_args] (a 530 x 530
    image next to the working directory), with the definition, the
    correction, the strictness and the frame count given. *)
Definition demo_core (definition_ correction_ : PossiblyDynamic)
    (strict : bool) (count fps_ : option Z) : CoreAsciifier :=
  {| str_path := "photo.png";
     is_video := false;
     frame_count := count;
     fps := fps_;
     dimensions := (530, 530);
     ratio := S754_finite false 4503599627370496 (-52);
     strict_out_dimensions := strict;
     out_dimensions := (530, 530);
     bg := static (VInt 30) true false;
     txt := static (VInt 255) true false;
     definition := definition_;
     correction := correction_;
     chars := static (VStr " .:-=+*$@#") false false;
     ascii_art := "";
     definition_height := None;
     text_size := None;
     process_dir := "./asciipixels" |}.

(** [demo_world] once the constructor has made the process directories. *)
Definition demo_workspace : World :=
  {| fs := <["./asciipixels/NewFrames" := Directory]>
             (<["./asciipixels/Frames" := Directory]>
                (<["./asciipixels" := Directory]> (fs demo_world)));
     ASCIIPIXELS_PROCESS := false |}.

(** The canvas and the rendered frames in the process directory. *)
Definition canvas_path (core : CoreAsciifier) : string :=
  path_join (process_dir core) "canvas.png".

Definition new_frame_path (core : CoreAsciifier) (frame : Z) : string :=
  path_join (path_join (process_dir core) "NewFrames") (format_frame (Some frame)).

(** A computation that leaves a field of [self] as it found it, whether it
    returns or raises. *)
Definition keeps {A B : Type} (field : CoreAsciifier -> B) (m : M A) : Prop :=
  forall c w, field (m c w).1.2 = field c.

(** The resolver of scenario B: [f(frame) = 50 + frame] over three frames. *)
Definition scenario_B_definition : PossiblyDynamic :=
  mkPossiblyDynamic true (VList [VInt 51; VInt 52; VInt 53]) false false.

(** [demo_workspace] once the canvas has been generated. *)
Definition demo_canvas_world : World :=
  set_fs (fun m => <["./asciipixels/canvas.png" := Png 530 530]> m) demo_workspace.

(** The process directory of a run on [arg_path a] is not a directory of
    the file system of [w']. *)
Definition workspace_removed `{External} (a : Args) (w' : World) : Prop :=
  is_dir (fs w') (path_join (Path_parent (arg_path a)) "asciipixels") = false.

(** The constructor raised: the [with] block was never entered. *)
Definition constructor_raised `{External} (a : Args) (w : World) : Prop :=
  exists e, (CoreAsciifier_init a w).1 = Raise e.

(** What a per-frame task does to the world: it raises and leaves the
    world alone, or it returns and has saved, at the path of its frame, an
    image of the dimensions of the canvas. *)
Definition renders_on_canvas (task : Z -> M unit) : Prop :=
  forall (f : Z) (c : CoreAsciifier) (w : World),
    f <> 0 ->
    (exists e, (task f c w).1.1 = Raise e /\ (task f c w).2 = w)
    \/ (exists cw ch,
          (task f c w).1.1 = Ok tt
          /\ fs w !! canvas_path c = Some (Png cw ch)
          /\ (task f c w).2
             = set_fs (fun m => <[new_frame_path c f := Png cw ch]> m) w).

(** The float that the second factor of [float_mul] stands for. *)
Definition float_mul_result (v : pyval) (c : float) : Prop :=
  match v with
  | VInt n => float_of_int n = Ok c
  | VFloat q => q = c
  | _ => False
  end.

(** [int] and [float] values. *)
Definition is_number (v : pyval) : bool :=
  match v with
  | VInt _ | VFloat _ => true
  | _ => false
  end.

(** A number that is zero or negative. *)
Definition nonpositive_number (v : pyval) : bool :=
  match v with
  | VInt n => n <=? 0
  | VFloat q => float_nonpos q
  | _ => false
  end.

(** A 400 x 232 picture as the constructor leaves it: the aspect ratio is
    the double nearest to 232 / 400 and the output height is
    [int(400 * ratio)]. *)
Definition wide_core (correction_ : pyval) (strict : bool) : CoreAsciifier :=
  {| str_path := "photo.png";
     is_video := false;
     frame_count := None;
     fps := None;
     dimensions := (400, 232);
     ratio := S754_finite false 5224175567749775 (-53);
     strict_out_dimensions := strict;
     out_dimensions := (400, 231);
     bg := static (VInt 30) true false;
     txt := static (VInt 255) true false;
     definition := static (VInt 100) false false;
     correction := static correction_ false false;
     chars := static (VStr " .:-=+*$@#") false false;
     ascii_art := "";
     definition_height := None;
     text_size := None;
     process_dir := "./asciipixels" |}.

(** ** The rest of [utils.py] and [video/video.py] *)

(** [callable(func_or_value)]. *)
Definition is_callable (fv : func_or_value) : bool :=
  match fv with
  | Callable _ => true
  | Value _ => false
  end.

(** [video.ld_0] on an int: ['0' * (int(num) < 10) + str(num)]. *)
Definition ld_0 (num : Z) : string :=
  (if num <? 10 then "0" else "") +:+ pretty num.

(** [video.in_minutes] on an int. *)
Definition in_minutes (seconds : Z) : string :=
  let minutes := seconds / 60 in
  ld_0 minutes +:+ ":" +:+ ld_0 (seconds - minutes * 60).

(** [video.time_remaining]: [None] unless more than two seconds went by
    since the last estimate.  The three clock readings are floats (the
    first [last_checked] of a run, the int 0, is the float 0.0 in the
    difference). *)
Definition time_remaining (progress whole : Z)
    (start_time curr_time last_checked : float) : result (option string) :=
  if bool_decide (float_compare_int (fsub curr_time last_checked) 2 = Some Gt)
  then (a <- float_mul (fsub curr_time start_time) (VInt (whole - progress)) ;;
        x <- float_truediv a (VInt progress) ;;
        secs <- py_int x ;;
        Ok (Some (in_minutes secs)))%py
  else Ok None.

(** [s * n] for a string [s]: empty when [n] is not positive. *)
Definition str_repeat (s : string) (n : Z) : string :=
  String.concat "" (replicate (Z.to_nat n) s).

(** The test block that [Magick.text_dimensions] has measured:
    ['\n'.join(['#' + '|' * (cols - 2) + '#'] * lines)]. *)
Definition text_dimensions_text (cols lines : Z) : string :=
  String.concat newline
    (replicate (Z.to_nat lines) ("#" +:+ str_repeat "|" (cols - 2) +:+ "#")).

(** A directory with a picture, its first numbered copy and a picture
    whose name is a number. *)
Definition demo_files : gmap string node :=
  {[ "dir/foo.png" := File; "dir/foo2.png" := File; "dir/123.png" := File ]}.

(** * Properties *)

(** ** Indexing *)

Lemma seq_index_nonneg {A : Type} (l : list A) (i : Z) (x : A) :
  0 <= i -> l !! Z.to_nat i = Some x -> seq_index l i = Ok x.
Proof.
  intros Hi Hx. unfold seq_index.
  apply lookup_lt_Some in Hx as Hlen.
  destruct (i <? 0) eqn:E; [lia|].
  destruct (i <? 0); simpl; [lia|].
  destruct (Z.of_nat (length l) <=? i) eqn:E2; [lia|].
  now rewrite Hx.
Qed.

Lemma seq_index_last {A : Type} (l : list A) (x : A) :
  l !! (length l - 1)%nat = Some x -> l <> [] -> seq_index l (-1) = Ok x.
Proof.
  intros Hx Hne. unfold seq_index.
  assert (0 < length l)%nat by (destruct l; [congruence | simpl; lia]).
  change (-1 <? 0) with true. cbv iota.
  destruct (-1 + Z.of_nat (length l) <? 0) eqn:E1; [lia|].
  destruct (Z.of_nat (length l) <=? -1 + Z.of_nat (length l)) eqn:E2; [lia|].
  simpl. replace (Z.to_nat (-1 + Z.of_nat (length l))) with (length l - 1)%nat by lia.
  now rewrite Hx.
Qed.

Lemma seq_index_raises {A : Type} (l : list A) (i : Z) (e : exn) :
  seq_index l i = Raise e -> e = IndexError.
Proof.
  unfold seq_index.
  destruct ((_ <? 0) || _); [congruence|].
  destruct (l !! _); congruence.
Qed.

Lemma lookup_map {A B : Type} (f : A -> B) (l : list A) (i : nat) :
  map f l !! i = f <$> (l !! i).
Proof. apply (list_lookup_fmap f l i). Qed.

Lemma lookup_frames (g : Z -> pyval) (n f : Z) :
  1 <= f <= n ->
  map g (py_range 1 (n + 1)) !! Z.to_nat (f - 1) = Some (g f).
Proof.
  intros Hf. rewrite lookup_map. unfold py_range.
  rewrite lookup_seqZ_lt by lia. simpl. f_equal. f_equal. lia.
Qed.

Lemma stored_frames_length (g : Z -> pyval) (n : Z) :
  length (map g (py_range 1 (n + 1))) = Z.to_nat n.
Proof.
  rewrite length_map. unfold py_range. rewrite length_seqZ. f_equal. lia.
Qed.

(** ** The parameter resolver *)

(** C2.  A callable [g] with frame count [n] is evaluated at construction
    for the frames [1..n] and the sequence is stored; a lookup at a frame
    [f] of [1..n] returns [g f] after the output transforms (so [g f]
    itself when none is configured), and a lookup without a frame raises
    the no-frame error. *)
Theorem dynamic_parameter_lookup (g : Z -> pyval) (n f : Z) (ct rv : bool)
    (Hf : 1 <= f <= n) :
  exists pd,
    PossiblyDynamic_init (Callable g) (Some n) ct rv = Ok pd
    /\ is_dynamic pd = true
    /\ value pd = VList (map g (seqZ 1 n))
    /\ PossiblyDynamic_getitem pd (Some f) = output_transform ct rv (g f)
    /\ (exists pd', PossiblyDynamic_init (Callable g) (Some n) false false = Ok pd'
          /\ PossiblyDynamic_getitem pd' (Some f) = Ok (g f))
    /\ PossiblyDynamic_getitem pd None = Raise (AsciifierException no_frame_msg).
Proof.
  assert (Hlook : forall c r,
    PossiblyDynamic_getitem
      (mkPossiblyDynamic true (VList (map g (py_range 1 (n + 1)))) c r) (Some f)
    = output_transform c r (g f)).
  { intros c r. unfold PossiblyDynamic_getitem, dynamic_lookup. simpl.
    rewrite (seq_index_nonneg _ _ (g f)) by (try lia; now apply lookup_frames).
    reflexivity. }
  eexists. split; [reflexivity|]. simpl.
  repeat split.
  - unfold py_range. do 3 f_equal. lia.
  - apply Hlook.
  - eexists. split; [reflexivity|]. rewrite Hlook.
    unfold output_transform. reflexivity.
Qed.

Lemma dynamic_parameter_lookup_witness :
  exists pd,
    PossiblyDynamic_init (Callable (fun i => VInt (50 + i))) (Some 3) false false = Ok pd
    /\ value pd = VList [VInt 51; VInt 52; VInt 53]
    /\ PossiblyDynamic_getitem pd (Some 2) = Ok (VInt 52)
    /\ PossiblyDynamic_getitem pd None = Raise (AsciifierException no_frame_msg).
Proof.
  destruct (dynamic_parameter_lookup (fun i => VInt (50 + i)) 3 2 false false)
    as (pd & Hinit & _ & Hval & Hget & _ & Hnone); [lia|].
  exists pd. repeat split; assumption.
Defined.

(** C6.  A static parameter [p] is stored as it is, whatever the frame
    count, and every lookup, whatever the frame (none included), gives the
    same outcome, decided by [p] and the two transforms alone.  A
    color-typed resolver turns an integer into a triple of that integer,
    first of all.  Otherwise a reversing resolver returns [p] reversed: a
    string, a tuple or a list with its items in the opposite order (the
    ramp AB resolves to BA; reversing twice gives [p] back), and a value
    with no order ([None], a number: not what the one reversing parameter,
    the character ramp, is typed for) raises [TypeError].  Otherwise the
    lookup returns [p] itself. *)
Theorem static_parameter_lookup (p : pyval) (ct rv : bool)
    (count frame : option Z) (n : Z) (s : string) (t : list pyval) :
  let static v c r := mkPossiblyDynamic false v c r in
  PossiblyDynamic_init (Value p) count ct rv = Ok (static p ct rv)
  /\ PossiblyDynamic_getitem (static p ct rv) frame
     = PossiblyDynamic_getitem (static p ct rv) None
  /\ PossiblyDynamic_getitem (static p false false) frame = Ok p
  /\ PossiblyDynamic_getitem (static (VInt n) true rv) frame
     = Ok (VTuple [VInt n; VInt n; VInt n])
  /\ ((forall k, p <> VInt k) ->
      PossiblyDynamic_getitem (static p true false) frame = Ok p)
  /\ PossiblyDynamic_getitem (static (VStr s) ct true) frame
     = Ok (VStr (string_of_list (rev (string_to_list s))))
  /\ PossiblyDynamic_getitem (static (VTuple t) ct true) frame
     = Ok (VTuple (rev t))
  /\ PossiblyDynamic_getitem (static (VList t) ct true) frame
     = Ok (VList (rev t))
  /\ PossiblyDynamic_getitem (static (VStr "AB") false true) frame = Ok (VStr "BA")
  /\ (match p with
      | VNone | VFloat _ =>
          PossiblyDynamic_getitem (static p ct true) frame = Raise TypeError
      | VInt _ =>
          PossiblyDynamic_getitem (static p false true) frame = Raise TypeError
      | VStr _ | VTuple _ | VList _ => True
      end)
  /\ (forall q q',
        PossiblyDynamic_getitem (static p false true) frame = Ok q ->
        PossiblyDynamic_getitem (static q false true) frame = Ok q' ->
        q' = p).
Proof.
  simpl. unfold PossiblyDynamic_getitem, output_transform. simpl.
  split; [reflexivity|]. split; [reflexivity|]. split; [reflexivity|].
  split; [reflexivity|].
  split; [intros Hp; destruct p; try reflexivity; now destruct (Hp n0)|].
  split; [destruct ct; reflexivity|].
  split; [destruct ct; reflexivity|].
  split; [destruct ct; reflexivity|].
  split; [reflexivity|].
  split; [destruct p, ct; reflexivity|].
  intros q q' Hq Hq'.
  destruct p as [|k|x|u|u|u]; simpl in Hq; try discriminate;
    injection Hq as <-; simpl in Hq'; injection Hq' as <-.
  - unfold string_of_list, string_to_list.
    now rewrite list_ascii_of_string_of_list_ascii, rev_involutive,
      string_of_list_ascii_of_string.
  - now rewrite rev_involutive.
  - now rewrite rev_involutive.
Qed.

(** C10.  On a resolver built from a callable with at least one frame, a
    lookup at frame 0 takes the last stored value, the one of frame [n]:
    the index lookup raises nothing, and the lookup as a whole is the
    lookup at frame [n].  The no-frame error is raised by a missing frame
    only. *)
Theorem frame_zero_wraps_around (g : Z -> pyval) (n : Z) (ct rv : bool)
    (Hn : 1 <= n) :
  exists pd,
    PossiblyDynamic_init (Callable g) (Some n) ct rv = Ok pd
    /\ dynamic_lookup (value pd) (Some 0) = Ok (g n)
    /\ PossiblyDynamic_getitem pd (Some 0) = output_transform ct rv (g n)
    /\ PossiblyDynamic_getitem pd (Some 0) = PossiblyDynamic_getitem pd (Some n)
    /\ (rv = false -> exists v, PossiblyDynamic_getitem pd (Some 0) = Ok v)
    /\ (forall frame,
          PossiblyDynamic_getitem pd frame = Raise (AsciifierException no_frame_msg)
          <-> frame = None).
Proof.
  eexists. split; [reflexivity|]. simpl.
  assert (H0 : seq_index (map g (py_range 1 (n + 1))) (0 - 1) = Ok (g n)).
  { apply seq_index_last.
    - rewrite stored_frames_length.
      replace (Z.to_nat n - 1)%nat with (Z.to_nat (n - 1)) by lia.
      apply lookup_frames. lia.
    - intros E. apply (f_equal length) in E.
      rewrite stored_frames_length in E. simpl in E. lia. }
  assert (Hn' : seq_index (map g (py_range 1 (n + 1))) (n - 1) = Ok (g n)).
  { apply seq_index_nonneg; [lia | apply lookup_frames; lia]. }
  unfold PossiblyDynamic_getitem, dynamic_lookup. simpl.
  rewrite H0, Hn'. simpl. repeat split.
  - intros ->. unfold output_transform.
    destruct ct, (g n); eexists; reflexivity.
  - destruct frame as [f|]; [|reflexivity].
    intros E. exfalso.
    destruct (seq_index (map g (py_range 1 (n + 1))) (f - 1)) as [v|e] eqn:Ei.
    + simpl in E. unfold output_transform in E.
      destruct ct, v, rv; simpl in E; discriminate.
    + apply seq_index_raises in Ei. subst e. discriminate.
  - intros ->. reflexivity.
Qed.

Lemma frame_zero_wraps_around_witness :
  exists pd,
    PossiblyDynamic_init (Callable (fun i => VInt (50 + i))) (Some 3) false false = Ok pd
    /\ PossiblyDynamic_getitem pd (Some 0) = Ok (VInt 53).
Proof.
  destruct (frame_zero_wraps_around (fun i => VInt (50 + i)) 3 false false)
    as (pd & Hinit & _ & Hget & _); [lia|].
  exists pd. split; assumption.
Defined.

(** ** Doubles *)

Lemma digits2_pos_size (p : positive) : digits2_pos p = Pos.size p.
Proof. induction p; simpl; congruence. Qed.

Lemma size_iter_xO (p k : positive) :
  Pos.size (Pos.iter xO p k) = (Pos.size p + k)%positive.
Proof.
  induction k as [|k IH] using Pos.peano_ind.
  - simpl. lia.
  - rewrite Pos.iter_succ. simpl. rewrite IH. lia.
Qed.

Lemma Zpos_iter_xO (p k : positive) :
  Z.pos (Pos.iter xO p k) = Z.pos p * 2 ^ Z.pos k.
Proof.
  induction k as [|k IH] using Pos.peano_ind.
  - simpl. lia.
  - rewrite Pos.iter_succ, Pos2Z.inj_succ, Z.pow_succ_r by lia.
    rewrite Pos2Z.inj_xO, IH. lia.
Qed.

Lemma size_bound (p : positive) :
  Z.pos p < 2 ^ 53 -> (Z.pos (Pos.size p) <= 53).
Proof.
  intros Hp.
  destruct (Z.le_gt_cases (Z.pos (Pos.size p)) 53) as [|Hgt]; [assumption|].
  pose proof (Pos.size_le p) as Hle.
  assert (H2 : 2 ^ 54 <= 2 ^ Z.pos (Pos.size p))
    by (apply Z.pow_le_mono_r; lia).
  assert (H3 : 2 ^ Z.pos (Pos.size p) <= Z.pos p~0).
  { rewrite <- Pos2Z.inj_pow. apply Pos2Z.pos_le_pos. exact Hle. }
  change (2 ^ 54) with (2 * 2 ^ 53) in H2. lia.
Qed.

Lemma fexp_canonical (e : Z) :
  -1074 <= e -> fexp 53 1024 (53 + e) = e.
Proof. unfold fexp, emin. lia. Qed.

(** Rounding a mantissa of 53 bits changes nothing. *)
Lemma binary_round_aux_canonical (s : bool) (m : positive) (e : Z) :
  Pos.size m = 53%positive -> -1074 <= e <= 971 ->
  binary_round_aux 53 1024 s (Z.pos m) e loc_Exact = S754_finite s m e.
Proof.
  intros Hm He.
  assert (Hshr : shr_fexp 53 1024 (Z.pos m) e loc_Exact
                 = ({| shr_m := Z.pos m; shr_r := false; shr_s := false |}, e)).
  { unfold shr_fexp. cbn [Zdigits2]. rewrite digits2_pos_size, Hm.
    rewrite fexp_canonical by lia. rewrite Z.sub_diag. reflexivity. }
  unfold binary_round_aux. rewrite Hshr. cbn [shr_m loc_of_shr_record round_nearest_even].
  rewrite Hshr. cbn [shr_m].
  destruct (Z.leb_spec e (1024 - 53)); [reflexivity | lia].
Qed.

(** The double of a positive int below [2^53]: the int itself, its
    mantissa shifted to 53 bits. *)
Lemma binary_round_small (s : bool) (p : positive) :
  Z.pos p < 2 ^ 53 ->
  exists m e,
    binary_round 53 1024 s p 0 = S754_finite s m e
    /\ Pos.size m = 53%positive /\ -52 <= e <= 0
    /\ Z.pos m = Z.pos p * 2 ^ (- e).
Proof.
  intros Hp. apply size_bound in Hp.
  unfold binary_round. rewrite digits2_pos_size.
  assert (Hfexp : fexp 53 1024 (Z.pos (Pos.size p) + 0) = Z.pos (Pos.size p) - 53)
    by (unfold fexp, emin; lia).
  rewrite Hfexp. unfold shl_align.
  destruct (Z.pos (Pos.size p) - 53 - 0) as [|d|d] eqn:Hd; [|lia|].
  - exists p, 0.
    assert (Hsize : Pos.size p = 53%positive) by lia.
    replace (Z.pos (Pos.size p) - 53) with 0 by lia.
    rewrite binary_round_aux_canonical by (try exact Hsize; lia).
    split; [reflexivity|]. split; [exact Hsize|]. split; [lia|].
    simpl. lia.
  - exists (Pos.iter xO p d), (Z.pos (Pos.size p) - 53).
    assert (Hsize : Pos.size (Pos.iter xO p d) = 53%positive)
      by (rewrite size_iter_xO; lia).
    rewrite binary_round_aux_canonical by (try exact Hsize; lia).
    split; [reflexivity|]. split; [exact Hsize|]. split; [lia|].
    rewrite Zpos_iter_xO. f_equal. f_equal. lia.
Qed.

(** Halving a double whose exponent leaves room is exact. *)
Lemma fmul_half (s : bool) (m : positive) (e : Z) :
  Pos.size m = 53%positive -> -52 <= e <= 0 ->
  fmul (S754_finite s m e) float_0_5 = S754_finite s m (e - 1).
Proof.
  intros Hm He. unfold fmul, float_0_5, SFmul. rewrite xorb_false_r.
  rewrite Pos.mul_comm.
  assert (Hshr : shr_fexp 53 1024 (Z.pos (4503599627370496 * m)) (e + -53) loc_Exact
                 = ({| shr_m := Z.pos m; shr_r := false; shr_s := false |}, e - 1)).
  { change (4503599627370496 * m)%positive with (Pos.iter xO m 52).
    unfold shr_fexp. cbn [Zdigits2].
    rewrite digits2_pos_size, size_iter_xO, Hm.
    replace (fexp 53 1024 (Z.pos (53 + 52) + (e + -53)) - (e + -53)) with 52
      by (unfold fexp, emin; lia).
    unfold shr. f_equal. lia. }
  unfold binary_round_aux. rewrite Hshr.
  cbn [shr_m loc_of_shr_record round_nearest_even].
  assert (Hshr2 : shr_fexp 53 1024 (Z.pos m) (e - 1) loc_Exact
                 = ({| shr_m := Z.pos m; shr_r := false; shr_s := false |}, e - 1)).
  { unfold shr_fexp. cbn [Zdigits2]. rewrite digits2_pos_size, Hm.
    rewrite fexp_canonical by lia. rewrite Z.sub_diag. reflexivity. }
  rewrite Hshr2. cbn [shr_m].
  destruct (Z.leb_spec (e - 1) (1024 - 53)); [reflexivity | lia].
Qed.

Lemma int_of_scaled_half (t : Z) :
  0 <= t < 2 ^ 53 -> int_of_scaled t float_0_5 = Ok (t / 2).
Proof.
  intros Ht. unfold int_of_scaled, int_mul_float, float_of_int, binary_normalize.
  destruct t as [|p|p]; [reflexivity | | lia].
  destruct (binary_round_small false p) as (m & e & Hr & Hm & He & Hv); [lia|].
  rewrite Hr. cbn [rbind]. rewrite fmul_half by assumption.
  cbn [py_int]. f_equal. unfold magnitude_floor.
  rewrite Z.shiftl_div_pow2 by lia. rewrite Hv.
  replace (- (e - 1)) with (- e + 1) by lia.
  rewrite Z.pow_add_r by lia. change (2 ^ 1) with 2.
  rewrite (Z.mul_comm (Z.pos p)), Z.div_mul_cancel_l; [reflexivity | lia |].
  apply Z.pow_nonzero; lia.
Qed.

Lemma py_int_floor (x : float) : float_nonneg x = true -> py_int x = float_floor x.
Proof. destruct x as [s|s| |s m e]; try reflexivity. destruct s; [discriminate | reflexivity]. Qed.

Lemma shr_1_nonneg (mrs : shr_record) : 0 <= shr_m mrs -> 0 <= shr_m (shr_1 mrs).
Proof.
  destruct mrs as [m r t]. simpl.
  destruct m as [|[p|p|]|[p|p|]]; simpl; lia.
Qed.

Lemma iter_pos_invariant {A : Type} (P : A -> Prop) (f : A -> A) :
  (forall x, P x -> P (f x)) ->
  forall (n : positive) (x : A), P x -> P (SpecFloat.iter_pos f n x).
Proof.
  intros Hf. induction n as [n IH|n IH|]; intros x Hx; simpl; auto.
Qed.

Lemma shr_fexp_nonneg (m e : Z) (l : location) :
  0 <= m -> 0 <= shr_m (shr_fexp 53 1024 m e l).1.
Proof.
  intros Hm. unfold shr_fexp, shr.
  assert (H0 : 0 <= shr_m (shr_record_of_loc m l))
    by (destruct l as [|[]]; exact Hm).
  destruct (fexp 53 1024 (Zdigits2 m + e) - e); simpl; try exact H0.
  apply (iter_pos_invariant (fun r => 0 <= shr_m r)); [apply shr_1_nonneg | exact H0].
Qed.

Lemma round_nearest_even_nonneg (m : Z) (l : location) :
  0 <= m -> 0 <= round_nearest_even m l.
Proof.
  intros Hm. destruct l as [|[]]; simpl; try lia.
  destruct (Z.even m); lia.
Qed.

(** Rounding keeps the sign, and makes no NaN. *)
Lemma binary_round_aux_sign (s : bool) (m e : Z) (l : location) :
  0 <= m -> float_sign (binary_round_aux 53 1024 s m e l) = Some s.
Proof.
  intros Hm. unfold binary_round_aux.
  pose proof (shr_fexp_nonneg m e l Hm) as H1.
  destruct (shr_fexp 53 1024 m e l) as [mrs' e']. simpl in H1.
  pose proof (shr_fexp_nonneg _ e' loc_Exact
                (round_nearest_even_nonneg _ (loc_of_shr_record mrs') H1)) as H2.
  destruct (shr_fexp 53 1024 _ e' loc_Exact) as [mrs'' e'']. simpl in H2.
  destruct (shr_m mrs''); [reflexivity | | lia].
  destruct (e'' <=? 1024 - 53); reflexivity.
Qed.

Lemma fmul_sign (x y : float) (sx sy : bool) :
  float_sign x = Some sx -> float_sign y = Some sy ->
  fmul x y = S754_nan \/ float_sign (fmul x y) = Some (xorb sx sy).
Proof.
  intros Hx Hy.
  destruct x as [a|a| |a m e], y as [b|b| |b n f]; simpl in Hx, Hy;
    simplify_eq; try (now right); try (now left).
  right. apply binary_round_aux_sign. lia.
Qed.

Lemma fdiv_sign (x y : float) (sx sy : bool) :
  float_sign x = Some sx -> float_sign y = Some sy ->
  fdiv x y = S754_nan \/ float_sign (fdiv x y) = Some (xorb sx sy).
Proof.
  intros Hx Hy.
  destruct x as [a|a| |a m e], y as [b|b| |b n f]; simpl in Hx, Hy;
    simplify_eq; try (now right); try (now left).
  right. unfold fdiv, SFdiv, SFdiv_core_binary.
  set (m' := match _ - _ - _ with Z.pos _ => _ | _ => _ end).
  assert (Hm' : 0 <= m').
  { subst m'. destruct (_ - _ - _); try lia. apply Z.shiftl_nonneg. lia. }
  pose proof (Z_div_mod m' (Z.pos n) eq_refl) as Hdiv.
  destruct (Z.div_eucl m' (Z.pos n)) as [q r].
  apply binary_round_aux_sign. nia.
Qed.

Lemma float_of_int_sign (n : Z) (x : float) :
  float_of_int n = Ok x -> float_sign x = Some (n <? 0).
Proof.
  unfold float_of_int, binary_normalize, binary_round.
  destruct n as [|p|p]; [intros [= <-]; reflexivity | |];
    [change (Z.pos p <? 0) with false | change (Z.neg p <? 0) with true];
    destruct (shl_align _ _ _) as [mz ez];
    match goal with
    | |- context [binary_round_aux 53 1024 ?s ?m ?e ?l] =>
        pose proof (binary_round_aux_sign s m e l ltac:(lia)) as Hs;
        destruct (binary_round_aux 53 1024 s m e l)
    end;
    intros Heq; simplify_eq; exact Hs.
Qed.

Lemma magnitude_floor_nonneg (m : positive) (e : Z) : 0 <= magnitude_floor m e.
Proof. unfold magnitude_floor. apply Z.shiftl_nonneg. lia. Qed.

Lemma py_int_sign (x : float) (s : bool) (z : Z) :
  float_sign x = Some s -> py_int x = Ok z ->
  if s then z <= 0 else 0 <= z.
Proof.
  destruct x as [a|a| |a m e]; simpl; intros; simplify_eq.
  - destruct s; lia.
  - pose proof (magnitude_floor_nonneg m e). destruct s; lia.
Qed.

(** ** Inversion of the monad *)

Lemma rbind_Ok_inv {A B : Type} (r : result A) (k : A -> result B) (b : B) :
  rbind r k = Ok b -> exists a, r = Ok a /\ k a = Ok b.
Proof. destruct r as [a|e]; [eauto | discriminate]. Qed.

Lemma bind_Ok_inv {A B : Type} (m : M A) (k : A -> M B) (c c' : CoreAsciifier)
    (w w' : World) (v : B) :
  bind m k c w = (Ok v, c', w') ->
  exists a c1 w1, m c w = (Ok a, c1, w1) /\ k a c1 w1 = (Ok v, c', w').
Proof.
  unfold bind. destruct (m c w) as [[[a|e] c1] w1]; [|discriminate].
  intros Hk. eauto.
Qed.

Lemma lift_Ok_inv {A : Type} (r : result A) (c c' : CoreAsciifier)
    (w w' : World) (a : A) :
  lift r c w = (Ok a, c', w') -> r = Ok a /\ c' = c /\ w' = w.
Proof. unfold lift. intros [= -> -> ->]. auto. Qed.

(** One step of a run that returned: the first computation returned too. *)
Ltac run_step H :=
  let a := fresh "a" in
  let c := fresh "c" in
  let w := fresh "w" in
  let H1 := fresh "Hstep" in
  apply bind_Ok_inv in H as (a & c & w & H1 & H);
  lazymatch type of H1 with
  | get_self _ _ = _ => unfold get_self in H1; injection H1 as <- <- <-
  | get_world _ _ = _ => unfold get_world in H1; injection H1 as <- <- <-
  | modify_self _ _ _ = _ =>
      unfold modify_self in H1; destruct a; injection H1 as <- <-
  | lift _ _ _ = _ => apply lift_Ok_inv in H1 as (H1 & -> & ->)
  | _ => idtac
  end.

(** ** The geometry planner *)

#[local] Arguments Magick_text_dimensions : simpl never.

(** [round_down_even n] is even, at most [n], and within one of it. *)
Lemma round_down_even_spec (n : Z) :
  Z.even (round_down_even n) = true
  /\ round_down_even n <= n < round_down_even n + 2.
Proof.
  unfold round_down_even. split.
  - rewrite Z.even_mul. reflexivity.
  - pose proof (Z.mod_pos_bound n 2). pose proof (Z.div_mod n 2). lia.
Qed.

Section Geometry.
Context `{External}.

(** Without fine-tuning [figure_out_sizes] leaves the output dimensions
    and the world as they were, whether it returns or raises. *)
Lemma figure_out_sizes_frozen (frame : option Z) (even_sizes : bool)
    (core : CoreAsciifier) (w : World) :
  out_dimensions (figure_out_sizes frame false even_sizes core w).1.2
  = out_dimensions core
  /\ process_dir (figure_out_sizes frame false even_sizes core w).1.2
     = process_dir core
  /\ (figure_out_sizes frame false even_sizes core w).2 = w.
Proof.
  unfold figure_out_sizes, bind, lift, get_self, modify_self, ret.
  rewrite orb_true_r.
  repeat case_match; simplify_eq; simpl; auto.
Qed.

(** C5, as the code has it.  When [figure_out_sizes] returns, for an
    integer definition [d], all of it in double precision: the point size
    is the ceiling of [output_width * 1.7 / d]; the definition height is
    [int(d * ratio * c)] for the effective correction [c], the product
    truncated toward zero, which is its floor when the product is not
    negative; strict dimensions or no fine-tuning leave the output
    dimensions alone; otherwise they are the measured size of the text
    block, and with even sizes requested each axis is
    [int(measured * 0.5) * 2], which for a measured size from 0 to [2^53]
    (a pixel count) is that size rounded down to the nearest even
    number. *)
Theorem figure_out_sizes_formulas (frame : option Z)
    (fine_tune even_sizes : bool) (core core' : CoreAsciifier) (w w' : World)
    (d : Z)
    (Hd : PossiblyDynamic_getitem (definition core) frame = Ok (VInt d))
    (Hrun : figure_out_sizes frame fine_tune even_sizes core w = (Ok tt, core', w')) :
  exists size c product height,
    spec_point_size (out_dimensions core).1 d = Ok size
    /\ text_size core' = Some size
    /\ effective_correction core frame d size c
    /\ sampling_product d (ratio core) c = Ok product
    /\ py_int product = Ok height
    /\ definition_height core' = Some height
    /\ (float_nonneg product = true ->
        spec_definition_height d (ratio core) c = Ok height)
    /\ (strict_out_dimensions core || negb fine_tune = true ->
        out_dimensions core' = out_dimensions core)
    /\ (strict_out_dimensions core || negb fine_tune = false ->
        exists cw txt_w txt_h,
          int_of_scaled (out_dimensions core).1 float_1_5 = Ok cw
          /\ Magick_text_dimensions (VInt d) (VInt height) size
               cw ((out_dimensions core).2 * 2) = Ok (txt_w, txt_h)
          /\ (even_sizes = false -> out_dimensions core' = (txt_w, txt_h))
          /\ (even_sizes = true ->
              exists a b,
                int_of_scaled txt_w float_0_5 = Ok a
                /\ int_of_scaled txt_h float_0_5 = Ok b
                /\ out_dimensions core' = (a * 2, b * 2)
                /\ (0 <= txt_w < 2 ^ 53 -> a * 2 = round_down_even txt_w)
                /\ (0 <= txt_h < 2 ^ 53 -> b * 2 = round_down_even txt_h))).
Proof.
  unfold figure_out_sizes in Hrun.
  run_step Hrun. run_step Hrun. rewrite Hd in Hstep. injection Hstep as <-.
  run_step Hrun. rename Hstep into Hc, a into cv.
  run_step Hrun. rename Hstep into Hsize, a into size.
  run_step Hrun.
  apply bind_Ok_inv in Hrun as (cv' & c1 & w1 & Hcv' & Hrun).
  run_step Hrun. rename Hstep into Hheight, a into height.
  run_step Hrun.
  assert (Hsize' : spec_point_size (out_dimensions core).1 d = Ok size).
  { unfold spec_point_size. unfold int_mul_float in Hsize.
    destruct (float_of_int (out_dimensions core).1); exact Hsize. }
  assert (Hc1 : exists c,
             effective_correction core frame d size c
             /\ float_mul_result cv' c
             /\ c1 = set_text_size (Some size) core /\ w1 = w).
  { unfold effective_correction. rewrite Hc.
    destruct cv as [|n|q|s|t|l];
      try (unfold ret in Hcv'; injection Hcv' as <- <- <-).
    - run_step Hcv'. rename a into cw.
      run_step Hcv'. destruct a as [txt_w txt_h].
      run_step Hcv'. rename a into q.
      unfold ret in Hcv'. injection Hcv' as <- <- <-.
      exists q. split; [exists cw, txt_w, txt_h; auto|]. repeat split.
    - apply rbind_Ok_inv in Hheight as (a & Ha & Hheight).
      apply rbind_Ok_inv in Hheight as (y & Hy & Hheight).
      simpl in Hy. apply rbind_Ok_inv in Hy as (f & Hf & Hy).
      exists f. split; [exact Hf|]. split; [exact Hf|]. auto.
    - exists q. repeat split.
    - apply rbind_Ok_inv in Hheight as (a & Ha & Hheight).
      apply rbind_Ok_inv in Hheight as (y & Hy & Hheight). discriminate.
    - apply rbind_Ok_inv in Hheight as (a & Ha & Hheight).
      apply rbind_Ok_inv in Hheight as (y & Hy & Hheight). discriminate.
    - apply rbind_Ok_inv in Hheight as (a & Ha & Hheight).
      apply rbind_Ok_inv in Hheight as (y & Hy & Hheight). discriminate. }
  destruct Hc1 as (c & Heff & Hcv & -> & ->).
  apply rbind_Ok_inv in Hheight as (a & Ha & Hheight).
  apply rbind_Ok_inv in Hheight as (y & Hy & Hheight).
  assert (Hprod : sampling_product d (ratio core) c = Ok y).
  { unfold sampling_product. simpl in Ha. unfold int_mul_float in Ha.
    apply rbind_Ok_inv in Ha as (f & Hf & Ha). rewrite Hf. simpl.
    injection Ha as <-.
    destruct cv' as [|n|q|s|t|l]; simpl in Hcv; try contradiction.
    - simpl in Hy. rewrite Hcv in Hy. exact Hy.
    - subst q. exact Hy. }
  exists size, c, y, height.
  split; [exact Hsize'|].
  assert (Hfinal :
    text_size core' = Some size /\ definition_height core' = Some height).
  { cbn [strict_out_dimensions set_definition_height set_text_size
         out_dimensions] in Hrun.
    destruct (strict_out_dimensions core || negb fine_tune).
    - unfold ret in Hrun. injection Hrun as <- <-. auto.
    - run_step Hrun. run_step Hrun.
      destruct even_sizes.
      + run_step Hrun. run_step Hrun.
        unfold modify_self in Hrun. injection Hrun as <- <-. auto.
      + unfold modify_self in Hrun. injection Hrun as <- <-. auto. }
  destruct Hfinal as [Hts Hdh].
  split; [exact Hts|]. split; [exact Heff|]. split; [exact Hprod|].
  split; [exact Hheight|]. split; [exact Hdh|].
  split.
  { intros Hpos. unfold spec_definition_height. rewrite Hprod. simpl.
    now rewrite <- py_int_floor. }
  cbn [strict_out_dimensions set_definition_height set_text_size
       out_dimensions] in Hrun.
  destruct (strict_out_dimensions core || negb fine_tune).
  - unfold ret in Hrun. injection Hrun as <- <-.
    split; [reflexivity | discriminate].
  - split; [discriminate|]. intros _.
    run_step Hrun. rename a0 into cw, Hstep into Hcw.
    run_step Hrun. destruct a0 as [txt_w txt_h]. rename Hstep into Hm.
    exists cw, txt_w, txt_h. split; [exact Hcw|]. split; [exact Hm|].
    destruct even_sizes.
    + run_step Hrun. run_step Hrun.
      unfold modify_self in Hrun. injection Hrun as <- <-.
      split; [discriminate|]. intros _.
      exists a0, a1. simpl in *. split; [assumption|]. split; [assumption|].
      split; [reflexivity|].
      split; intros Hb; rewrite int_of_scaled_half in * by exact Hb;
        simplify_eq; unfold round_down_even; lia.
    + unfold modify_self in Hrun. injection Hrun as <- <-.
      split; [reflexivity | discriminate].
Qed.

End Geometry.

(** The constructor on the defaults builds [demo_core] and the three
    directories. *)
Example demo_core_constructed :
  CoreAsciifier_init (H := demo_tools) default_args demo_world
  = (Ok (demo_core (static (VInt 100) false false) (static VNone false false)
           false None None),
     demo_workspace).
Proof. vm_compute. reflexivity. Qed.

Lemma figure_out_sizes_formulas_witness :
  let core := demo_core (static (VInt 100) false false)
                (static VNone false false) false None None in
  let core' := (figure_out_sizes (H := demo_tools) None true true core
                  demo_workspace).1.2 in
  text_size core' = Some 10
  /\ definition_height core' = Some 60
  /\ out_dimensions core' = (600, 600).
Proof.
  intros core core'.
  destruct (figure_out_sizes_formulas (H := demo_tools) None true true core core'
              demo_workspace demo_workspace 100)
    as (size & c & product & height & Hsize & Hts & _ & _ & _ & Hdh & _ & _ & Hout).
  - reflexivity.
  - vm_compute. reflexivity.
  - vm_compute in Hsize. injection Hsize as <-.
    split; [exact Hts|].
    assert (Hh : height = 60) by (vm_compute in Hdh; congruence).
    subst height. split; [exact Hdh|].
    destruct Hout as (cw & tw & th & Hcw & Hm & _ & Heven); [reflexivity|].
    vm_compute in Hcw. injection Hcw as <-.
    vm_compute in Hm. injection Hm as <- <-.
    destruct (Heven eq_refl) as (a & b & _ & _ & Hd & Ha & Hb).
    rewrite Hd, Ha, Hb by lia. reflexivity.
Defined.

(** C5 as stated fails.  On a 400 x 232 picture with definition 100 and
    strict output dimensions, a correction of -1.0 gives the definition
    height -57: the double product is -57.99999999999999, whose floor is
    -58, as is the floor of the exact product -58.  With a correction of
    0.5 the definition height is 28, the floor of the double product
    28.999999999999996, where the exact product is 29. *)
Lemma definition_height_counterexample :
  let minus_one := S754_finite true 4503599627370496 (-52) in
  let run c := figure_out_sizes (H := demo_tools) None true false
                 (wide_core (VFloat c) true) demo_workspace in
  int_truediv 232 400 = Ok (ratio (wide_core VNone true))
  /\ (run minus_one).1.1 = Ok tt
  /\ definition_height (run minus_one).1.2 = Some (-57)
  /\ spec_definition_height 100 (ratio (wide_core VNone true)) minus_one
     = Ok (-58)
  /\ exact_definition_height 100 232 400 (-1) 1 = -58
  /\ (run float_0_5).1.1 = Ok tt
  /\ definition_height (run float_0_5).1.2 = Some 28
  /\ exact_definition_height 100 232 400 1 2 = 29.
Proof. vm_compute. repeat split. Qed.

Lemma float_of_int_raises (n : Z) (e : exn) :
  float_of_int n = Raise e -> e = OverflowError.
Proof.
  unfold float_of_int. destruct (binary_normalize 53 1024 n 0 false); congruence.
Qed.

Lemma py_int_raises (x : float) (e : exn) :
  py_int x = Raise e -> e = OverflowError \/ e = ValueError.
Proof. destruct x; simpl; intros; simplify_eq; auto. Qed.

Lemma py_ceil_raises (x : float) (e : exn) :
  py_ceil x = Raise e -> e = OverflowError \/ e = ValueError.
Proof. destruct x; simpl; intros; simplify_eq; auto. Qed.

(** The product of a float that is not negative and a number that is not
    positive, where it has an integer part, has one that is not
    positive. *)
Lemma nonpositive_product (a : float) (cv : pyval) (y : float) (z : Z) :
  (a = S754_nan \/ float_sign a = Some false) ->
  nonpositive_number cv = true ->
  float_mul a cv = Ok y -> py_int y = Ok z -> z <= 0.
Proof.
  intros Ha Hcv Hy Hz.
  assert (Hc : exists c, y = fmul a c
                 /\ (float_is_zero c = true \/ float_sign c = Some true)).
  { destruct cv as [|n|q|s|t|l]; simpl in Hcv, Hy; try discriminate.
    - apply rbind_Ok_inv in Hy as (f & Hf & Hy). injection Hy as <-.
      exists f. split; [reflexivity|].
      destruct (decide (n = 0)) as [->|Hn].
      + left. vm_compute in Hf. injection Hf as <-. reflexivity.
      + right. apply float_of_int_sign in Hf. rewrite Hf. f_equal.
        apply Z.ltb_lt. apply Z.leb_le in Hcv. lia.
    - injection Hy as <-. exists q. split; [reflexivity|].
      destruct q as [s|[]| |[] m e]; simpl in Hcv; try discriminate; auto. }
  destruct Hc as (c & -> & Hc).
  destruct Ha as [-> | Ha]; [destruct c; discriminate|].
  destruct Hc as [Hzero | Hneg].
  - destruct c as [s| | |]; try discriminate.
    destruct a as [s'|s'| |s' m e]; simpl in Hz; simplify_eq; lia.
  - destruct (fmul_sign a c false true Ha Hneg) as [Hnan | Hs].
    + rewrite Hnan in Hz. discriminate.
    + exact (py_int_sign _ true z Hs Hz).
Qed.

Section Correction.
Context `{External}.

(** C7, as the code has it.  A correction factor that is zero or negative
    is not rejected: [figure_out_sizes] uses it as any other number.  The
    point size and the definition height are computed in double
    precision; if that arithmetic raises (an int too large for a float, a
    definition of 0, a product that is not finite), the call raises the
    same, and it is no configuration error.  Otherwise the definition
    height is the integer part of [definition * ratio * correction],
    which is zero or negative for a positive definition and an aspect
    ratio that is not negative, and with strict dimensions, or without
    fine-tuning, the call returns normally. *)
Theorem nonpositive_correction_accepted (frame : option Z)
    (fine_tune even_sizes : bool) (core : CoreAsciifier) (w : World)
    (d : Z) (cv : pyval) (count : option Z)
    (Hc : nonpositive_number cv = true)
    (Hcorr : PossiblyDynamic_init (Value cv) count false false
             = Ok (correction core))
    (Hd : PossiblyDynamic_getitem (definition core) frame = Ok (VInt d)) :
  let run := figure_out_sizes frame fine_tune even_sizes core w in
  let arithmetic :=
    (size <- spec_point_size (out_dimensions core).1 d ;;
     a <- mul_float (VInt d) (ratio core) ;;
     y <- float_mul a cv ;;
     height <- py_int y ;;
     Ok (size, height))%py in
  (forall e, arithmetic = Raise e ->
     run.1.1 = Raise e
     /\ (e = OverflowError \/ e = ValueError \/ e = ZeroDivisionError))
  /\ (forall size height, arithmetic = Ok (size, height) ->
        text_size run.1.2 = Some size
        /\ definition_height run.1.2 = Some height
        /\ (0 < d -> float_sign (ratio core) = Some false -> height <= 0)
        /\ (strict_out_dimensions core || negb fine_tune = true ->
            run.1.1 = Ok tt)).
Proof.
  intros run arithmetic.
  assert (Hget : PossiblyDynamic_getitem (correction core) frame = Ok cv).
  { simpl in Hcorr. injection Hcorr as <-. reflexivity. }
  subst run arithmetic.
  unfold figure_out_sizes, bind, lift, get_self, modify_self, ret.
  rewrite Hd, Hget. unfold spec_point_size, int_mul_float.
  destruct (float_of_int (out_dimensions core).1) as [fw|e0] eqn:Hfw;
    cbn [rbind fst snd].
  2: { split; [|discriminate]. intros e [= <-]. split; [reflexivity|].
       left. eapply float_of_int_raises; eassumption. }
  destruct (float_truediv (fmul fw float_1_7) (VInt d)) as [x|e0] eqn:Hx;
    cbn [rbind fst snd].
  2: { split; [|discriminate]. intros e [= <-]. split; [reflexivity|].
       simpl in Hx. destruct (float_of_int d) eqn:Hfd; simpl in Hx.
       - destruct (d =? 0); simplify_eq. auto.
       - injection Hx as <-. left. eapply float_of_int_raises; eassumption. }
  destruct (py_ceil x) as [size|e0] eqn:Hsize; cbn [rbind fst snd].
  2: { split; [|discriminate]. intros e [= <-]. split; [reflexivity|].
       destruct (py_ceil_raises _ _ Hsize); auto. }
  assert (Hcv : (cv <- match cv with
                       | VNone => Raise TypeError
                       | v => Ok v
                       end ;; Ok cv)%py = Ok cv)
    by (destruct cv; try reflexivity; discriminate).
  destruct (mul_float (VInt d) (ratio core)) as [a|e0] eqn:Ha;
    cbn [rbind fst snd].
  2: { assert (He0 : e0 = OverflowError).
       { simpl in Ha. unfold int_mul_float in Ha.
         destruct (float_of_int d) eqn:Hfd; [discriminate|].
         injection Ha as <-. eapply float_of_int_raises; eassumption. }
       subst e0.
       destruct cv; try discriminate; cbn [rbind fst snd];
         (split; [|discriminate]); intros e [= <-]; auto. }
  destruct (float_mul a cv) as [y|e0] eqn:Hy; cbn [rbind fst snd].
  2: { assert (He0 : e0 = OverflowError).
       { destruct cv; try discriminate. simpl in Hy.
         destruct (float_of_int n) eqn:Hn; [discriminate|].
         injection Hy as <-. eapply float_of_int_raises; eassumption. }
       subst e0.
       destruct cv; try discriminate; cbn [rbind fst snd];
         rewrite ?Hy; cbn [rbind fst snd];
         (split; [|discriminate]); intros e [= <-]; auto. }
  destruct (py_int y) as [height|e0] eqn:Hheight; cbn [rbind fst snd].
  2: { destruct cv; try discriminate; cbn [rbind fst snd];
         rewrite ?Hy; cbn [rbind fst snd];
         rewrite ?Hheight; cbn [rbind fst snd];
         (split; [|discriminate]); intros e [= <-];
         (split; [reflexivity|]);
         destruct (py_int_raises _ _ Hheight); auto. }
  assert (Hsign : 0 < d -> float_sign (ratio core) = Some false -> height <= 0).
  { intros Hpos Hratio.
    apply (nonpositive_product a cv y); try assumption.
    simpl in Ha. unfold int_mul_float in Ha.
    apply rbind_Ok_inv in Ha as (fd & Hfd & [= <-]).
    apply float_of_int_sign in Hfd.
    replace (d <? 0) with false in Hfd by (symmetry; apply Z.ltb_ge; lia).
    exact (fmul_sign _ _ false false Hfd Hratio). }
  cbn [rbind].
  split; [intros e He; discriminate He|].
  intros size' height' Heq.
  assert (size' = size /\ height' = height) as [-> ->]
    by (injection Heq as <- <-; auto).
  clear Heq.
  destruct cv as [|n|q|s|t|l]; try discriminate;
    cbn [rbind fst snd]; rewrite ?Hy; cbn [rbind fst snd];
    rewrite ?Hheight;
    cbn [rbind fst snd strict_out_dimensions
         set_text_size set_definition_height out_dimensions];
    (destruct (strict_out_dimensions core || negb fine_tune);
     [ repeat split; auto
     | repeat case_match; simplify_eq; repeat split; auto; discriminate ]).
Qed.

End Correction.

Lemma nonpositive_correction_accepted_witness :
  let minus_one := S754_finite true 4503599627370496 (-52) in
  let core := demo_core (static (VInt 100) false false)
                (static (VFloat minus_one) false false) true None None in
  let run := figure_out_sizes (H := demo_tools) None true false core
               demo_workspace in
  run.1.1 = Ok tt /\ definition_height run.1.2 = Some (-100).
Proof.
  intros minus_one core run.
  destruct (nonpositive_correction_accepted (H := demo_tools) None true false
              core demo_workspace 100 (VFloat minus_one) None)
    as [_ Hok]; try reflexivity.
  destruct (Hok 10 (-100)) as (_ & Hheight & _ & Hrun);
    [vm_compute; reflexivity|].
  split; [now apply Hrun | exact Hheight].
Defined.

(** C7 as stated fails: with a correction factor of -1.0 (and strict output
    dimensions) the constructor returns, [figure_out_sizes] returns with a
    definition height of -100, and the run of [image.asciify] does not end
    in a configuration error. *)
Lemma nonpositive_correction_counterexample :
  let minus_one := S754_finite true 4503599627370496 (-52) in
  let args := with_strict_out_dimensions true
                (with_correction (Value (VFloat minus_one)) default_args) in
  exists core,
    CoreAsciifier_init (H := demo_tools) args demo_world = (Ok core, demo_workspace)
    /\ (figure_out_sizes (H := demo_tools) None true false core demo_workspace).1.1
       = Ok tt
    /\ definition_height
         (figure_out_sizes (H := demo_tools) None true false core demo_workspace).1.2
       = Some (-100)
    /\ forall msg,
         (image_asciify (H := demo_tools) args false demo_world).1
         <> Raise (AsciifierException msg).
Proof.
  eexists. split; [vm_compute; reflexivity|].
  split; [vm_compute; reflexivity|].
  split; [vm_compute; reflexivity|].
  intros msg. vm_compute. discriminate.
Qed.

(** ** The frame renderer *)

Lemma append_nil_r (s : string) : s +:+ "" = s.
Proof.
  induction s as [|a s IH]; [reflexivity|].
  change (String a (s +:+ "") = String a s). now rewrite IH.
Qed.

Lemma append_assoc (a b c : string) : (a +:+ b) +:+ c = a +:+ (b +:+ c).
Proof.
  induction a as [|x a IH]; [reflexivity|].
  change (String x ((a +:+ b) +:+ c) = String x (a +:+ (b +:+ c))).
  now rewrite IH.
Qed.

Lemma string_of_list_cons (c : ascii) (l : list ascii) :
  string_of_list (c :: l) = String c "" +:+ string_of_list l.
Proof. reflexivity. Qed.

Lemma string_of_list_length (l : list ascii) :
  String.length (string_of_list l) = length l.
Proof.
  unfold string_of_list.
  induction l as [|c l IH]; [reflexivity|]. cbn. now rewrite IH.
Qed.

Lemma string_to_list_length (s : string) :
  length (string_to_list s) = String.length s.
Proof.
  unfold string_to_list.
  induction s as [|c s IH]; [reflexivity|]. cbn. now rewrite IH.
Qed.

(** A luminance of [0..255] indexes inside a ramp that is not empty. *)
Lemma ramp_index_bounds (ramp : string) (lum : Z) :
  ramp <> "" -> 0 <= lum <= 255 ->
  0 <= ramp_index ramp lum < Z.of_nat (String.length ramp).
Proof.
  intros Hne Hl. unfold ramp_index.
  assert (0 < String.length ramp)%nat by (destruct ramp; [congruence | simpl; lia]).
  split.
  - apply Z.div_pos; nia.
  - apply Z.div_lt_upper_bound; nia.
Qed.

Lemma ramp_char_lookup (ramp : string) (lum : Z) :
  ramp <> "" -> 0 <= lum <= 255 ->
  string_to_list ramp !! Z.to_nat (ramp_index ramp lum) = Some (ramp_char ramp lum).
Proof.
  intros Hne Hl. pose proof (ramp_index_bounds ramp lum Hne Hl) as Hb.
  unfold ramp_char.
  destruct (lookup_lt_is_Some_2 (string_to_list ramp)
              (Z.to_nat (ramp_index ramp lum))) as [c Hc].
  { rewrite string_to_list_length. lia. }
  rewrite Hc. f_equal. symmetry. now apply nth_lookup_Some.
Qed.

(** One pass of the loop over a row that ends on a multiple of the
    definition: the characters of the row, then the line break. *)
Lemma ascii_loop_row (ramp : string) (d : Z) (row rest : list Z) :
  ramp <> "" ->
  Forall (fun lum => 0 <= lum <= 255) row ->
  forall (k q : Z) (resp : string),
    1 <= Z.of_nat (length row) <= d ->
    k = q * d + (d - Z.of_nat (length row)) + 1 ->
    ascii_loop (VStr ramp) d k (row ++ rest) resp
    = ascii_loop (VStr ramp) d (k + Z.of_nat (length row)) rest
        (resp +:+ text_line ramp row +:+ newline).
Proof.
  intros Hne Hrow. induction Hrow as [|lum row Hlum Hrow IH];
    intros k q resp Hlen Hk; [simpl in Hlen; lia|].
  cbn [app ascii_loop]. unfold py_len, py_subscript, rbind.
  fold (ramp_index ramp lum).
  rewrite (seq_index_nonneg _ _ (ramp_char ramp lum))
    by (try apply ramp_char_lookup; try apply ramp_index_bounds; assumption).
  cbn [str_concat]. unfold int_mod.
  destruct (d =? 0) eqn:Hd0; [lia|].
  unfold text_line. cbn [map]. rewrite string_of_list_cons.
  fold (text_line ramp row).
  destruct row as [|lum' row'].
  - assert (Hmod : k mod d = 0).
    { assert (Hq : k = (q + 1) * d) by (cbn [length] in Hk; lia).
      rewrite Hq. apply Z.mod_mul. lia. }
    rewrite Hmod. cbn [Z.eqb]. cbn [app length].
    replace (k + Z.of_nat 1) with (k + 1) by lia.
    unfold text_line. cbn [map string_of_list string_of_list_ascii].
    now rewrite !append_assoc.
  - assert (Hmod : (k mod d =? 0) = false).
    { apply Z.eqb_neq. cbn [length] in Hlen, Hk.
      assert (Hq : k = (d - Z.of_nat (S (S (length row'))) + 1) + q * d) by lia.
      rewrite Hq, Z.mod_add by lia.
      rewrite Z.mod_small; lia. }
    rewrite Hmod.
    rewrite (IH (k + 1) q) by (cbn [length] in *; lia).
    f_equal; [cbn [length]; lia|].
    now rewrite !append_assoc.
Qed.

Lemma grid_rows_length {A : Type} (h d : nat) (l : list A) :
  length (grid_rows h d l) = h.
Proof. revert l. induction h as [|h IH]; intros l; simpl; [|rewrite IH]; reflexivity. Qed.

Lemma grid_rows_lookup {A : Type} (h d r : nat) (l : list A) :
  (r < h)%nat -> grid_rows h d l !! r = Some (take d (drop (r * d) l)).
Proof.
  revert r l. induction h as [|h IH]; intros r l Hr; [lia|].
  destruct r as [|r]; simpl.
  - reflexivity.
  - rewrite IH by lia. rewrite drop_drop. reflexivity.
Qed.

Lemma grid_rows_full {A : Type} (h d : nat) (l : list A) :
  length l = (h * d)%nat ->
  Forall (fun row => length row = d) (grid_rows h d l).
Proof.
  revert l. induction h as [|h IH]; intros l Hl; simpl; constructor.
  - rewrite length_take. lia.
  - apply IH. rewrite length_drop. lia.
Qed.

(** The whole loop: the rows of the grid, a line break after each. *)
Lemma ascii_loop_grid (ramp : string) (d : Z) (h : nat) :
  ramp <> "" -> 1 <= d ->
  forall (pixels : list Z) (q : Z) (resp : string),
    Forall (fun lum => 0 <= lum <= 255) pixels ->
    length pixels = (h * Z.to_nat d)%nat ->
    ascii_loop (VStr ramp) d (q * d + 1) pixels resp
    = Ok (resp +:+ join_lines (map (text_line ramp)
                                 (grid_rows h (Z.to_nat d) pixels))).
Proof.
  intros Hne Hd. induction h as [|h IH]; intros pixels q resp Hlum Hlen.
  - destruct pixels; [|discriminate]. simpl. now rewrite append_nil_r.
  - rewrite <- (take_drop (Z.to_nat d) pixels) at 1.
    assert (Htake : length (take (Z.to_nat d) pixels) = Z.to_nat d)
      by (rewrite length_take; lia).
    rewrite (ascii_loop_row ramp d _ _ Hne (Forall_take _ _ _ Hlum) _ q)
      by (rewrite Htake; lia).
    rewrite Htake.
    replace (q * d + 1 + Z.of_nat (Z.to_nat d)) with ((q + 1) * d + 1) by lia.
    rewrite IH by (try apply Forall_drop; try rewrite length_drop; try assumption; lia).
    cbn [grid_rows map join_lines foldr].
    fold (join_lines (map (text_line ramp)
                        (grid_rows h (Z.to_nat d) (drop (Z.to_nat d) pixels)))).
    now rewrite !append_assoc.
Qed.

Section Renderer.
Context `{External}.

(** C4.  On a grid of [d] by [h] samples of luminance [0..255] and a ramp
    that is not empty, [generate_ascii_art] returns (and stores) the text
    block of [h] lines, each of [d] characters and followed by a line
    break; the character at row [r], column [c] is the ramp character at
    index [luminance * (len(ramp) - 1) // 255] of the sample number
    [r * d + c], a character of the ramp. *)
Theorem generate_ascii_art_grid (frame : option Z) (core : CoreAsciifier)
    (w : World) (d h : Z) (ramp : string) (pixels : list Z)
    (Hframe : is_video core && bool_decide (frame = None) = false)
    (Hd : PossiblyDynamic_getitem (definition core) frame = Ok (VInt d))
    (Hd1 : 1 <= d)
    (Hh : definition_height core = Some h)
    (Hh0 : 0 <= h)
    (Hramp : PossiblyDynamic_getitem (chars core) frame = Ok (VStr ramp))
    (Hne : ramp <> "")
    (Hpx : image_getdata
             (if is_video core
              then path_join (path_join (process_dir core) "Frames")
                     (format_frame frame)
              else str_path core) d h = Ok pixels)
    (Hlen : Z.of_nat (length pixels) = d * h)
    (Hlum : Forall (fun lum => 0 <= lum <= 255) pixels) :
  let lines := map (text_line ramp)
                 (grid_rows (Z.to_nat h) (Z.to_nat d) pixels) in
  generate_ascii_art frame core w
  = (Ok (join_lines lines), set_ascii_art (join_lines lines) core, w)
  /\ Z.of_nat (length lines) = h
  /\ Forall (fun line => Z.of_nat (String.length line) = d) lines
  /\ forall r c : nat,
       Z.of_nat r < h -> Z.of_nat c < d ->
       exists lum line,
         pixels !! (r * Z.to_nat d + c)%nat = Some lum
         /\ lines !! r = Some line
         /\ string_to_list line !! c = Some (ramp_char ramp lum)
         /\ string_to_list ramp
              !! Z.to_nat (lum * (Z.of_nat (String.length ramp) - 1) / 255)
            = Some (ramp_char ramp lum).
Proof.
  intros lines.
  assert (Hlen' : length pixels = (Z.to_nat h * Z.to_nat d)%nat) by nia.
  split; [|split; [|split]].
  - unfold generate_ascii_art, bind, lift, get_self, modify_self, ret, raise.
    rewrite Hframe, Hd, Hramp, Hh, Hpx.
    pose proof (ascii_loop_grid ramp d (Z.to_nat h) Hne Hd1 pixels 0 "" Hlum Hlen')
      as Hloop.
    rewrite Z.mul_0_l, Z.add_0_l in Hloop. rewrite Hloop. reflexivity.
  - subst lines. rewrite length_map, grid_rows_length. lia.
  - subst lines. apply Forall_map.
    eapply Forall_impl; [apply grid_rows_full, Hlen'|].
    intros row Hrow. simpl. unfold text_line.
    rewrite string_of_list_length, length_map, Hrow. lia.
  - intros r c Hr Hc.
    assert (Hlt : (r * Z.to_nat d + c < length pixels)%nat) by nia.
    destruct (lookup_lt_is_Some_2 pixels _ Hlt) as [lum Hl].
    exists lum, (text_line ramp (take (Z.to_nat d) (drop (r * Z.to_nat d) pixels))).
    split; [exact Hl|]. split; [|split].
    + subst lines. rewrite lookup_map, grid_rows_lookup by lia. reflexivity.
    + unfold text_line, string_to_list, string_of_list.
      rewrite list_ascii_of_string_of_list_ascii, lookup_map.
      rewrite lookup_take_lt by lia. rewrite lookup_drop, Hl. reflexivity.
    + apply ramp_char_lookup; [exact Hne|].
      eapply Forall_lookup_1 in Hlum; [exact Hlum | exact Hl].
Qed.

End Renderer.

(** Scenario A: the default ramp and a definition of 4 on a grid of 4 by 4
    give four lines of four characters of the ramp. *)
Lemma generate_ascii_art_grid_witness :
  let core := set_definition_height (Some 4)
                (demo_core (static (VInt 4) false false)
                   (static VNone false false) false None None) in
  let lines := [" .:-"; "+*$ "; ".:=+"; "*$ ."] in
  generate_ascii_art (H := demo_tools) None core demo_workspace
  = (Ok (join_lines lines), set_ascii_art (join_lines lines) core, demo_workspace)
  /\ length lines = 4%nat
  /\ Forall (fun line => String.length line = 4%nat) lines.
Proof.
  intros core lines.
  destruct (generate_ascii_art_grid (H := demo_tools) None core demo_workspace
              4 4 " .:-=+*$@#" (demo_pixels 4 4))
    as (Hrun & _); try reflexivity; try lia; try discriminate.
  - vm_compute. repeat constructor; discriminate.
  - split; [exact Hrun|]. split; [reflexivity|]. repeat constructor.
Defined.

(** ** Fields that the methods leave alone *)

Section Keeps.
Context `{External}.
Context {B : Type} (field : CoreAsciifier -> B).

Lemma keeps_ret {A : Type} (a : A) : keeps field (ret a).
Proof. intros c w. reflexivity. Qed.

Lemma keeps_raise {A : Type} (e : exn) : keeps field (raise (A := A) e).
Proof. intros c w. reflexivity. Qed.

Lemma keeps_lift {A : Type} (r : result A) : keeps field (lift r).
Proof. intros c w. reflexivity. Qed.

Lemma keeps_get_self : keeps field get_self.
Proof. intros c w. reflexivity. Qed.

Lemma keeps_get_world : keeps field get_world.
Proof. intros c w. reflexivity. Qed.

Lemma keeps_modify_world (f : World -> World) : keeps field (modify_world f).
Proof. intros c w. reflexivity. Qed.

Lemma keeps_lift_fs op : keeps field (lift_fs op).
Proof. intros c w. unfold lift_fs. destruct (op (fs w)). reflexivity. Qed.

Lemma keeps_modify_self (f : CoreAsciifier -> CoreAsciifier) :
  (forall c, field (f c) = field c) -> keeps field (modify_self f).
Proof. intros Hf c w. apply Hf. Qed.

Lemma keeps_bind {A C : Type} (m : M A) (k : A -> M C) :
  keeps field m -> (forall a, keeps field (k a)) -> keeps field (bind m k).
Proof.
  intros Hm Hk c w. unfold bind. specialize (Hm c w).
  destruct (m c w) as [[[a|e] c'] w']; simpl in *.
  - rewrite Hk. exact Hm.
  - exact Hm.
Qed.

Lemma keeps_except {A : Type} (m handler : M A) :
  keeps field m -> keeps field handler ->
  keeps field (except_FFmpegException m handler).
Proof.
  intros Hm Hh c w. unfold except_FFmpegException. specialize (Hm c w).
  destruct (m c w) as [[[a|e] c'] w']; simpl in *; [exact Hm|].
  destruct e; try exact Hm. rewrite Hh. exact Hm.
Qed.

Lemma keeps_process_pool (task : Z -> M unit) (frames : list Z) :
  keeps field (process_pool task frames).
Proof.
  intros c w. unfold process_pool. destruct (run_tasks task frames c w).
  reflexivity.
Qed.

End Keeps.

Create HintDb keeps discriminated.
#[local] Hint Resolve keeps_ret keeps_raise keeps_lift keeps_get_self
  keeps_get_world keeps_modify_world keeps_lift_fs keeps_process_pool : keeps.

(** Splits a computation along its binds and branches, down to the
    primitive steps of the monad. *)
Ltac keeps_steps :=
  repeat first
    [ progress auto with keeps
    | apply keeps_bind; [|intros ?]
    | apply keeps_except
    | apply keeps_modify_self; intros ?; reflexivity
    | match goal with
      | |- keeps _ (if ?b then _ else _) => destruct b
      | |- keeps _ (match ?x with _ => _ end) => destruct x
      | |- keeps _ (let '(_, _) := ?x in _) => destruct x
      end ].

Section KeepsMethods.
Context `{External}.
Context {B : Type} (field : CoreAsciifier -> B).

Lemma keeps_blank_png path width height r g b :
  keeps field (Magick_blank_png path width height r g b).
Proof. unfold Magick_blank_png. keeps_steps. Qed.

Lemma keeps_text_overlay path out_path text size r g b gravity :
  keeps field (Magick_text_overlay path out_path text size r g b gravity).
Proof. unfold Magick_text_overlay. keeps_steps. Qed.

#[local] Hint Resolve keeps_blank_png keeps_text_overlay : keeps.

Lemma keeps_generate_canvas frame : keeps field (generate_canvas frame).
Proof. unfold generate_canvas. keeps_steps. Qed.

Lemma keeps_draw_ascii_art frame gravity :
  keeps field (draw_ascii_art frame gravity).
Proof. unfold draw_ascii_art. keeps_steps. Qed.

Lemma keeps_test_dynamic_params : keeps field test_dynamic_params.
Proof. unfold test_dynamic_params. keeps_steps. Qed.

Lemma keeps_remove_process_dir : keeps field remove_process_dir.
Proof. unfold remove_process_dir. keeps_steps. Qed.

Lemma keeps_video_to_frames : keeps field video_to_frames.
Proof. unfold video_to_frames, FFmpeg_video_to_frames. keeps_steps. Qed.

Lemma keeps_frames_to_video out_path ext :
  keeps field (frames_to_video out_path ext).
Proof. unfold frames_to_video, FFmpeg_frames_to_video. keeps_steps. Qed.

Lemma keeps_finalize_video ext : keeps field (finalize_video ext).
Proof.
  unfold finalize_video, frames_to_video, FFmpeg_frames_to_video,
    FFmpeg_extract_audio, FFmpeg_join_streams.
  keeps_steps.
Qed.

Lemma keeps_core_frames : keeps field core_frames.
Proof. unfold core_frames. keeps_steps. Qed.

#[local] Hint Resolve keeps_generate_canvas keeps_draw_ascii_art
  keeps_test_dynamic_params keeps_remove_process_dir keeps_video_to_frames
  keeps_frames_to_video keeps_finalize_video keeps_core_frames : keeps.

(** The fields that [figure_out_sizes] and [generate_ascii_art] do assign
    are the text size, the definition height, the output dimensions and
    the ascii art. *)
Hypothesis field_text_size : forall t c, field (set_text_size t c) = field c.
Hypothesis field_definition_height :
  forall h c, field (set_definition_height h c) = field c.
Hypothesis field_ascii_art : forall s c, field (set_ascii_art s c) = field c.

Lemma keeps_generate_ascii_art frame : keeps field (generate_ascii_art frame).
Proof.
  unfold generate_ascii_art.
  keeps_steps; apply keeps_modify_self, field_ascii_art.
Qed.

Lemma keeps_figure_out_sizes_frozen frame even_sizes :
  keeps field (figure_out_sizes frame false even_sizes).
Proof.
  unfold figure_out_sizes.
  apply keeps_bind; [auto with keeps | intros self].
  rewrite orb_true_r.
  keeps_steps;
    first [apply keeps_modify_self, field_text_size
          | apply keeps_modify_self, field_definition_height].
Qed.

#[local] Hint Resolve keeps_generate_ascii_art keeps_figure_out_sizes_frozen
  : keeps.

Lemma keeps_dynamic_single_frame frame :
  keeps field (dynamic_single_frame frame).
Proof. unfold dynamic_single_frame. keeps_steps. Qed.

Lemma keeps_asciify_single_frame frame :
  keeps field (asciify_single_frame frame).
Proof. unfold asciify_single_frame. keeps_steps. Qed.

Hypothesis field_out_dimensions :
  forall d c, field (set_out_dimensions d c) = field c.

Lemma keeps_figure_out_sizes frame fine_tune even_sizes :
  keeps field (figure_out_sizes frame fine_tune even_sizes).
Proof.
  unfold figure_out_sizes.
  keeps_steps;
    first [apply keeps_modify_self, field_text_size
          | apply keeps_modify_self, field_definition_height
          | apply keeps_modify_self, field_out_dimensions].
Qed.

#[local] Hint Resolve keeps_figure_out_sizes : keeps.

Lemma keeps_image_asciify_body path save_txt :
  keeps field (image_asciify_body path save_txt).
Proof. unfold image_asciify_body. keeps_steps. Qed.

Lemma keeps_image_dynamic_asciify_body n gif test :
  keeps field (image_dynamic_asciify_body n gif test).
Proof. unfold image_dynamic_asciify_body. keeps_steps. Qed.

Lemma keeps_video_asciify_body : keeps field video_asciify_body.
Proof. unfold video_asciify_body. keeps_steps. Qed.

Lemma keeps_video_dynamic_asciify_body test :
  keeps field (video_dynamic_asciify_body test).
Proof.
  unfold video_dynamic_asciify_body.
  keeps_steps; apply keeps_modify_self, field_out_dimensions.
Qed.

End KeepsMethods.

(** ** Cleanup *)

Lemma rmtree_not_dir (p : string) (m : gmap string node) :
  is_dir (rmtree p m).2 p = false.
Proof.
  unfold rmtree, is_dir.
  destruct (m !! p) as [[| |]|] eqn:Hp; simpl;
    apply bool_decide_eq_false; try congruence.
  intros Hsome.
  apply map_lookup_filter_Some in Hsome as [_ [Hne _]]. now apply Hne.
Qed.

(** When [p] is a directory, [rmtree p] leaves nothing at [p] or below. *)
Lemma rmtree_clears (p q : string) (m : gmap string node) :
  is_dir m p = true -> q = p \/ below p q = true -> (rmtree p m).2 !! q = None.
Proof.
  unfold rmtree, is_dir. intros Hd%bool_decide_eq_true Hq. rewrite Hd. simpl.
  apply map_lookup_filter_None. right. intros x _ [Hne Hb]. simpl in *.
  destruct Hq as [->|Hq]; congruence.
Qed.

Section Cleanup.
Context `{External}.

(** Whatever the body does, a directory named [self.process_dir] is gone
    when the [with] block is left. *)
Lemma with_core_removes {A : Type} (body : M A) (c : CoreAsciifier) (w : World) :
  is_dir (fs (with_core body c w).2) (process_dir (body c w).1.2) = false.
Proof.
  unfold with_core, CoreAsciifier_exit, remove_process_dir, bind, get_self,
    lift_fs, modify_world.
  destruct (body c w) as [[r c1] w1]. simpl.
  pose proof (rmtree_not_dir (process_dir c1) (fs w1)) as Hrm.
  destruct (rmtree (process_dir c1) (fs w1)) as [[[]|e] m]; simpl in *; exact Hrm.
Qed.

(** And when the process directory is still a directory at the end of the
    body, nothing is left at its path or below it. *)
Lemma with_core_clears {A : Type} (body : M A) (c : CoreAsciifier) (w : World)
    (q : string) :
  is_dir (fs (body c w).2) (process_dir (body c w).1.2) = true ->
  q = process_dir (body c w).1.2 \/ below (process_dir (body c w).1.2) q = true ->
  fs (with_core body c w).2 !! q = None.
Proof.
  unfold with_core, CoreAsciifier_exit, remove_process_dir, bind, get_self,
    lift_fs, modify_world.
  destruct (body c w) as [[r c1] w1]. simpl. intros Hdir Hq.
  pose proof (rmtree_clears (process_dir c1) q (fs w1) Hdir Hq) as Hrm.
  destruct (rmtree (process_dir c1) (fs w1)) as [[[]|e] m]; simpl in *; exact Hrm.
Qed.

Lemma new_core_process_dir (a : Args) (core : CoreAsciifier) :
  new_core a = Ok core ->
  process_dir core = path_join (Path_parent (arg_path a)) "asciipixels".
Proof.
  unfold new_core, rbind. intros Hn.
  repeat case_match; simplify_eq; reflexivity.
Qed.

Lemma init_process_dir (a : Args) (w w1 : World) (core : CoreAsciifier) :
  CoreAsciifier_init a w = (Ok core, w1) ->
  process_dir core = path_join (Path_parent (arg_path a)) "asciipixels".
Proof.
  unfold CoreAsciifier_init. intros Hi.
  destruct (negb (path_exists (fs w) (arg_path a))); [discriminate|].
  destruct (new_core a) as [core'|] eqn:Hn; [|discriminate].
  destruct (make_process_dirs (process_dir core') (fs w)) as [[[]|e] m];
    simplify_eq.
  now apply new_core_process_dir.
Qed.

Lemma construct_and_run_removes {A : Type} (a : Args) (body : M A) (w : World) :
  keeps process_dir body ->
  constructor_raised a w \/ workspace_removed a (construct_and_run a body w).2.
Proof.
  intros Hk. unfold constructor_raised, workspace_removed, construct_and_run.
  destruct (CoreAsciifier_init a w) as [[core|e] w1] eqn:Hi; [right | left; eauto].
  rewrite <- (init_process_dir a w w1 core Hi), <- (Hk core w1).
  pose proof (with_core_removes body core w1) as Hrm.
  destruct (with_core body core w1) as [[r c2] w2]. exact Hrm.
Qed.

Lemma guarded_run_removes {A : Type} (a : Args) (body : M A) (w : World) :
  keeps process_dir body ->
  ASCIIPIXELS_PROCESS w = true
  \/ constructor_raised a (set_ASCIIPIXELS_PROCESS true w)
  \/ workspace_removed a (guarded_run a body w).2.
Proof.
  intros Hk. unfold guarded_run, multiprocessing_guard.
  destruct (ASCIIPIXELS_PROCESS w); [now left | right].
  now apply construct_and_run_removes.
Qed.

(** C8.  Each of the four entry points either never enters its [with]
    block (the guard exits, or the constructor raises) or ends, with a
    result or with an exception, in a world where the process directory
    is not a directory any more.  The [with] block leaves nothing at the
    path of the process directory or below it (the Frames and NewFrames
    directories, the canvas, the frames) when the directory was in place
    at the end of the body. *)
Theorem workspace_removed_after_run (a : Args) (w : World) :
  (forall save_txt,
     constructor_raised (with_frame_count None None a) w
     \/ workspace_removed a (image_asciify a save_txt w).2)
  /\ (forall n fps_ gif test,
        ASCIIPIXELS_PROCESS w = true
        \/ constructor_raised (with_frame_count (Some n) (Some fps_) a)
             (set_ASCIIPIXELS_PROCESS true w)
        \/ workspace_removed a (image_dynamic_asciify a n fps_ gif test w).2)
  /\ (ASCIIPIXELS_PROCESS w = true
      \/ constructor_raised (with_frame_count None None a)
           (set_ASCIIPIXELS_PROCESS true w)
      \/ workspace_removed a (video_asciify a w).2)
  /\ (forall test,
        ASCIIPIXELS_PROCESS w = true
        \/ constructor_raised (with_frame_count None None a)
             (set_ASCIIPIXELS_PROCESS true w)
        \/ workspace_removed a (video_dynamic_asciify a test w).2)
  /\ (forall (A : Type) (body : M A) (core : CoreAsciifier) (q : string),
        is_dir (fs (body core w).2) (process_dir (body core w).1.2) = true ->
        q = process_dir (body core w).1.2
        \/ below (process_dir (body core w).1.2) q = true ->
        fs (with_core body core w).2 !! q = None).
Proof.
  split; [|split; [|split; [|split]]]; intros;
    [| | | |now apply with_core_clears].
  - apply (construct_and_run_removes (with_frame_count None None a)).
    now apply keeps_image_asciify_body.
  - apply (guarded_run_removes (with_frame_count (Some n) (Some fps_) a)).
    now apply keeps_image_dynamic_asciify_body.
  - apply (guarded_run_removes (with_frame_count None None a)).
    now apply keeps_video_asciify_body.
  - apply (guarded_run_removes (with_frame_count None None a)).
    now apply keeps_video_dynamic_asciify_body.
Qed.

End Cleanup.

(** ** The geometry freeze *)

Lemma path_join_assoc (dir a b : string) :
  path_join (path_join dir a) b = dir +:+ "/" +:+ a +:+ "/" +:+ b.
Proof. unfold path_join. now rewrite !append_assoc. Qed.

(** A rendered frame is never saved over the canvas. *)
Lemma new_frame_path_not_canvas (c : CoreAsciifier) (f : Z) :
  new_frame_path c f <> canvas_path c.
Proof.
  unfold new_frame_path, canvas_path. rewrite path_join_assoc.
  unfold path_join. generalize (format_frame (Some f)). intros name Heq.
  apply (inj (String.append (process_dir c))) in Heq.
  cbv in Heq. discriminate.
Qed.

Section Freeze.
Context `{External}.

Lemma generate_ascii_art_world (frame : option Z) (c : CoreAsciifier) (w : World) :
  (generate_ascii_art frame c w).2 = w.
Proof.
  unfold generate_ascii_art, bind, lift, get_self, modify_self, ret, raise.
  repeat case_match; simplify_eq; reflexivity.
Qed.

Lemma draw_ascii_art_effect (f : Z) (gravity : string) (c : CoreAsciifier)
    (w : World) :
  f <> 0 ->
  (exists e, (draw_ascii_art (Some f) gravity c w).1.1 = Raise e
             /\ (draw_ascii_art (Some f) gravity c w).2 = w)
  \/ (exists cw ch,
        (draw_ascii_art (Some f) gravity c w).1.1 = Ok (new_frame_path c f)
        /\ fs w !! canvas_path c = Some (Png cw ch)
        /\ (draw_ascii_art (Some f) gravity c w).2
           = set_fs (fun m => <[new_frame_path c f := Png cw ch]> m) w).
Proof.
  intros Hf.
  unfold draw_ascii_art, Magick_text_overlay, bind, lift, get_self, get_world,
    modify_world, ret, raise.
  assert (Ht : frame_truthy (Some f) = true)
    by (simpl; now apply negb_true_iff, Z.eqb_neq).
  rewrite Ht. fold (canvas_path c). fold (new_frame_path c f).
  rewrite andb_false_r.
  destruct (PossiblyDynamic_getitem (txt c) (Some f)) as [color|e];
    [|left; eauto].
  destruct (unpack_color color) as [rgb|e]; [|left; eauto].
  destruct (fs w !! canvas_path c) as [[|cw ch|]|] eqn:Hc;
    try (left; eauto; fail).
  destruct (run_text_overlay _ _ _ _ _ _ _ _ =? 0); [|left; eauto].
  right. exists cw, ch. auto.
Qed.

(** Both workers render on the canvas. *)
Lemma dynamic_single_frame_renders : renders_on_canvas dynamic_single_frame.
Proof.
  intros f c w Hf. unfold dynamic_single_frame, bind.
  destruct (figure_out_sizes_frozen (Some f) true c w) as (_ & Hp1 & Hw1).
  destruct (figure_out_sizes (Some f) false true c w) as [[[[]|e1] c1] w1];
    simpl in Hp1, Hw1; subst w1; [|left; eauto].
  pose proof (generate_ascii_art_world (Some f) c1 w) as Hw2.
  pose proof (keeps_generate_ascii_art process_dir (fun _ _ => eq_refl)
                (Some f) c1 w) as Hp2.
  destruct (generate_ascii_art (Some f) c1 w) as [[[art|e2] c2] w2];
    simpl in Hp2, Hw2; subst w2; [|left; eauto].
  assert (Hcan : canvas_path c2 = canvas_path c)
    by (unfold canvas_path; congruence).
  assert (Hnew : new_frame_path c2 f = new_frame_path c f)
    by (unfold new_frame_path; congruence).
  destruct (draw_ascii_art_effect f "Center" c2 w Hf)
    as [(e & Hr & Hw)|(cw & ch & Hr & Hc & Hw)].
  - left. exists e.
    destruct (draw_ascii_art (Some f) "Center" c2 w) as [[r3 c3] w3].
    simpl in *. subst. auto.
  - right. exists cw, ch.
    destruct (draw_ascii_art (Some f) "Center" c2 w) as [[r3 c3] w3].
    simpl in *. subst. rewrite <- Hcan, <- Hnew. auto.
Qed.

Lemma asciify_single_frame_renders : renders_on_canvas asciify_single_frame.
Proof.
  intros f c w Hf. unfold asciify_single_frame, bind.
  pose proof (generate_ascii_art_world (Some f) c w) as Hw2.
  pose proof (keeps_generate_ascii_art process_dir (fun _ _ => eq_refl)
                (Some f) c w) as Hp2.
  destruct (generate_ascii_art (Some f) c w) as [[[art|e2] c2] w2];
    simpl in Hp2, Hw2; subst w2; [|left; eauto].
  assert (Hcan : canvas_path c2 = canvas_path c)
    by (unfold canvas_path; congruence).
  assert (Hnew : new_frame_path c2 f = new_frame_path c f)
    by (unfold new_frame_path; congruence).
  destruct (draw_ascii_art_effect f "Northwest" c2 w Hf)
    as [(e & Hr & Hw)|(cw & ch & Hr & Hc & Hw)].
  - left. exists e.
    destruct (draw_ascii_art (Some f) "Northwest" c2 w) as [[r3 c3] w3].
    simpl in *. subst. auto.
  - right. exists cw, ch.
    destruct (draw_ascii_art (Some f) "Northwest" c2 w) as [[r3 c3] w3].
    simpl in *. subst. rewrite <- Hcan, <- Hnew. auto.
Qed.

(** The pool: the canvas is left as it was, every path holds what it held
    or an image of the dimensions of the canvas, and when no task raised,
    every frame is an image of the dimensions of the canvas. *)
Lemma run_tasks_render (task : Z -> M unit) (frames : list Z)
    (core : CoreAsciifier) :
  renders_on_canvas task ->
  Forall (fun f => f <> 0) frames ->
  forall w : World,
    fs (run_tasks task frames core w).2 !! canvas_path core
    = fs w !! canvas_path core
    /\ (forall p,
          fs (run_tasks task frames core w).2 !! p = fs w !! p
          \/ exists cw ch,
               fs w !! canvas_path core = Some (Png cw ch)
               /\ fs (run_tasks task frames core w).2 !! p = Some (Png cw ch))
    /\ ((run_tasks task frames core w).1 = Ok tt ->
        forall f, f ∈ frames ->
          exists cw ch,
            fs w !! canvas_path core = Some (Png cw ch)
            /\ fs (run_tasks task frames core w).2 !! new_frame_path core f
               = Some (Png cw ch)).
Proof.
  intros Hrender Hframes.
  induction Hframes as [|f frames Hf Hframes IH]; intros w.
  - simpl. split; [reflexivity|]. split; [now left|].
    intros _ f Hin. now apply elem_of_nil in Hin.
  - cbn [run_tasks].
    destruct (Hrender f core w Hf) as [(e & Hr & Hw)|(cw & ch & Hr & Hc & Hw)];
      destruct (task f core w) as [[r1 c1] w1]; simpl in Hr, Hw; subst r1 w1;
      destruct (IH w) as (IHc & IHp & IHf);
      try destruct (IH (set_fs (fun m => <[new_frame_path core f := Png cw ch]> m) w))
        as (IHc' & IHp' & IHf').
    + destruct (run_tasks task frames core w) as [rs w2]. simpl in *.
      split; [exact IHc|]. split; [exact IHp|]. discriminate.
    + clear IHc IHp IHf.
      destruct (run_tasks task frames core
                  (set_fs (fun m => <[new_frame_path core f := Png cw ch]> m) w))
        as [rs w2]. simpl in *.
      assert (Hcanvas : <[new_frame_path core f := Png cw ch]> (fs w)
                          !! canvas_path core = Some (Png cw ch)).
      { rewrite lookup_insert_ne by apply new_frame_path_not_canvas. exact Hc. }
      split; [congruence|]. split.
      * intros p. destruct (IHp' p) as [Hp|(cw' & ch' & Hc' & Hp)].
        -- destruct (decide (new_frame_path core f = p)) as [<-|Hne].
           ++ right. exists cw, ch. rewrite Hp, lookup_insert_eq. auto.
           ++ left. rewrite Hp. now apply lookup_insert_ne.
        -- right. exists cw, ch. split; [exact Hc|]. congruence.
      * intros -> f' Hin. exists cw, ch. split; [exact Hc|].
        apply elem_of_cons in Hin as [->|Hin].
        -- destruct (IHp' (new_frame_path core f)) as [Hp|(cw' & ch' & Hc' & Hp)].
           ++ rewrite Hp. apply lookup_insert_eq.
           ++ congruence.
        -- destruct (IHf' eq_refl f' Hin) as (cw' & ch' & Hc' & Hp). congruence.
Qed.

(** C3.  In the pool of a sequence run, over the frames [1..n] and with
    either worker: [figure_out_sizes] without fine-tuning and the worker
    itself leave the output dimensions of [self] as they are; the canvas
    is untouched; and when no task raised, any two frames are images of
    the dimensions of the canvas, whatever their definitions. *)
Theorem geometry_freeze (task : Z -> M unit) (core : CoreAsciifier) (w : World)
    (n f1 f2 : Z)
    (Htask : task = dynamic_single_frame \/ task = asciify_single_frame)
    (Hf1 : 1 <= f1 <= n) (Hf2 : 1 <= f2 <= n)
    (Hrun : (run_tasks task (py_range 1 (n + 1)) core w).1 = Ok tt) :
  let w' := (run_tasks task (py_range 1 (n + 1)) core w).2 in
  (forall frame even_sizes c0 w0,
     out_dimensions (figure_out_sizes frame false even_sizes c0 w0).1.2
     = out_dimensions c0)
  /\ (forall f c0 w0, out_dimensions (task f c0 w0).1.2 = out_dimensions c0)
  /\ exists cw ch,
       fs w !! canvas_path core = Some (Png cw ch)
       /\ fs w' !! canvas_path core = Some (Png cw ch)
       /\ fs w' !! new_frame_path core f1 = Some (Png cw ch)
       /\ fs w' !! new_frame_path core f2 = Some (Png cw ch).
Proof.
  intros w'.
  assert (Hrender : renders_on_canvas task).
  { destruct Htask as [-> | ->];
      [apply dynamic_single_frame_renders | apply asciify_single_frame_renders]. }
  assert (Hframes : Forall (fun f => f <> 0) (py_range 1 (n + 1))).
  { apply Forall_forall. intros f Hin. unfold py_range in Hin.
    apply elem_of_seqZ in Hin. lia. }
  assert (Hin : forall f, 1 <= f <= n -> f ∈ py_range 1 (n + 1)).
  { intros f Hf. unfold py_range. apply elem_of_seqZ. lia. }
  destruct (run_tasks_render task _ core Hrender Hframes w) as (Hc & _ & Hf).
  split; [|split].
  - intros frame even_sizes c0 w0. apply figure_out_sizes_frozen.
  - intros f c0 w0.
    destruct Htask as [-> | ->];
      [apply keeps_dynamic_single_frame | apply keeps_asciify_single_frame];
      reflexivity.
  - destruct (Hf Hrun f1 (Hin f1 Hf1)) as (cw & ch & Hcan & H1).
    destruct (Hf Hrun f2 (Hin f2 Hf2)) as (cw' & ch' & Hcan' & H2).
    exists cw, ch. subst w'. rewrite Hc.
    repeat split; try assumption. congruence.
Qed.

End Freeze.

Lemma geometry_freeze_witness :
  let core := demo_core scenario_B_definition (static VNone false false)
                false (Some 3) (Some 5) in
  let w' := (run_tasks (dynamic_single_frame (H := demo_tools)) (py_range 1 4)
               core demo_canvas_world).2 in
  fs w' !! "./asciipixels/NewFrames/frame1.png" = Some (Png 530 530)
  /\ fs w' !! "./asciipixels/NewFrames/frame3.png" = Some (Png 530 530).
Proof.
  intros core w'.
  destruct (geometry_freeze (H := demo_tools)
              (dynamic_single_frame (H := demo_tools)) core
              demo_canvas_world 3 1 3)
    as (_ & _ & cw & ch & Hcan & _ & H1 & H3);
    [now left | lia | lia | vm_compute; reflexivity |].
  vm_compute in Hcan. injection Hcan as <- <-.
  split; [exact H1 | exact H3].
Defined.

(** ** The frame of the shared geometry in [image.dynamic_asciify] *)

Lemma append_length (a b : string) :
  String.length (a +:+ b) = (String.length a + String.length b)%nat.
Proof.
  induction a as [|x a IH]; [reflexivity|].
  change (S (String.length (a +:+ b)) = S (String.length a + String.length b)).
  now rewrite IH.
Qed.

Lemma path_join_neq (dir name : string) : path_join dir name <> dir.
Proof.
  intros Heq. apply (f_equal String.length) in Heq.
  unfold path_join in Heq. rewrite !append_length in Heq. simpl in Heq. lia.
Qed.

Lemma mkdir_ok (p : string) (m m' : gmap string node) :
  mkdir p m = (Ok tt, m') ->
  m' !! p = Some Directory /\ forall q, q <> p -> m' !! q = m !! q.
Proof.
  unfold mkdir. destruct (m !! p) as [[| |]|] eqn:Hp; intros Hm; simplify_eq.
  - auto.
  - split; [apply lookup_insert_eq|]. intros q Hq. now apply lookup_insert_ne.
Qed.

(** The constructor leaves the process directory in place. *)
Lemma make_process_dirs_ok (dir : string) (m m' : gmap string node) :
  make_process_dirs dir m = (Ok tt, m') -> m' !! dir = Some Directory.
Proof.
  unfold make_process_dirs.
  destruct (mkdir dir m) as [[[]|e1] m1] eqn:H1; [|discriminate].
  destruct (mkdir (path_join dir "Frames") m1) as [[[]|e2] m2] eqn:H2;
    [|discriminate].
  intros H3.
  apply mkdir_ok in H1 as [Hd1 _]. apply mkdir_ok in H2 as [_ Hk2].
  apply mkdir_ok in H3 as [_ Hk3].
  rewrite Hk3, Hk2 by (apply not_eq_sym, path_join_neq). exact Hd1.
Qed.

Section SharedGeometry.
Context `{External}.

Lemma init_definition (a : Args) (w w1 : World) (core : CoreAsciifier) (v : pyval) :
  arg_definition a = Value v ->
  CoreAsciifier_init a w = (Ok core, w1) ->
  definition core = static v false false
  /\ fs w1 !! process_dir core = Some Directory.
Proof.
  unfold CoreAsciifier_init. intros Hv Hi.
  destruct (negb (path_exists (fs w) (arg_path a))); [discriminate|].
  destruct (new_core a) as [core'|] eqn:Hn; [|discriminate].
  destruct (make_process_dirs (process_dir core') (fs w)) as [[[]|e] m] eqn:Hm;
    simplify_eq.
  split; [|simpl; now apply make_process_dirs_ok in Hm].
  unfold new_core, rbind in Hn. rewrite Hv in Hn.
  repeat case_match; simpl in *; simplify_eq; reflexivity.
Qed.

(** C9, as the code has it.  With a static integer definition (the
    documented default 100 is one) and [test_dynamic_params=False], a run
    of [image.dynamic_asciify] that gets into its [with] block raises
    [AttributeError]: the lookup of the attribute [index] on the int fails
    before [max] is evaluated.  Nothing was generated by then: the world of
    the constructor is left, less the process directory. *)
Theorem static_definition_raises_AttributeError (a : Args) (n count fps_ : Z)
    (gif : bool) (w w1 : World) (core : CoreAsciifier)
    (Hdef : arg_definition a = Value (VInt n))
    (Hguard : ASCIIPIXELS_PROCESS w = false)
    (Hinit : CoreAsciifier_init (with_frame_count (Some count) (Some fps_) a)
               (set_ASCIIPIXELS_PROCESS true w) = (Ok core, w1)) :
  py_getattr_index (value (definition core)) = Raise AttributeError
  /\ max_def_frame core = Raise AttributeError
  /\ image_dynamic_asciify a count fps_ gif false w
     = (Raise AttributeError,
        set_ASCIIPIXELS_PROCESS false
          (set_fs (fun _ => (rmtree (process_dir core) (fs w1)).2) w1))
  /\ fs (image_dynamic_asciify a count fps_ gif false w).2 !! canvas_path core
     = None.
Proof.
  destruct (init_definition (with_frame_count (Some count) (Some fps_) a)
              _ _ _ (VInt n) Hdef Hinit) as [Hd Hdir].
  assert (Hmax : max_def_frame core = Raise AttributeError)
    by (unfold max_def_frame; rewrite Hd; reflexivity).
  assert (Hrun : image_dynamic_asciify a count fps_ gif false w
     = (Raise AttributeError,
        set_ASCIIPIXELS_PROCESS false
          (set_fs (fun _ => (rmtree (process_dir core) (fs w1)).2) w1))).
  { unfold image_dynamic_asciify, guarded_run, multiprocessing_guard.
    rewrite Hguard. unfold construct_and_run. rewrite Hinit.
    unfold with_core, image_dynamic_asciify_body, bind, lift, get_self.
    rewrite Hmax.
    unfold CoreAsciifier_exit, remove_process_dir, bind, get_self, lift_fs,
      modify_world.
    unfold rmtree. rewrite Hdir. reflexivity. }
  split; [rewrite Hd; reflexivity|]. split; [exact Hmax|].
  split; [exact Hrun|].
  rewrite Hrun. simpl. apply rmtree_clears.
  - unfold is_dir. now apply bool_decide_eq_true.
  - right. unfold below, canvas_path, path_join.
    rewrite <- append_assoc.
    generalize (process_dir core +:+ "/"). intros prefix.
    induction prefix as [|x prefix IH]; [reflexivity|].
    cbn [String.prefix]. change (String x prefix +:+ "canvas.png")
      with (String x (prefix +:+ "canvas.png")).
    cbn [String.prefix]. destruct (ascii_dec x x); [exact IH | congruence].
Qed.

End SharedGeometry.

Lemma static_definition_raises_AttributeError_witness :
  (image_dynamic_asciify (H := demo_tools) default_args 10 5 true false
     demo_world).1 = Raise AttributeError.
Proof.
  destruct (static_definition_raises_AttributeError (H := demo_tools)
              default_args 100 10 5 true demo_world
              (set_ASCIIPIXELS_PROCESS true demo_workspace)
              (demo_core (static (VInt 100) false false)
                 (static VNone false false) false (Some 10) (Some 5)))
    as (_ & _ & Hrun & _);
    [reflexivity | reflexivity | vm_compute; reflexivity |].
  rewrite Hrun. reflexivity.
Defined.

(** C9 as stated fails: on the documented defaults the run ends in
    [AttributeError], which is not [TypeError]; [max] is not reached. *)
Lemma static_definition_counterexample :
  (image_dynamic_asciify (H := demo_tools) default_args 10 5 true false
     demo_world).1 = Raise AttributeError
  /\ (image_dynamic_asciify (H := demo_tools) default_args 10 5 true false
        demo_world).1 <> Raise TypeError
  /\ py_getattr_index (VInt 100) = Raise AttributeError.
Proof.
  split; [vm_compute; reflexivity|].
  split; [vm_compute; discriminate | reflexivity].
Qed.

(** C1 at its own example.  With [f(frame) = 50 + frame] over three frames
    the stored sequence is [51, 52, 53], whose largest value belongs to
    frame 3; [image.dynamic_asciify] passes the list index 2 as the frame,
    so that the shared geometry is computed from the definition 52 of
    frame 2: a point size of 18, where frame 3 gives 17. *)
Lemma scenario_B_geometry_frame :
  let args := with_definition (Callable (fun frame => VInt (50 + frame)))
                default_args in
  let core := demo_core scenario_B_definition (static VNone false false)
                false (Some 3) (Some 5) in
  CoreAsciifier_init (H := demo_tools) (with_frame_count (Some 3) (Some 5) args)
    demo_world = (Ok core, demo_workspace)
  /\ value (definition core) = VList [VInt 51; VInt 52; VInt 53]
  /\ py_max (value (definition core)) = Ok (VInt 53)
  /\ PossiblyDynamic_getitem (definition core) (Some 3) = Ok (VInt 53)
  /\ max_def_frame core = Ok 2
  /\ PossiblyDynamic_getitem (definition core) (Some 2) = Ok (VInt 52)
  /\ text_size (figure_out_sizes (H := demo_tools) (Some 2) true true core
                  demo_workspace).1.2 = Some 18
  /\ text_size (figure_out_sizes (H := demo_tools) (Some 3) true true core
                  demo_workspace).1.2 = Some 17.
Proof.
  repeat split; vm_compute; reflexivity.
Qed.

(** *** [max_def_frame] in general: a list index, one less than the frame *)





(** * Further properties of the code *)

(** ** [PossiblyDynamic]: frames outside [1..n] *)

Lemma seq_index_negative {A : Type} (l : list A) (i : Z) (x : A) :
  i < 0 -> l !! Z.to_nat (i + Z.of_nat (length l)) = Some x ->
  0 <= i + Z.of_nat (length l) -> seq_index l i = Ok x.
Proof.
  intros Hi Hx Hlo. unfold seq_index.
  apply lookup_lt_Some in Hx as Hlen.
  destruct (i <? 0) eqn:E; [|lia].
  destruct (i + Z.of_nat (length l) <? 0) eqn:E1; [lia|].
  destruct (Z.of_nat (length l) <=? i + Z.of_nat (length l)) eqn:E2; [lia|].
  simpl. now rewrite Hx.
Qed.

Lemma seq_index_out_of_range {A : Type} (l : list A) (i : Z) :
  Z.of_nat (length l) <= i \/ i < - Z.of_nat (length l) ->
  seq_index l i = Raise IndexError.
Proof.
  intros Hi. unfold seq_index.
  destruct (i <? 0) eqn:E.
  - destruct (i + Z.of_nat (length l) <? 0) eqn:E1; [reflexivity | lia].
  - destruct (i <? 0) eqn:E1; [lia|]. simpl.
    destruct (Z.of_nat (length l) <=? i) eqn:E2; [reflexivity | lia].
Qed.

(** X1.  On a resolver built from a callable over [n] frames, a frame
    above [n] (above 0 when [n] is negative) and a frame at or below [-n]
    raise [IndexError], not the no-frame error: the stored sequence has
    [max n 0] values, so with no frames at all every lookup raises. *)
Theorem dynamic_lookup_out_of_range (g : Z -> pyval) (n f : Z) (ct rv : bool)
    (Hf : Z.max n 0 < f \/ f <= - Z.max n 0) :
  exists pd,
    PossiblyDynamic_init (Callable g) (Some n) ct rv = Ok pd
    /\ py_len (value pd) = Ok (Z.max n 0)
    /\ PossiblyDynamic_getitem pd (Some f) = Raise IndexError.
Proof.
  eexists. split; [reflexivity|]. simpl.
  rewrite stored_frames_length. split; [f_equal; lia|].
  unfold PossiblyDynamic_getitem, dynamic_lookup. simpl.
  rewrite seq_index_out_of_range; [reflexivity|].
  rewrite stored_frames_length. lia.
Qed.

Lemma dynamic_lookup_out_of_range_witness :
  exists pd,
    PossiblyDynamic_init (Callable (fun i => VInt (50 + i))) (Some 3) false false
    = Ok pd
    /\ PossiblyDynamic_getitem pd (Some 4) = Raise IndexError.
Proof.
  destruct (dynamic_lookup_out_of_range (fun i => VInt (50 + i)) 3 4 false false)
    as (pd & Hinit & _ & Hget); [lia|].
  exists pd. split; assumption.
Defined.

(** X2.  A frame [f] of [1-n .. 0] does not raise: the index [f - 1] is
    negative and counts from the end, so the lookup is the lookup at frame
    [f + n]. *)
Theorem dynamic_lookup_wraps (g : Z -> pyval) (n f : Z) (ct rv : bool)
    (Hf : 1 - n <= f <= 0) :
  exists pd,
    PossiblyDynamic_init (Callable g) (Some n) ct rv = Ok pd
    /\ PossiblyDynamic_getitem pd (Some f) = output_transform ct rv (g (f + n))
    /\ PossiblyDynamic_getitem pd (Some f)
       = PossiblyDynamic_getitem pd (Some (f + n)).
Proof.
  eexists. split; [reflexivity|].
  unfold PossiblyDynamic_getitem, dynamic_lookup. simpl.
  rewrite (seq_index_negative _ _ (g (f + n))).
  - rewrite (seq_index_nonneg _ _ (g (f + n)));
      [split; reflexivity | lia | apply lookup_frames; lia].
  - lia.
  - rewrite stored_frames_length.
    replace (f - 1 + Z.of_nat (Z.to_nat n)) with (f + n - 1) by lia.
    apply lookup_frames. lia.
  - rewrite stored_frames_length. lia.
Qed.

Lemma dynamic_lookup_wraps_witness :
  exists pd,
    PossiblyDynamic_init (Callable (fun i => VInt (50 + i))) (Some 3) false false
    = Ok pd
    /\ PossiblyDynamic_getitem pd (Some (-1)) = Ok (VInt 52).
Proof.
  destruct (dynamic_lookup_wraps (fun i => VInt (50 + i)) 3 (-1) false false)
    as (pd & Hinit & Hget & _); [lia|].
  exists pd. split; assumption.
Defined.

(** ** The constructor and the guard *)

Section Constructor.
Context `{External}.

(** X3.  A callable parameter needs a frame count.  For an image whose
    probing succeeds and whose aspect ratio and output dimensions are
    computed (a width that is not 0, sizes within the range of a float),
    the constructor given a callable for any of the five parameters and no
    frame count raises the configuration error and leaves the world as it
    was: no directory is made.  [image.asciify] never passes a frame
    count, so it ends that way on any callable. *)
Theorem callable_without_frame_count (a : Args) (w : World) (width height : Z)
    (ratio_ : float) (out_ : Z * Z)
    (Himage : suffix_is_video (arg_path a) = false)
    (Hexists : path_exists (fs w) (arg_path a) = true)
    (Hprobe : Magick_dimensions (arg_path a) = Ok (width, height))
    (Hratio : int_truediv height width = Ok ratio_)
    (Hout : initial_out_dimensions (arg_out_width a) (width, height) ratio_
            = Ok out_)
    (Hcallable : is_callable (arg_bg a) || is_callable (arg_txt a)
                 || is_callable (arg_definition a)
                 || is_callable (arg_correction a)
                 || is_callable (arg_chars a) = true) :
  (arg_frame_count a = None ->
   CoreAsciifier_init a w = (Raise (AsciifierException no_frame_count_msg), w))
  /\ forall save_txt,
       image_asciify a save_txt w
       = (Raise (AsciifierException no_frame_count_msg), w).
Proof.
  assert (Hinit : forall a',
    arg_path a' = arg_path a -> arg_bg a' = arg_bg a -> arg_txt a' = arg_txt a ->
    arg_definition a' = arg_definition a -> arg_correction a' = arg_correction a ->
    arg_chars a' = arg_chars a -> arg_out_width a' = arg_out_width a ->
    arg_frame_count a' = None ->
    CoreAsciifier_init a' w = (Raise (AsciifierException no_frame_count_msg), w)).
  { intros a' Hp Hb Ht Hd Hc Hs Ho Hn. unfold CoreAsciifier_init.
    rewrite Hp, Hexists. cbn [negb].
    assert (Hnew : new_core a' = Raise (AsciifierException no_frame_count_msg)).
    { unfold new_core, probe, rbind.
      rewrite Hp, Himage, Hprobe, Hn, Hb, Ht, Hd, Hc, Hs, Ho.
      cbn [fst snd]. rewrite Hratio, Hout.
      destruct (arg_bg a), (arg_txt a), (arg_definition a), (arg_correction a),
        (arg_chars a); try reflexivity; discriminate. }
    rewrite Hnew. reflexivity. }
  split.
  - intros Hn. now apply Hinit.
  - intros save_txt. unfold image_asciify, construct_and_run.
    rewrite (Hinit (with_frame_count None None a)); reflexivity.
Qed.

(** X4.  A constructor that returns has made the process directory and its
    two subdirectories, has left every other path and the guard as they
    were, and has built an object with no text size, no definition height
    and no ascii art yet. *)
Theorem constructor_makes_workspace (a : Args) (w w1 : World)
    (core : CoreAsciifier)
    (Hinit : CoreAsciifier_init a w = (Ok core, w1)) :
  let dir := path_join (Path_parent (arg_path a)) "asciipixels" in
  process_dir core = dir
  /\ is_dir (fs w1) dir = true
  /\ is_dir (fs w1) (path_join dir "Frames") = true
  /\ is_dir (fs w1) (path_join dir "NewFrames") = true
  /\ (forall q, q <> dir -> q <> path_join dir "Frames" ->
                q <> path_join dir "NewFrames" -> fs w1 !! q = fs w !! q)
  /\ ASCIIPIXELS_PROCESS w1 = ASCIIPIXELS_PROCESS w
  /\ text_size core = None /\ definition_height core = None
  /\ ascii_art core = "".
Proof.
  intros dir. pose proof (init_process_dir a w w1 core Hinit) as Hdir.
  fold dir in Hdir. unfold CoreAsciifier_init in Hinit.
  destruct (negb (path_exists (fs w) (arg_path a))); [discriminate|].
  destruct (new_core a) as [core'|] eqn:Hn; [|discriminate].
  destruct (make_process_dirs (process_dir core') (fs w)) as [[[]|e] m] eqn:Hm;
    [|discriminate].
  injection Hinit as Hcore Hw1. rewrite <- Hcore in *. rewrite <- Hw1.
  rewrite Hdir in Hm. unfold make_process_dirs in Hm.
  destruct (mkdir dir (fs w)) as [[[]|e1] m1] eqn:H1; [|discriminate].
  destruct (mkdir (path_join dir "Frames") m1) as [[[]|e2] m2] eqn:H2;
    [|discriminate].
  apply mkdir_ok in H1 as [Hd1 Hk1]. apply mkdir_ok in H2 as [Hd2 Hk2].
  apply mkdir_ok in Hm as [Hd3 Hk3].
  assert (Hne : path_join dir "NewFrames" <> path_join dir "Frames").
  { unfold path_join. intros Heq.
    apply (inj (String.append dir)) in Heq. cbv in Heq. discriminate. }
  unfold is_dir. simpl.
  split; [exact Hdir|]. split.
  { apply bool_decide_eq_true.
    rewrite Hk3, Hk2 by (apply not_eq_sym, path_join_neq). exact Hd1. }
  split; [apply bool_decide_eq_true; rewrite Hk3 by congruence; exact Hd2|].
  split; [apply bool_decide_eq_true; exact Hd3|].
  split; [intros q Hq1 Hq2 Hq3; rewrite Hk3, Hk2, Hk1 by assumption; reflexivity|].
  split; [reflexivity|].
  unfold new_core, rbind in Hn.
  repeat case_match; simplify_eq; auto.
Qed.

(** X5.  The guard is reset by [__exit__] only.  When the constructor of a
    guarded entry point raises (a missing file is enough), the run ends
    with the guard still set, and the next call of any guarded entry point
    in that process exits at once, leaving the world alone. *)
Theorem failed_constructor_keeps_guard {A : Type} (a : Args) (body : M A)
    (w : World)
    (Hguard : ASCIIPIXELS_PROCESS w = false)
    (Hraised : constructor_raised a (set_ASCIIPIXELS_PROCESS true w)) :
  let w1 := (guarded_run a body w).2 in
  ASCIIPIXELS_PROCESS w1 = true
  /\ (forall a' n fps_ gif test,
        image_dynamic_asciify a' n fps_ gif test w1 = (Raise SystemExit, w1))
  /\ (forall a', video_asciify a' w1 = (Raise SystemExit, w1))
  /\ (forall a' test, video_dynamic_asciify a' test w1 = (Raise SystemExit, w1)).
Proof.
  intros w1.
  assert (Hflag : ASCIIPIXELS_PROCESS w1 = true).
  { subst w1. unfold guarded_run, multiprocessing_guard, construct_and_run.
    rewrite Hguard. destruct Hraised as [e He].
    unfold CoreAsciifier_init in *.
    destruct (negb (path_exists _ _)); [reflexivity|].
    destruct (new_core a); [|reflexivity].
    destruct (make_process_dirs _ _) as [[[]|e'] m]; simpl in *;
      [discriminate | reflexivity]. }
  split; [exact Hflag|].
  unfold image_dynamic_asciify, video_asciify, video_dynamic_asciify,
    guarded_run, multiprocessing_guard.
  rewrite Hflag. auto.
Qed.

(** X6.  Leaving the [with] block.  When the process directory is in place
    at the end of the body, the block ends as the body did and the guard
    is reset.  When it is not, [shutil.rmtree] raises: its exception
    replaces the outcome of the body, even a normal return, nothing is
    removed and the guard stays as it was. *)
Theorem with_block_exit {A : Type} (body : M A) (c : CoreAsciifier) (w : World) :
  let ended := body c w in
  (is_dir (fs ended.2) (process_dir ended.1.2) = true ->
   (with_core body c w).1.1 = ended.1.1
   /\ ASCIIPIXELS_PROCESS (with_core body c w).2 = false)
  /\ (is_dir (fs ended.2) (process_dir ended.1.2) = false ->
      ((with_core body c w).1.1 = Raise FileNotFoundError
       \/ (with_core body c w).1.1 = Raise NotADirectoryError)
      /\ (with_core body c w).2 = ended.2).
Proof.
  unfold with_core, CoreAsciifier_exit, remove_process_dir, bind, get_self,
    lift_fs, modify_world, rmtree, is_dir.
  destruct (body c w) as [[r c1] [m flag]]. simpl.
  split.
  - intros Hd%bool_decide_eq_true. rewrite Hd. simpl. auto.
  - intros Hd%bool_decide_eq_false.
    destruct (m !! process_dir c1) as [[| |]|]; simpl; try congruence; auto.
Qed.

End Constructor.

Lemma callable_without_frame_count_witness :
  image_asciify (H := demo_tools)
    (with_definition (Callable (fun frame => VInt (50 + frame))) default_args)
    false demo_world
  = (Raise (AsciifierException no_frame_count_msg), demo_world).
Proof.
  destruct (callable_without_frame_count (H := demo_tools)
              (with_definition (Callable (fun frame => VInt (50 + frame)))
                 default_args) demo_world 530 530
              (S754_finite false 4503599627370496 (-52)) (530, 530))
    as [_ Hrun];
    [reflexivity | reflexivity | reflexivity | reflexivity | reflexivity
    | reflexivity |].
  apply Hrun.
Defined.

Lemma constructor_makes_workspace_witness :
  is_dir (fs demo_workspace) "./asciipixels/NewFrames" = true
  /\ fs demo_workspace !! "photo.png" = Some (Png 530 530).
Proof.
  destruct (constructor_makes_workspace (H := demo_tools) default_args
              demo_world demo_workspace _ demo_core_constructed)
    as (_ & _ & _ & Hnew & Hother & _).
  split; [exact Hnew|].
  rewrite Hother by discriminate. reflexivity.
Defined.

Lemma failed_constructor_keeps_guard_witness :
  let missing := mkArgs "missing.png" (Value (VInt 30)) (Value (VInt 255))
                   (Value (VInt 100)) SizeNone false (Value VNone)
                   (Value (VStr " .:-=+*$@#")) false None None in
  let w1 := (video_asciify (H := demo_tools) missing demo_world).2 in
  video_asciify (H := demo_tools) default_args w1 = (Raise SystemExit, w1).
Proof.
  intros missing w1.
  destruct (failed_constructor_keeps_guard (H := demo_tools)
              (with_frame_count None None missing)
              (video_asciify_body (H := demo_tools)) demo_world)
    as (_ & _ & Hnext & _); [reflexivity | |].
  - exists FileNotFoundError. vm_compute. reflexivity.
  - apply Hnext.
Defined.

(** ** The table of [test_dynamic_params] *)

Lemma result_map_Forall2 {A B : Type} (f : A -> result B) (l : list A)
    (ys : list B) :
  result_map f l = Ok ys -> Forall2 (fun x y => f x = Ok y) l ys.
Proof.
  revert ys. induction l as [|x l IH]; intros ys Hm; simpl in Hm.
  - injection Hm as <-. constructor.
  - unfold rbind in Hm. destruct (f x) as [y|] eqn:Hx; [|discriminate].
    destruct (result_map f l) as [ys'|]; [|discriminate].
    injection Hm as <-. constructor; [exact Hx | now apply IH].
Qed.

Lemma shortest_column (first : list pyval) (rest : list (list pyval)) (n : nat) :
  Forall (fun c => length c = n) (first :: rest) ->
  foldr (fun c m => Nat.min (length c) m) (length first) rest = n.
Proof.
  intros Hall. apply Forall_cons in Hall as [Hfirst Hrest]. rewrite Hfirst.
  induction Hrest as [|c rest Hc Hrest IH]; simpl; [reflexivity|].
  rewrite IH, Hc. lia.
Qed.

Lemma dynamic_models_fst (l : list (PossiblyDynamic * string)) :
  map fst (filter (fun mh : PossiblyDynamic * string => is_dynamic mh.1 = true) l)
  = filter (fun pd => is_dynamic pd = true) (map fst l).
Proof.
  induction l as [|[pd name] l IH]; [reflexivity|].
  cbn [map fst]. rewrite !filter_cons. cbn [fst].
  destruct (decide (is_dynamic pd = true)); cbn [map fst]; now rewrite IH.
Qed.

Section Table.
Context `{External}.

(** X7.  When [test_dynamic_params] returns, it has changed nothing and
    its table has a header row and one row per frame of [1..n]; a row
    starts with its frame number and goes on with the lookups, at that
    frame, of the dynamic parameters only, in the order background, text,
    definition, correction, characters.  Static parameters have no
    column. *)
Theorem test_dynamic_params_table (core c' : CoreAsciifier) (w w' : World)
    (n : Z) (table : pyval)
    (Hcount : frame_count core = Some n)
    (Hrun : test_dynamic_params core w = (Ok table, c', w')) :
  let dynamic := filter (fun pd => is_dynamic pd = true)
                   [bg core; txt core; definition core; correction core;
                    chars core] in
  c' = core /\ w' = w
  /\ exists header rows,
       table = VList (VTuple header :: rows)
       /\ length header = S (length dynamic)
       /\ length rows = Z.to_nat n
       /\ forall i, (i < Z.to_nat n)%nat ->
            exists vals,
              rows !! i = Some (VTuple (VInt (1 + Z.of_nat i) :: vals))
              /\ Forall2 (fun pd v =>
                            PossiblyDynamic_getitem pd (Some (1 + Z.of_nat i))
                            = Ok v) dynamic vals.
Proof.
  intros dynamic.
  unfold test_dynamic_params, bind, lift, get_self, ret in Hrun.
  rewrite Hcount in Hrun.
  set (models := filter (fun mh : PossiblyDynamic * string => is_dynamic mh.1 = true)
                   [(bg core, "BG Color"); (txt core, "Text Color");
                    (definition core, "Definition");
                    (correction core, "Correction"); (chars core, "Chars")])
    in Hrun.
  assert (Hmodels : map fst models = dynamic).
  { subst models dynamic. apply dynamic_models_fst. }
  set (frames := py_range 1 (n + 1)) in Hrun.
  assert (Hframes : length frames = Z.to_nat n).
  { subst frames. unfold py_range. rewrite length_seqZ. f_equal. lia. }
  destruct (result_map _ models) as [columns|] eqn:Hcols; [|discriminate].
  injection Hrun as <- <- <-.
  split; [reflexivity|]. split; [reflexivity|].
  apply result_map_Forall2 in Hcols.
  assert (Hlens : Forall (fun c => length c = Z.to_nat n)
                    (map VInt frames :: columns)).
  { constructor; [now rewrite length_map|].
    clear Hmodels. induction Hcols as [|mh col ms cs Hcol _ IH]; constructor;
      [|exact IH].
    apply result_map_Forall2, Forall2_length in Hcol. congruence. }
  eexists _, _. split; [reflexivity|]. fold frames models.
  split; [cbn [length]; rewrite length_map, <- Hmodels, length_map; reflexivity|].
  rewrite (shortest_column _ _ _ Hlens).
  split; [rewrite length_map, length_seq; reflexivity|].
  intros i Hi.
  exists (map (fun c => nth i c VNone) columns).
  split.
  - rewrite lookup_map, lookup_seq_lt by exact Hi. cbn [fmap option_fmap option_map map].
    do 3 f_equal. cbn [Nat.add].
    assert (Hfi : frames !! i = Some (1 + Z.of_nat i))
      by (subst frames; unfold py_range; apply lookup_seqZ_lt; lia).
    erewrite (nth_lookup_Some (map VInt frames)); [reflexivity|].
    rewrite lookup_map, Hfi. reflexivity.
  - rewrite <- Hmodels. clear Hmodels Hlens.
    induction Hcols as [|mh col ms cs Hcol _ IH]; cbn [map]; constructor;
      [|exact IH].
    apply result_map_Forall2 in Hcol.
    assert (Hfi : frames !! i = Some (1 + Z.of_nat i))
      by (subst frames; unfold py_range; apply lookup_seqZ_lt; lia).
    destruct (Forall2_lookup_l _ _ _ _ _ Hcol Hfi) as (v & Hv & Hget).
    rewrite (nth_lookup_Some col i VNone v Hv). exact Hget.
Qed.

End Table.

Lemma test_dynamic_params_table_witness :
  exists header rows,
    (test_dynamic_params
       (demo_core scenario_B_definition (static VNone false false) false
          (Some 3) (Some 5)) demo_workspace).1.1
    = Ok (VList (VTuple header :: rows))
    /\ length header = 2%nat /\ length rows = 3%nat
    /\ rows !! 1%nat = Some (VTuple [VInt 2; VInt 52]).
Proof.
  set (core := demo_core scenario_B_definition (static VNone false false) false
                 (Some 3) (Some 5)).
  destruct (test_dynamic_params core demo_workspace)
    as [[[table|e] c'] w'] eqn:Hrun; [|vm_compute in Hrun; discriminate].
  destruct (test_dynamic_params_table core c' demo_workspace
              w' 3 table eq_refl Hrun)
    as (_ & _ & header & rows & Ht & Hh & Hr & Hrows).
  exists header, rows. cbn [fst]. rewrite Ht.
  split; [reflexivity|]. split; [exact Hh|]. split; [exact Hr|].
  destruct (Hrows 1%nat) as (vals & Hrow & Hvals); [simpl; lia|].
  rewrite Hrow. do 3 f_equal.
  apply Forall2_cons_inv_l in Hvals as (v & vals' & Hv & Hnil & ->).
  apply Forall2_nil_inv_l in Hnil as ->.
  vm_compute in Hv. injection Hv as <-. reflexivity.
Defined.

(** ** The luminance ramp *)

(** X8.  The character that the loop of [generate_ascii_art] takes for a
    sample, [chars[(pixel * (len(chars) - 1)) // 255]], exists for every
    sample of [0..255]; its position in the ramp does not decrease with
    the luminance, is 0 for luminance 0 and is the last one for luminance
    255 only: on a ramp of two characters or more, every sample below 255
    falls short of the last character. *)
Theorem ramp_is_monotone (ramp : string) (p q : Z)
    (Hne : ramp <> "") (Hp : 0 <= p <= q) (Hq : q <= 255) :
  let last := Z.of_nat (String.length ramp) - 1 in
  py_subscript (VStr ramp) ((p * last) / 255) = Ok (char_str (ramp_char ramp p))
  /\ (p * last) / 255 <= (q * last) / 255
  /\ (0 * last) / 255 = 0
  /\ (255 * last) / 255 = last
  /\ (p < 255 -> 1 <= last -> (p * last) / 255 < last).
Proof.
  intros last.
  assert (Hlast : 0 <= last).
  { subst last. destruct ramp; [congruence | simpl; lia]. }
  split; [|split; [|split; [|split]]].
  - unfold py_subscript, rbind. fold (ramp_index ramp p).
    rewrite (seq_index_nonneg _ _ (ramp_char ramp p)); [reflexivity| |].
    + apply ramp_index_bounds; [exact Hne | lia].
    + apply ramp_char_lookup; [exact Hne | lia].
  - apply Z.div_le_mono; nia.
  - reflexivity.
  - rewrite Z.mul_comm. apply Z.div_mul. lia.
  - intros Hlt Hone. apply Z.div_lt_upper_bound; nia.
Qed.

Lemma ramp_is_monotone_witness :
  py_subscript (VStr " .:-=+*$@#") ((254 * 9) / 255) = Ok (VStr "@")
  /\ (100 * 9) / 255 <= (200 * 9) / 255.
Proof.
  destruct (ramp_is_monotone " .:-=+*$@#" 254 254) as (Hc & _);
    [discriminate | lia | lia |].
  destruct (ramp_is_monotone " .:-=+*$@#" 100 200) as (_ & Hm & _);
    [discriminate | lia | lia |].
  split; [exact Hc | exact Hm].
Defined.

(** ** [utils.safe_path] *)

Lemma append_inj_l (s a b : string) : s +:+ a = s +:+ b -> a = b.
Proof.
  induction s as [|c s IH]; [auto|].
  change (String c (s +:+ a) = String c (s +:+ b) -> a = b).
  intros Heq. injection Heq as Heq. auto.
Qed.

Lemma append_inj_r (a b t : string) : a +:+ t = b +:+ t -> a = b.
Proof.
  revert b. induction a as [|c a IH]; intros [|d b] Heq.
  - reflexivity.
  - apply (f_equal String.length) in Heq.
    change (String d b +:+ t) with (String d (b +:+ t)) in Heq.
    change ("" +:+ t) with t in Heq.
    simpl in Heq. rewrite append_length in Heq. lia.
  - apply (f_equal String.length) in Heq.
    change (String c a +:+ t) with (String c (a +:+ t)) in Heq.
    change ("" +:+ t) with t in Heq.
    simpl in Heq. rewrite append_length in Heq. lia.
  - change (String c (a +:+ t) = String d (b +:+ t)) in Heq.
    injection Heq as -> Heq. f_equal. auto.
Qed.

Lemma numbered_path_inj (parent stem ext : string) (j k : Z) :
  numbered_path parent stem ext j = numbered_path parent stem ext k -> j = k.
Proof.
  unfold numbered_path, path_join. intros Heq.
  do 3 apply append_inj_l in Heq.
  apply append_inj_r in Heq. now apply (inj pretty) in Heq.
Qed.

Lemma free_counter_loop_None (fuel : nat) (m : gmap string node)
    (parent stem ext : string) (k : Z) :
  free_counter_loop fuel m parent stem ext k = None ->
  forall j, k <= j < k + Z.of_nat fuel ->
    path_exists m (numbered_path parent stem ext j) = true.
Proof.
  revert k. induction fuel as [|fuel IH]; intros k Hloop j Hj; [lia|].
  simpl in Hloop.
  destruct (path_exists m (numbered_path parent stem ext k)) eqn:Hk;
    [|discriminate].
  destruct (decide (j = k)) as [->|Hne]; [exact Hk|].
  apply (IH (k + 1) Hloop). lia.
Qed.

Lemma free_counter_loop_Some (fuel : nat) (m : gmap string node)
    (parent stem ext : string) (k k' : Z) :
  free_counter_loop fuel m parent stem ext k = Some k' ->
  k <= k'
  /\ path_exists m (numbered_path parent stem ext k') = false
  /\ forall j, k <= j < k' ->
       path_exists m (numbered_path parent stem ext j) = true.
Proof.
  revert k. induction fuel as [|fuel IH]; intros k Hloop; [discriminate|].
  simpl in Hloop.
  destruct (path_exists m (numbered_path parent stem ext k)) eqn:Hk.
  - destruct (IH (k + 1) Hloop) as (Hle & Hfree & Hbelow).
    split; [lia|]. split; [exact Hfree|].
    intros j Hj. destruct (decide (j = k)) as [->|Hne]; [exact Hk|].
    apply Hbelow. lia.
  - injection Hloop as <-. split; [lia|]. split; [exact Hk|]. intros j Hj. lia.
Qed.

Lemma free_counter_loop_ends (fuel : nat) (m : gmap string node)
    (parent stem ext : string) (k : Z) :
  (size m < fuel)%nat ->
  free_counter_loop fuel m parent stem ext k <> None.
Proof.
  intros Hfuel Hloop.
  pose proof (free_counter_loop_None _ _ _ _ _ _ Hloop) as Hall.
  set (l := numbered_path parent stem ext <$> seqZ k (Z.of_nat fuel)).
  assert (Hnodup : NoDup l).
  { apply NoDup_fmap_2; [|apply NoDup_seqZ].
    intros i j. apply numbered_path_inj. }
  assert (Hsub : l ⊆ elements (dom m)).
  { intros p Hp. apply list_elem_of_fmap in Hp as (j & -> & Hj).
    apply elem_of_seqZ in Hj. apply elem_of_elements, elem_of_dom.
    specialize (Hall j Hj). unfold path_exists in Hall.
    now apply bool_decide_eq_true in Hall. }
  apply NoDup_submseteq in Hsub; [|exact Hnodup].
  apply submseteq_length in Hsub.
  unfold l in Hsub. rewrite length_fmap, length_seqZ in Hsub.
  change (length (elements (dom m))) with (size (dom m)) in Hsub.
  rewrite size_dom in Hsub. lia.
Qed.

Section SafePath.
Context `{PathOps}.

Lemma trailing_digits_loop_ends (fuel : nat) (stem : string) (index : Z) :
  index < 0 ->
  - Z.of_nat (length (string_to_list stem)) - 1 <= index ->
  Z.of_nat (length (string_to_list stem)) + index + 2 <= Z.of_nat fuel ->
  trailing_digits_loop fuel stem index <> None.
Proof.
  revert index. induction fuel as [|fuel IH]; intros index Hneg Hlo Hfuel; [lia|].
  simpl. destruct (seq_index (string_to_list stem) index) as [c|e] eqn:Hc;
    [|discriminate].
  destruct (str_isdigit c); [|discriminate].
  apply IH; [lia | | lia].
  destruct (decide (index = - Z.of_nat (length (string_to_list stem)) - 1))
    as [->|Hne]; [|lia].
  rewrite seq_index_out_of_range in Hc by lia. discriminate.
Qed.

Lemma trailing_digits_loop_digits (fuel : nat) (stem : string) (index : Z) :
  Forall (fun c => str_isdigit c = true) (string_to_list stem) ->
  index < 0 ->
  - Z.of_nat (length (string_to_list stem)) - 1 <= index ->
  Z.of_nat (length (string_to_list stem)) + index + 2 <= Z.of_nat fuel ->
  trailing_digits_loop fuel stem index = Some (Raise IndexError).
Proof.
  intros Hall.
  revert index. induction fuel as [|fuel IH]; intros index Hneg Hlo Hfuel; [lia|].
  simpl. destruct (seq_index (string_to_list stem) index) as [c|e] eqn:Hc.
  - assert (Hin : c ∈ string_to_list stem).
    { unfold seq_index in Hc.
      repeat case_match; simplify_eq; eapply list_elem_of_lookup_2; eauto. }
    rewrite Forall_forall in Hall. rewrite (Hall c Hin).
    apply IH; [lia | | lia].
    destruct (decide (index = - Z.of_nat (length (string_to_list stem)) - 1))
      as [->|Hne]; [|lia].
    rewrite seq_index_out_of_range in Hc by lia. discriminate.
  - apply seq_index_raises in Hc as ->. reflexivity.
Qed.


(** X15.  An existing path whose stem has digits only (as [123.png], or
    an empty stem) makes [utils.safe_path] raise [IndexError]: the first
    loop walks off the front of the stem. *)
Theorem safe_path_digit_stem (fuel : nat) (m : gmap string node)
    (path : string) (ext : option string)
    (Hexists : path_exists m path = true)
    (Hdigits : Forall (fun c => str_isdigit c = true)
                 (string_to_list (Path_stem path))) :
  utils_safe_path fuel m path ext = Some (Raise IndexError).
Proof.
  unfold utils_safe_path. rewrite Hexists. simpl negb. cbv iota.
  cbv zeta.
  rewrite (trailing_digits_loop_digits _ _ _ Hdigits);
    [reflexivity | lia | lia | rewrite string_to_list_length; lia].
Qed.

End SafePath.


Lemma safe_path_digit_stem_witness :
  utils_safe_path (H := demo_path_ops) 4 demo_files "dir/123.png" None
  = Some (Raise IndexError).
Proof.
  apply (safe_path_digit_stem (H := demo_path_ops));
    [reflexivity | vm_compute; repeat constructor].
Defined.

(** *** [safe_path] as the methods call it *)

Section SafePathCalls.
Context `{PathOps}.

(** The outcome of [safe_path] is the outcome of the two loops: they end
    within the tests allowed. *)
Lemma safe_path_outcome (m : gmap string node) (path : string)
    (ext : option string) :
  utils_safe_path (S (size m)) m path ext = Some (safe_path m path ext).
Proof.
  unfold safe_path.
  destruct (utils_safe_path (S (size m)) m path ext) as [r|] eqn:Hr;
    [reflexivity|].
  exfalso. unfold utils_safe_path in Hr.
  destruct (negb (path_exists m path)); [discriminate|].
  cbv zeta in Hr.
  pose proof (trailing_digits_loop_ends (S (String.length (Path_stem path)))
                (Path_stem path) (-1)) as Hends.
  rewrite string_to_list_length in Hends.
  destruct (trailing_digits_loop _ (Path_stem path) (-1)) as [[index|e]|];
    [| discriminate | apply Hends; [lia | lia | lia | reflexivity]].
  destruct (first_counter (Path_stem path) index) as [[k0 stem']|e];
    [|discriminate].
  match type of Hr with
  | context [free_counter_loop ?f ?m ?p ?s ?e ?k] =>
      pose proof (free_counter_loop_ends f m p s e k ltac:(lia)) as Hend;
      destruct (free_counter_loop f m p s e k); [discriminate | congruence]
  end.
Qed.

(** An existing path whose stem has digits only: [IndexError]. *)
Lemma safe_path_digits (m : gmap string node) (path : string)
    (ext : option string) :
  path_exists m path = true ->
  Forall (fun c => str_isdigit c = true) (string_to_list (Path_stem path)) ->
  safe_path m path ext = Raise IndexError.
Proof.
  intros Hexists Hdigits. unfold safe_path, utils_safe_path.
  rewrite Hexists. cbn [negb]. cbv zeta.
  rewrite (trailing_digits_loop_digits _ _ _ Hdigits);
    [reflexivity | lia | lia | rewrite string_to_list_length; lia].
Qed.

(** The path that [safe_path] returns is not in use. *)
Lemma safe_path_free (m : gmap string node) (path : string)
    (ext : option string) (p : string) :
  safe_path m path ext = Ok p -> path_exists m p = false.
Proof.
  intros Hp. pose proof (safe_path_outcome m path ext) as Hout.
  rewrite Hp in Hout. unfold utils_safe_path in Hout.
  destruct (path_exists m path) eqn:Hex; cbn [negb] in Hout;
    [|injection Hout as <-; exact Hex].
  cbv zeta in Hout.
  destruct (trailing_digits_loop _ (Path_stem path) (-1)) as [[index|e]|];
    try discriminate.
  destruct (first_counter (Path_stem path) index) as [[k0 stem']|e];
    [|discriminate].
  match type of Hout with
  | context [free_counter_loop ?f ?m ?p ?s ?e ?k] =>
      destruct (free_counter_loop f m p s e k) as [k'|] eqn:Hloop;
        [|discriminate]
  end.
  injection Hout as <-.
  apply free_counter_loop_Some in Hloop as (_ & Hfree & _). exact Hfree.
Qed.

End SafePathCalls.

(** ** More on the methods of [CoreAsciifier] *)

Section Methods.
Context `{External}.

(** X9.  [finalize_video] takes the output path from [safe_path] before
    it writes anything: if [safe_path] raises (an existing source whose
    stem has digits only, as [2024.mp4], gives [IndexError]), so does
    [finalize_video], and nothing has changed.  Otherwise a source without
    an audio track is no failure: when the frames are assembled and the
    streams are joined with status 0, [finalize_video] returns that output
    path, whatever the status of the audio extraction; a failed extraction
    only leaves the audio file out and joins the video alone. *)
Theorem finalize_video_audio_optional (ext : string) (c : CoreAsciifier)
    (w : World) :
  let video_path := path_join (process_dir c) ("video." +:+ ext) in
  let audio_path := path_join (process_dir c) "audio.aac" in
  let has_audio := run_extract_audio (str_path c) audio_path =? 0 in
  (forall e, safe_path (fs w) (str_path c) None = Raise e ->
     finalize_video ext c w = (Raise e, c, w))
  /\ (path_exists (fs w) (str_path c) = true ->
      Forall (fun x => str_isdigit x = true)
        (string_to_list (Path_stem (str_path c))) ->
      finalize_video ext c w = (Raise IndexError, c, w))
  /\ (forall out_path,
        safe_path (fs w) (str_path c) None = Ok out_path ->
        run_frames_to_video
          (path_join (path_join (process_dir c) "NewFrames") "frame%01d.png")
          video_path (fps c) false = 0 ->
        run_join_streams video_path out_path
          (out_dimensions c).1 (out_dimensions c).2
          (if has_audio then Some audio_path else None) = 0 ->
        path_exists (fs w) out_path = false
        /\ finalize_video ext c w
           = (Ok out_path, c,
              set_fs (fun m =>
                        <[out_path := File]>
                          (if has_audio
                           then <[audio_path := File]> (<[video_path := File]> m)
                           else <[video_path := File]> m)) w)).
Proof.
  intros video_path audio_path has_audio.
  assert (Hraise : forall e, safe_path (fs w) (str_path c) None = Raise e ->
                     finalize_video ext c w = (Raise e, c, w)).
  { intros e He.
    unfold finalize_video, bind, lift, get_self, get_world. rewrite He.
    reflexivity. }
  split; [exact Hraise|]. split.
  { intros Hexists Hdigits. apply Hraise. now apply safe_path_digits. }
  intros out_path Hout Hvideo Hjoin.
  split; [exact (safe_path_free _ _ _ _ Hout)|].
  unfold finalize_video, frames_to_video, FFmpeg_frames_to_video,
    FFmpeg_extract_audio, FFmpeg_join_streams, except_FFmpegException,
    bind, lift, get_self, get_world, modify_world, ret, raise.
  rewrite Hout.
  fold video_path audio_path. cbn [String.eqb Ascii.eqb Bool.eqb andb].
  rewrite Hvideo. cbn [Z.eqb]. fold has_audio.
  destruct has_audio; cbn [set_fs fs]; rewrite Hjoin; destruct w; reflexivity.
Qed.

(** X10.  The errors of [figure_out_sizes] on its definition, for an
    output width within the range of a float (a wider one raises
    [OverflowError] before the definition is looked at).  A definition of
    0 raises [ZeroDivisionError] and one that is not a number raises
    [TypeError], both before anything is assigned.  With a measured
    correction, a test block measured with height 0 raises
    [ZeroDivisionError] after the text size has been assigned, and nothing
    else. *)
Theorem figure_out_sizes_errors (frame : option Z) (fine_tune even_sizes : bool)
    (core : CoreAsciifier) (w : World) (v cv : pyval)
    (Hd : PossiblyDynamic_getitem (definition core) frame = Ok v)
    (Hc : PossiblyDynamic_getitem (correction core) frame = Ok cv) :
  (forall e, float_of_int (out_dimensions core).1 = Raise e ->
     e = OverflowError
     /\ figure_out_sizes frame fine_tune even_sizes core w = (Raise e, core, w))
  /\ (forall wf, float_of_int (out_dimensions core).1 = Ok wf ->
      (v = VInt 0 ->
       figure_out_sizes frame fine_tune even_sizes core w
       = (Raise ZeroDivisionError, core, w))
      /\ (is_number v = false ->
          figure_out_sizes frame fine_tune even_sizes core w
          = (Raise TypeError, core, w))
      /\ (forall d size cw txt_w,
            v = VInt d -> cv = VNone ->
            spec_point_size (out_dimensions core).1 d = Ok size ->
            int_of_scaled (out_dimensions core).1 float_1_5 = Ok cw ->
            Magick_text_dimensions (VInt d) (VInt d) size
              cw ((out_dimensions core).1 * 2) = Ok (txt_w, 0) ->
            figure_out_sizes frame fine_tune even_sizes core w
            = (Raise ZeroDivisionError, set_text_size (Some size) core, w))).
Proof.
  unfold figure_out_sizes, bind, lift, get_self, modify_self, ret.
  rewrite Hd, Hc. unfold int_mul_float. split.
  - intros e He. rewrite He. split; [|reflexivity].
    eapply float_of_int_raises; eassumption.
  - intros wf Hwf. rewrite Hwf. cbn [rbind]. split; [|split].
    + intros ->. reflexivity.
    + intros Hn. destruct v; simpl in Hn; try discriminate; reflexivity.
    + intros d size cw txt_w -> -> Hsize Hcw Hm.
      unfold spec_point_size in Hsize. rewrite Hwf in Hsize.
      cbn [rbind] in Hsize. rewrite Hsize, Hcw. cbn [fst snd].
      rewrite Hm. reflexivity.
Qed.

End Methods.

Lemma figure_out_sizes_errors_witness :
  figure_out_sizes (H := demo_tools) None true false
    (demo_core (static (VInt 0) false false) (static VNone false false)
       false None None) demo_workspace
  = (Raise ZeroDivisionError,
     demo_core (static (VInt 0) false false) (static VNone false false)
       false None None, demo_workspace).
Proof.
  destruct (figure_out_sizes_errors (H := demo_tools) None true false
              (demo_core (static (VInt 0) false false)
                 (static VNone false false) false None None)
              demo_workspace (VInt 0) VNone) as (_ & Herr);
    [reflexivity | reflexivity |].
  destruct (Herr (S754_finite false 4661929301770240 (-43)) eq_refl)
    as (Hzero & _).
  now apply Hzero.
Defined.

Lemma finalize_video_audio_optional_witness :
  let core := demo_core (static (VInt 100) false false)
                (static VNone false false) false None (Some 5) in
  (finalize_video (H := demo_tools) "mp4" core demo_workspace).1.1
  = Ok "./photo2.png"
  /\ fs (finalize_video (H := demo_tools) "mp4" core demo_workspace).2
       !! "./asciipixels/audio.aac" = None.
Proof.
  intros core.
  destruct (finalize_video_audio_optional (H := demo_tools) "mp4" core
              demo_workspace) as (_ & _ & Hok).
  destruct (Hok "./photo2.png") as (_ & Hrun);
    [vm_compute; reflexivity | reflexivity | reflexivity |].
  rewrite Hrun. split; [reflexivity | vm_compute; reflexivity].
Defined.

Section Composition.
Context `{External}.

Lemma figure_out_sizes_world (frame : option Z) (fine_tune even_sizes : bool)
    (c : CoreAsciifier) (w : World) :
  (figure_out_sizes frame fine_tune even_sizes c w).2 = w.
Proof.
  unfold figure_out_sizes, bind, lift, get_self, modify_self, ret.
  repeat case_match; simplify_eq; reflexivity.
Qed.

Lemma generate_canvas_Ok (frame : option Z) (c c' : CoreAsciifier)
    (w w' : World) (p : string) :
  generate_canvas frame c w = (Ok p, c', w') ->
  c' = c /\ p = canvas_path c
  /\ w' = set_fs (fun m => <[canvas_path c :=
                               Png (out_dimensions c).1 (out_dimensions c).2]> m) w.
Proof.
  unfold generate_canvas, Magick_blank_png, bind, lift, get_self, modify_world,
    ret, raise. fold (canvas_path c).
  intros Hrun. repeat case_match; simplify_eq; auto.
Qed.

Lemma generate_ascii_art_Ok (frame : option Z) (c c' : CoreAsciifier)
    (w w' : World) (resp : string) :
  generate_ascii_art frame c w = (Ok resp, c', w') ->
  c' = set_ascii_art resp c /\ w' = w.
Proof.
  unfold generate_ascii_art, bind, lift, get_self, modify_self, ret, raise.
  intros Hrun. repeat case_match; simplify_eq; auto.
Qed.

Lemma draw_ascii_art_None_Ok (gravity : string) (c c' : CoreAsciifier)
    (w w' : World) (p : string) :
  draw_ascii_art None gravity c w = (Ok p, c', w') ->
  c' = c /\ safe_path (fs w) (str_path c) None = Ok p
  /\ exists cw ch,
       fs w !! canvas_path c = Some (Png cw ch)
       /\ w' = set_fs (fun m => <[p := Png cw ch]> m) w.
Proof.
  unfold draw_ascii_art, Magick_text_overlay, bind, lift, get_self, get_world,
    modify_world, ret, raise. fold (canvas_path c). cbn [frame_truthy].
  intros Hrun. repeat case_match; simplify_eq; eauto 10.
Qed.

(** X11.  [image.asciify] end to end.  When the body of its [with] block
    returns (no text file asked for), the string returned is the ascii art
    stored in the object, and the image saved at the path given by
    [safe_path], a path that was free and is not the canvas, has the
    dimensions of the canvas, which are the output dimensions that
    [figure_out_sizes] settled; no other path of the file system has
    changed. *)
Theorem image_asciify_saves_canvas_size (path resp : string)
    (c c' : CoreAsciifier) (w w' : World)
    (Hrun : image_asciify_body path false c w = (Ok resp, c', w')) :
  let canvas := Png (out_dimensions c').1 (out_dimensions c').2 in
  exists out_path,
    safe_path (<[canvas_path c := canvas]> (fs w)) (str_path c) None
    = Ok out_path
    /\ out_path <> canvas_path c
    /\ ascii_art c' = resp
    /\ fs w' !! out_path = Some canvas
    /\ fs w' !! canvas_path c = Some canvas
    /\ forall q, q <> out_path -> q <> canvas_path c -> fs w' !! q = fs w !! q.
Proof.
  unfold image_asciify_body in Hrun.
  apply bind_Ok_inv in Hrun as ([] & c1 & w1 & Hsizes & Hrun).
  apply bind_Ok_inv in Hrun as (p & c2 & w2 & Hcanvas & Hrun).
  apply bind_Ok_inv in Hrun as (art & c3 & w3 & Hart & Hrun).
  apply bind_Ok_inv in Hrun as (out & c4 & w4 & Hdraw & Hrun).
  unfold bind, ret in Hrun. injection Hrun as <- <- <-.
  pose proof (figure_out_sizes_world None true false c w) as Hw1.
  pose proof (keeps_figure_out_sizes process_dir (fun _ _ => eq_refl)
                (fun _ _ => eq_refl) (fun _ _ => eq_refl) None true false c w)
    as Hp1.
  pose proof (keeps_figure_out_sizes str_path (fun _ _ => eq_refl)
                (fun _ _ => eq_refl) (fun _ _ => eq_refl) None true false c w)
    as Hs1.
  rewrite Hsizes in Hw1, Hp1, Hs1. simpl in Hw1, Hp1, Hs1. subst w1.
  apply generate_canvas_Ok in Hcanvas as (-> & -> & ->).
  apply generate_ascii_art_Ok in Hart as (-> & ->).
  apply draw_ascii_art_None_Ok in Hdraw as (-> & Hout & cw & ch & Hc & ->).
  assert (Hcan : canvas_path c1 = canvas_path c)
    by (unfold canvas_path; congruence).
  change (canvas_path (set_ascii_art art c1)) with (canvas_path c1) in Hc.
  cbn [set_fs fs str_path set_ascii_art out_dimensions] in *.
  rewrite Hcan in *. rewrite lookup_insert_eq in Hc. injection Hc as <- <-.
  rewrite Hs1 in Hout.
  assert (Hne : out <> canvas_path c).
  { intros ->. apply safe_path_free in Hout.
    unfold path_exists in Hout. rewrite lookup_insert_eq in Hout.
    apply bool_decide_eq_false in Hout. apply Hout. eauto. }
  exists out. split; [exact Hout|]. split; [exact Hne|].
  split; [reflexivity|]. split; [apply lookup_insert_eq|]. split.
  - rewrite lookup_insert_ne by exact Hne. apply lookup_insert_eq.
  - intros q Hq1 Hq2. rewrite !lookup_insert_ne by congruence. reflexivity.
Qed.

End Composition.

Lemma image_asciify_saves_canvas_size_witness :
  let core := demo_core (static (VInt 100) false false)
                (static VNone false false) false None None in
  let run := image_asciify_body (H := demo_tools) "photo.png" false core
               demo_workspace in
  fs run.2 !! "./photo2.png" = Some (Png 600 600)
  /\ out_dimensions run.1.2 = (600, 600).
Proof.
  intros core run.
  assert (Hrun : run = (Ok (ascii_art run.1.2), run.1.2, run.2))
    by (vm_compute; reflexivity).
  assert (Hdims : out_dimensions run.1.2 = (600, 600))
    by (vm_compute; reflexivity).
  destruct (image_asciify_saves_canvas_size (H := demo_tools) "photo.png" _
              core _ demo_workspace _ Hrun)
    as (out & Hpath & _ & _ & Hout & _).
  rewrite Hdims in Hpath, Hout.
  assert (Hname : out = "./photo2.png")
    by (vm_compute in Hpath; congruence).
  rewrite Hname in Hout. split; [exact Hout | exact Hdims].
Defined.

Section Sequences.
Context `{External}.

(** X12.  [video.dynamic_asciify] fine-tunes the output dimensions for the
    canvas only: it saves them before [figure_out_sizes] and assigns them
    back after [generate_canvas], so that a body that returns leaves the
    object with the output dimensions it had on entry (the ones that
    [finalize_video] scales the video to). *)
Theorem video_dynamic_restores_dimensions (test : bool) (c c' : CoreAsciifier)
    (w w' : World) (v : pyval)
    (Hrun : video_dynamic_asciify_body test c w = (Ok v, c', w')) :
  out_dimensions c' = out_dimensions c.
Proof.
  unfold video_dynamic_asciify_body in Hrun. destruct test.
  - pose proof (keeps_test_dynamic_params out_dimensions c w) as Hk.
    rewrite Hrun in Hk. exact Hk.
  - apply bind_Ok_inv in Hrun as ([] & c0 & w0 & Hframes & Hrun).
    pose proof (keeps_video_to_frames out_dimensions c w) as Hk0.
    rewrite Hframes in Hk0. simpl in Hk0.
    apply bind_Ok_inv in Hrun as (core & c1 & w1 & Hget & Hrun).
    unfold get_self in Hget. injection Hget as <- <- <-.
    apply bind_Ok_inv in Hrun as ([] & c2 & w2 & _ & Hrun).
    apply bind_Ok_inv in Hrun as (p & c3 & w3 & _ & Hrun).
    apply bind_Ok_inv in Hrun as ([] & c4 & w4 & Hset & Hrun).
    unfold modify_self in Hset. injection Hset as <- <-.
    apply bind_Ok_inv in Hrun as (frames & c5 & w5 & H5 & Hrun).
    pose proof (keeps_core_frames out_dimensions
                  (set_out_dimensions (out_dimensions c0) c3) w3) as Hk5.
    rewrite H5 in Hk5. simpl in Hk5.
    apply bind_Ok_inv in Hrun as ([] & c6 & w6 & H6 & Hrun).
    pose proof (keeps_process_pool out_dimensions dynamic_single_frame frames
                  c5 w5) as Hk6.
    rewrite H6 in Hk6. simpl in Hk6.
    apply bind_Ok_inv in Hrun as (out & c7 & w7 & H7 & Hrun).
    pose proof (keeps_finalize_video out_dimensions "mp4" c6 w6) as Hk7.
    rewrite H7 in Hk7. simpl in Hk7.
    unfold ret in Hrun. injection Hrun as _ <- _. congruence.
Qed.

Lemma init_dynamic_definition (a : Args) (w w1 : World) (core : CoreAsciifier)
    (g : Z -> pyval) (n : Z) :
  arg_definition a = Callable g ->
  arg_frame_count a = Some n ->
  suffix_is_video (arg_path a) = false ->
  CoreAsciifier_init a w = (Ok core, w1) ->
  definition core
  = mkPossiblyDynamic true (VList (map g (py_range 1 (n + 1)))) false false
  /\ fs w1 !! process_dir core = Some Directory.
Proof.
  unfold CoreAsciifier_init. intros Hv Hn Hvid Hi.
  destruct (negb (path_exists (fs w) (arg_path a))); [discriminate|].
  destruct (new_core a) as [core'|] eqn:Hnew; [|discriminate].
  destruct (make_process_dirs (process_dir core') (fs w)) as [[[]|e] m] eqn:Hm;
    simplify_eq.
  split; [|simpl; now apply make_process_dirs_ok in Hm].
  unfold new_core, probe, rbind in Hnew. rewrite Hv, Hvid, Hn in Hnew.
  destruct (Magick_dimensions (arg_path a)) as [dims|]; [|discriminate].
  cbn [fst snd PossiblyDynamic_init] in Hnew.
  repeat case_match; simplify_eq; reflexivity.
Qed.

(** X13.  [image.dynamic_asciify] with a callable definition and a frame
    count of zero or less: the stored sequence is empty, [max] of it
    raises [ValueError], and the run ends there, before the canvas, with
    the process directory removed. *)
Theorem empty_sequence_raises_ValueError (a : Args) (g : Z -> pyval)
    (count fps_ : Z) (gif : bool) (w w1 : World) (core : CoreAsciifier)
    (Hdef : arg_definition a = Callable g)
    (Himage : suffix_is_video (arg_path a) = false)
    (Hcount : count <= 0)
    (Hguard : ASCIIPIXELS_PROCESS w = false)
    (Hinit : CoreAsciifier_init (with_frame_count (Some count) (Some fps_) a)
               (set_ASCIIPIXELS_PROCESS true w) = (Ok core, w1)) :
  value (definition core) = VList []
  /\ max_def_frame core = Raise ValueError
  /\ image_dynamic_asciify a count fps_ gif false w
     = (Raise ValueError,
        set_ASCIIPIXELS_PROCESS false
          (set_fs (fun _ => (rmtree (process_dir core) (fs w1)).2) w1)).
Proof.
  destruct (init_dynamic_definition
              (with_frame_count (Some count) (Some fps_) a) _ _ _ g count
              Hdef eq_refl Himage Hinit) as [Hd Hdir].
  assert (Hempty : py_range 1 (count + 1) = []).
  { unfold py_range. apply length_zero_iff_nil. rewrite length_seqZ. lia. }
  rewrite Hempty in Hd.
  assert (Hmax : max_def_frame core = Raise ValueError)
    by (unfold max_def_frame; rewrite Hd; reflexivity).
  split; [rewrite Hd; reflexivity|]. split; [exact Hmax|].
  unfold image_dynamic_asciify, guarded_run, multiprocessing_guard.
  rewrite Hguard. unfold construct_and_run. rewrite Hinit.
  unfold with_core, image_dynamic_asciify_body, bind, lift, get_self.
  rewrite Hmax.
  unfold CoreAsciifier_exit, remove_process_dir, bind, get_self, lift_fs,
    modify_world.
  unfold rmtree. rewrite Hdir. reflexivity.
Qed.

End Sequences.

Lemma video_dynamic_restores_dimensions_witness :
  let core := demo_core scenario_B_definition (static VNone false false)
                false (Some 3) (Some 5) in
  let run := video_dynamic_asciify_body (H := demo_tools) false core
               demo_workspace in
  run.1.1 = Ok VNone
  /\ out_dimensions run.1.2 = (530, 530)
  /\ fs run.2 !! "./asciipixels/canvas.png" = Some (Png 550 540).
Proof.
  intros core run.
  assert (Hrun : run = (Ok VNone, run.1.2, run.2))
    by (vm_compute; reflexivity).
  pose proof (video_dynamic_restores_dimensions (H := demo_tools) false core _
                demo_workspace _ VNone Hrun) as Hdims.
  split; [vm_compute; reflexivity|].
  split; [exact Hdims|].
  vm_compute. reflexivity.
Defined.

Lemma empty_sequence_raises_ValueError_witness :
  (image_dynamic_asciify (H := demo_tools)
     (with_definition (Callable (fun frame => VInt (50 + frame))) default_args)
     0 5 true false demo_world).1 = Raise ValueError.
Proof.
  destruct (empty_sequence_raises_ValueError (H := demo_tools)
              (with_definition (Callable (fun frame => VInt (50 + frame)))
                 default_args)
              (fun frame => VInt (50 + frame)) 0 5 true demo_world
              (set_ASCIIPIXELS_PROCESS true demo_workspace)
              (demo_core (mkPossiblyDynamic true (VList []) false false)
                 (static VNone false false) false (Some 0) (Some 5)))
    as (_ & _ & Hrun);
    [reflexivity | reflexivity | lia | reflexivity | vm_compute; reflexivity |].
  rewrite Hrun. reflexivity.
Defined.

(** ** The time display of [video/video.py] *)

Lemma ld_0_two_digits (n : Z) : 0 <= n < 100 -> String.length (ld_0 n) = 2%nat.
Proof.
  intros Hn.
  assert (Hall : forallb (fun k => Nat.eqb (String.length (ld_0 k)) 2)
                   (seqZ 0 100) = true) by (vm_compute; reflexivity).
  rewrite forallb_forall in Hall.
  apply Nat.eqb_eq, Hall, list_elem_of_In, elem_of_seqZ. lia.
Qed.


(** X16.  [video.in_minutes] below a hundred minutes: two digits of
    minutes, a colon and two digits of seconds, five characters in all. *)
Theorem in_minutes_format (seconds : Z) (Hs : 0 <= seconds < 6000) :
  in_minutes seconds = ld_0 (seconds / 60) +:+ ":" +:+ ld_0 (seconds mod 60)
  /\ String.length (ld_0 (seconds / 60)) = 2%nat
  /\ String.length (ld_0 (seconds mod 60)) = 2%nat
  /\ String.length (in_minutes seconds) = 5%nat.
Proof.
  assert (Hm : 0 <= seconds / 60 < 100).
  { split; [apply Z.div_pos; lia | apply Z.div_lt_upper_bound; lia]. }
  assert (Hr : 0 <= seconds mod 60 < 60) by (apply Z.mod_pos_bound; lia).
  assert (Heq : seconds - seconds / 60 * 60 = seconds mod 60).
  { rewrite Z.mod_eq by lia. lia. }
  unfold in_minutes. cbv zeta. rewrite Heq.
  split; [reflexivity|].
  rewrite !append_length, !ld_0_two_digits by lia.
  repeat split; reflexivity.
Qed.

(** X17.  [video.time_remaining] for a progress of at least one frame,
    in double precision.  It returns nothing unless the clock reads more
    than two seconds past the last estimate.  A display it returns, for a
    clock that has not run backwards, is the display of a number of
    seconds that is not negative.  Once the last frame is done (with a
    finite elapsed time and a frame count below [2^53]) the display is
    [00:00]. *)
Theorem time_remaining_estimate (progress whole : Z)
    (start_time curr_time last_checked : float)
    (Hprogress : 1 <= progress <= whole) :
  let elapsed := fsub curr_time start_time in
  let due := float_compare_int (fsub curr_time last_checked) 2 = Some Gt in
  (~ due ->
   time_remaining progress whole start_time curr_time last_checked = Ok None)
  /\ (forall r,
        time_remaining progress whole start_time curr_time last_checked
        = Ok (Some r) ->
        float_sign elapsed = Some false ->
        exists secs, 0 <= secs /\ r = in_minutes secs)
  /\ (due -> progress = whole -> whole < 2 ^ 53 ->
      float_is_finite elapsed = true ->
      time_remaining progress whole start_time curr_time last_checked
      = Ok (Some "00:00")).
Proof.
  intros elapsed due. unfold time_remaining. fold elapsed. fold due.
  split; [|split].
  - intros Hnot. rewrite bool_decide_eq_false_2 by exact Hnot. reflexivity.
  - intros r Hr Hsign. destruct (bool_decide due); [|discriminate].
    apply rbind_Ok_inv in Hr as (a & Ha & Hr).
    apply rbind_Ok_inv in Hr as (x & Hx & Hr).
    apply rbind_Ok_inv in Hr as (secs & Hsecs & [= <-]).
    exists secs. split; [|reflexivity].
    simpl in Ha. apply rbind_Ok_inv in Ha as (fr & Hfr & [= <-]).
    simpl in Hx. apply rbind_Ok_inv in Hx as (fp & Hfp & Hx).
    destruct (progress =? 0); [discriminate|]. injection Hx as <-.
    apply float_of_int_sign in Hfr, Hfp.
    replace (whole - progress <? 0) with false in Hfr
      by (symmetry; apply Z.ltb_ge; lia).
    replace (progress <? 0) with false in Hfp
      by (symmetry; apply Z.ltb_ge; lia).
    destruct (fmul_sign elapsed fr false false Hsign Hfr) as [Hnan | Ha].
    { rewrite Hnan in Hsecs. destruct fp; discriminate. }
    destruct (fdiv_sign _ fp false false Ha Hfp) as [Hnan | Hx].
    { rewrite Hnan in Hsecs. discriminate. }
    exact (py_int_sign _ false secs Hx Hsecs).
  - intros Hdue -> Hwhole Hfinite.
    rewrite bool_decide_eq_true_2 by exact Hdue.
    rewrite Z.sub_diag. cbn [float_mul float_of_int binary_normalize rbind].
    destruct whole as [|p|p]; try lia.
    cbn [float_truediv]. unfold float_of_int, binary_normalize.
    destruct (binary_round_small false p) as (m & e & Hround & _);
      [lia|].
    rewrite Hround. cbn [rbind Z.eqb].
    destruct elapsed as [s|s| |s n f]; try discriminate; reflexivity.
Qed.

Lemma in_minutes_format_witness :
  in_minutes 75 = "01:15" /\ String.length (in_minutes 75) = 5%nat.
Proof.
  destruct (in_minutes_format 75) as (Heq & _ & _ & Hlen); [lia|].
  split; [rewrite Heq; reflexivity | exact Hlen].
Defined.

Lemma time_remaining_estimate_witness :
  let ten := S754_finite false 5629499534213120 (-49) in
  time_remaining 3 3 (S754_zero false) ten (S754_zero false)
  = Ok (Some "00:00").
Proof.
  intros ten.
  destruct (time_remaining_estimate 3 3 (S754_zero false) ten
              (S754_zero false)) as (_ & _ & Hdone); [lia|].
  apply Hdone; [reflexivity | reflexivity | lia | reflexivity].
Defined.

(** ** The test block of [Magick.text_dimensions] *)

Lemma str_repeat_length (c : ascii) (n : Z) :
  String.length (str_repeat (String c "") n) = Z.to_nat n.
Proof.
  unfold str_repeat. induction (Z.to_nat n) as [|k IH]; [reflexivity|].
  simpl replicate.
  destruct k as [|k].
  - reflexivity.
  - change (String.length (String c "" +:+ "" +:+
              String.concat "" (replicate (S k) (String c ""))) = S (S k)).
    change (S (String.length (String.concat "" (replicate (S k) (String c ""))))
            = S (S k)).
    now rewrite IH.
Qed.

Lemma concat_replicate_length (sep row : string) (n : nat) :
  String.length (String.concat sep (replicate (S n) row))
  = (S n * String.length row + n * String.length sep)%nat.
Proof.
  induction n as [|n IH]; [simpl; lia|].
  change (replicate (S (S n)) row) with (row :: replicate (S n) row).
  change (String.concat sep (row :: replicate (S n) row))
    with (row +:+ sep +:+ String.concat sep (replicate (S n) row)).
  rewrite !append_length, IH. lia.
Qed.

(** X18.  The block of text that [Magick.text_dimensions] has measured:
    [lines] equal rows, each [max(cols, 2)] characters wide (the two [#]
    stay when [cols] is below 2), joined by line breaks. *)
Theorem text_dimensions_block (cols lines : Z) (Hlines : 1 <= lines) :
  exists row,
    text_dimensions_text cols lines
    = String.concat newline (replicate (Z.to_nat lines) row)
    /\ Z.of_nat (String.length row) = Z.max cols 2
    /\ Z.of_nat (String.length (text_dimensions_text cols lines))
       = lines * (Z.max cols 2 + 1) - 1.
Proof.
  exists ("#" +:+ str_repeat "|" (cols - 2) +:+ "#").
  assert (Hrow : Z.of_nat (String.length ("#" +:+ str_repeat "|" (cols - 2) +:+ "#"))
                 = Z.max cols 2).
  { rewrite !append_length, str_repeat_length. simpl String.length. lia. }
  split; [reflexivity|]. split; [exact Hrow|].
  unfold text_dimensions_text.
  destruct (Z.to_nat lines) as [|n] eqn:Hn; [lia|].
  rewrite concat_replicate_length.
  change (String.length newline) with 1%nat. nia.
Qed.

Lemma text_dimensions_block_witness :
  Z.of_nat (String.length (text_dimensions_text 1 3)) = 8.
Proof.
  destruct (text_dimensions_block 1 3) as (row & _ & _ & Hlen); [lia|].
  exact Hlen.
Defined.

(** ** Output dimensions of [video.asciify] *)

Section Even.
Context `{External}.

Lemma figure_out_sizes_even (frame : option Z) (c c' : CoreAsciifier)
    (w w' : World) :
  figure_out_sizes frame true true c w = (Ok tt, c', w') ->
  strict_out_dimensions c' = strict_out_dimensions c
  /\ (strict_out_dimensions c = true -> out_dimensions c' = out_dimensions c)
  /\ (strict_out_dimensions c = false ->
      Z.even (out_dimensions c').1 = true /\ Z.even (out_dimensions c').2 = true).
Proof.
  unfold figure_out_sizes, bind, lift, get_self, modify_self, ret.
  intros Hrun.
  destruct (strict_out_dimensions c) eqn:Hs; simpl orb in Hrun;
    repeat case_match; simplify_eq; simpl;
    (split; [now rewrite ?Hs|]); (split; [intros; try discriminate; reflexivity|]);
    intros; try discriminate; rewrite !Z.even_mul; split; apply orb_true_r.
Qed.

(** X19.  When the body of [video.asciify] returns, the output dimensions
    that the video is scaled to are both even, unless strict output
    dimensions were asked for: then they are the ones the object had on
    entry, even or odd. *)
Theorem video_asciify_even_dimensions (c c' : CoreAsciifier) (w w' : World)
    (Hrun : video_asciify_body c w = (Ok tt, c', w')) :
  (strict_out_dimensions c = true -> out_dimensions c' = out_dimensions c)
  /\ (strict_out_dimensions c = false ->
      Z.even (out_dimensions c').1 = true /\ Z.even (out_dimensions c').2 = true).
Proof.
  unfold video_asciify_body in Hrun.
  apply bind_Ok_inv in Hrun as ([] & c0 & w0 & H0 & Hrun).
  pose proof (keeps_video_to_frames out_dimensions c w) as Hd0.
  pose proof (keeps_video_to_frames strict_out_dimensions c w) as Hs0.
  rewrite H0 in Hd0, Hs0. simpl in Hd0, Hs0.
  apply bind_Ok_inv in Hrun as ([] & c1 & w1 & H1 & Hrun).
  apply figure_out_sizes_even in H1 as (_ & Hstrict & Heven).
  apply bind_Ok_inv in Hrun as (p & c2 & w2 & H2 & Hrun).
  pose proof (keeps_generate_canvas out_dimensions None c1 w1) as Hd2.
  rewrite H2 in Hd2. simpl in Hd2.
  apply bind_Ok_inv in Hrun as (frames & c3 & w3 & H3 & Hrun).
  pose proof (keeps_core_frames out_dimensions c2 w2) as Hd3.
  rewrite H3 in Hd3. simpl in Hd3.
  apply bind_Ok_inv in Hrun as ([] & c4 & w4 & H4 & Hrun).
  pose proof (keeps_process_pool out_dimensions asciify_single_frame frames
                c3 w3) as Hd4.
  rewrite H4 in Hd4. simpl in Hd4.
  apply bind_Ok_inv in Hrun as (out & c5 & w5 & H5 & Hrun).
  pose proof (keeps_finalize_video out_dimensions "mp4" c4 w4) as Hd5.
  rewrite H5 in Hd5. simpl in Hd5.
  unfold ret in Hrun. injection Hrun as <- _.
  rewrite Hd5, Hd4, Hd3, Hd2. rewrite Hs0 in Hstrict, Heven.
  split; [intros Hs; rewrite (Hstrict Hs); exact Hd0 | exact Heven].
Qed.

End Even.

Lemma video_asciify_even_dimensions_witness :
  let core := demo_core (static (VInt 100) false false)
                (static VNone false false) false (Some 2) (Some 5) in
  let run := video_asciify_body (H := demo_tools) core demo_workspace in
  run.1.1 = Ok tt
  /\ Z.even (out_dimensions run.1.2).1 = true
  /\ Z.even (out_dimensions run.1.2).2 = true.
Proof.
  intros core run.
  assert (Hrun : run = (Ok tt, run.1.2, run.2))
    by (vm_compute; reflexivity).
  destruct (video_asciify_even_dimensions (H := demo_tools) core _
              demo_workspace _ Hrun) as [_ Heven].
  split; [vm_compute; reflexivity | exact (Heven eq_refl)].
Defined.

(** ** The frame that [image.dynamic_asciify] sizes the canvas for *)



